(** * Orion broker: sub-order engine, order hashing and liability planning

    A shallow embedding of [src/Broker.ts], [src/OrionBlockchain.ts] and
    the polling of [src/connectors/CCXTConnector.ts].

    - JavaScript objects used as dictionaries are insertion-ordered
      association lists ([Dictionary]); [for (k in o)] walks the keys in
      that order (keys that look like array indices, which JavaScript
      enumerates first, do not occur: keys are venue and currency names).
    - [BigNumber] values are exact rationals or NaN.
    - JavaScript numbers are IEEE 754 doubles: the value of a finite one
      is an exact rational, and [toNumber] and the product of two
      numbers round to the nearest double, ties to even.
    - Asynchronous methods are state-passing functions over a [World]
      (store, balance snapshot, clock, trace of outgoing calls) that
      return a value or a thrown error.
    - The libraries the code calls (long.js, web3-utils, keccak) are
      modelled from their implementation; typed-data signing, what web3
      hashes for arguments that are not hexadecimal strings, the token
      registry, the venue adapters, the hub's transport and the
      blockchain gateway are parameters. *)

From Stdlib Require Import ZArith QArith Qround Qabs Qpower.
From Stdlib Require Import List String Ascii Bool Lia Lqa.
From Stdlib.Strings Require Import Byte.
Import ListNotations.

Local Open Scope string_scope.
Local Open Scope list_scope.
Local Open Scope Z_scope.

(* ===================================================================== *)
(** * Bytes and hexadecimal strings (web3-utils) *)
(* ===================================================================== *)

Module Hex.

Definition byte_of_Z (z : Z) : byte :=
  match Byte.of_N (Z.to_N (z mod 256)) with
  | Some b => b
  | None => x00
  end.

Definition Z_of_byte (b : byte) : Z := Z.of_N (Byte.to_N b).

(** [n.toString(16)] for [0 <= n < 16]. *)
Definition hexDigit (n : Z) : ascii :=
  match n with
  | 0 => "0" | 1 => "1" | 2 => "2" | 3 => "3" | 4 => "4" | 5 => "5"
  | 6 => "6" | 7 => "7" | 8 => "8" | 9 => "9" | 10 => "a" | 11 => "b"
  | 12 => "c" | 13 => "d" | 14 => "e" | _ => "f"
  end%char.

(** Value of a hexadecimal digit, either case ([/[0-9a-f]/i]). *)
Definition digitValue (c : ascii) : option Z :=
  let n := Z.of_N (N_of_ascii c) in
  if (48 <=? n) && (n <=? 57) then Some (n - 48)
  else if (97 <=? n) && (n <=? 102) then Some (n - 87)
  else if (65 <=? n) && (n <=? 70) then Some (n - 55)
  else None.

(** [Web3.utils.bytesToHex(bytes : number[])]: for every element push
    [(b >>> 4).toString(16)] and [(b & 0xF).toString(16)], then prefix
    ["0x"]. The elements are byte values, so both are one digit. *)
Fixpoint hexDigits (bytes : list Z) : string :=
  match bytes with
  | [] => EmptyString
  | b :: rest =>
      String (hexDigit (Z.shiftr b 4))
        (String (hexDigit (Z.land b 15)) (hexDigits rest))
  end.

Definition bytesToHex (bytes : list Z) : string :=
  String "0" (String "x" (hexDigits bytes)).

(** Pairs of hexadecimal digits back to bytes; [None] on a character
    that is no digit or on an odd number of digits. *)
Fixpoint parseDigits (s : string) : option (list byte) :=
  match s with
  | EmptyString => Some []
  | String _ EmptyString => None
  | String hi (String lo rest) =>
      match digitValue hi, digitValue lo, parseDigits rest with
      | Some h, Some l, Some bs => Some (byte_of_Z (16 * h + l) :: bs)
      | _, _, _ => None
      end
  end.

(** The bytes web3 packs for a string argument that satisfies
    [isHexStrict] ([/^0x[0-9a-f]*$/i]) and has an even number of digits;
    [None] for another string. What web3 does with those (it throws on
    an odd number of digits, packs 40 digits without [0x] as an address
    and other text as UTF-8) is the parameter [web3_packed] of
    [soliditySha3]. *)
Definition hexToBytes (s : string) : option (list byte) :=
  match s with
  | String "0" (String "x" rest) => parseDigits rest
  | String "0" (String "X" rest) => parseDigits rest
  | _ => None
  end.

End Hex.

(* ===================================================================== *)
(** * Keccak-256 *)
(* ===================================================================== *)

Module Keccak.

Definition mask64 : Z := Z.ones 64.

Definition rotl64 (x : Z) (n : Z) : Z :=
  Z.land (Z.lor (Z.shiftl x n) (Z.shiftr x (64 - n))) mask64.

(** The state is 25 lanes of 64 bits, lane [(x, y)] at index [x + 5 y]. *)
Definition lane (st : list Z) (x y : nat) : Z :=
  nth ((x mod 5) + 5 * (y mod 5))%nat st 0.

Definition indices : list nat := seq 0 25.

Definition column (st : list Z) (x : nat) : Z :=
  Z.lxor (lane st x 0)
    (Z.lxor (lane st x 1)
       (Z.lxor (lane st x 2) (Z.lxor (lane st x 3) (lane st x 4)))).

Definition theta (st : list Z) : list Z :=
  map (fun i =>
         let x := (i mod 5)%nat in
         Z.lxor (nth i st 0)
           (Z.lxor (column st (x + 4)) (rotl64 (column st (x + 1)) 1)))
    indices.

Definition rotationOffsets : list Z :=
  [ 0;  1; 62; 28; 27;
   36; 44;  6; 55; 20;
    3; 10; 43; 25; 39;
   41; 45; 15; 21;  8;
   18;  2; 61; 56; 14].

(** Lane [(X, Y)] of the result is lane [(x, y)] of the argument rotated,
    where [X = y] and [Y = 2 x + 3 y]. *)
Definition rhoPi (st : list Z) : list Z :=
  map (fun i =>
         let X := (i mod 5)%nat in
         let Y := (i / 5)%nat in
         let x := ((X + 3 * Y) mod 5)%nat in
         let y := X in
         rotl64 (lane st x y) (nth (x + 5 * y) rotationOffsets 0))
    indices.

Definition chi (st : list Z) : list Z :=
  map (fun i =>
         let x := (i mod 5)%nat in
         let y := (i / 5)%nat in
         Z.lxor (lane st x y)
           (Z.ldiff (lane st (x + 2) y) (lane st (x + 1) y)))
    indices.

Definition iota (rc : Z) (st : list Z) : list Z :=
  match st with
  | [] => []
  | l0 :: rest => Z.lxor l0 rc :: rest
  end.

Definition roundConstants : list Z :=
  [0x0000000000000001; 0x0000000000008082; 0x800000000000808A;
   0x8000000080008000; 0x000000000000808B; 0x0000000080000001;
   0x8000000080008081; 0x8000000000008009; 0x000000000000008A;
   0x0000000000000088; 0x0000000080008009; 0x000000008000000A;
   0x000000008000808B; 0x800000000000008B; 0x8000000000008089;
   0x8000000000008003; 0x8000000000008002; 0x8000000000000080;
   0x000000000000800A; 0x800000008000000A; 0x8000000080008081;
   0x8000000000008080; 0x0000000080000001; 0x8000000080008008].

Definition round (st : list Z) (rc : Z) : list Z :=
  iota rc (chi (rhoPi (theta st))).

Definition permute (st : list Z) : list Z :=
  fold_left round roundConstants st.

(** Little-endian lanes. *)
Fixpoint laneOfBytes (bs : list byte) : Z :=
  match bs with
  | [] => 0
  | b :: rest => Hex.Z_of_byte b + 256 * laneOfBytes rest
  end.

Fixpoint bytesOfLane (n : nat) (l : Z) : list byte :=
  match n with
  | O => []
  | S n' => Hex.byte_of_Z l :: bytesOfLane n' (Z.shiftr l 8)
  end.

Fixpoint chunks {A} (fuel size : nat) (l : list A) : list (list A) :=
  match fuel, l with
  | O, _ => []
  | _, [] => []
  | S fuel', _ => firstn size l :: chunks fuel' size (skipn size l)
  end.

Definition rateBytes : nat := 136.

(** pad10*1 with the Keccak domain bits: [0x01 0x00 ... 0x80] up to a
    multiple of the rate. *)
Definition pad (msg : list byte) : list byte :=
  let k := (rateBytes - (List.length msg mod rateBytes))%nat in
  match k with
  | 1%nat => msg ++ [x81]
  | _ => msg ++ [x01] ++ repeat x00 (k - 2) ++ [x80]
  end.

Definition absorb (st : list Z) (block : list byte) : list Z :=
  let lanes := map laneOfBytes (chunks 17 8 block) in
  permute (map (fun i => Z.lxor (nth i st 0) (nth i lanes 0)) indices).

Definition keccak256 (msg : list byte) : list byte :=
  let padded := pad msg in
  let st := fold_left absorb (chunks (List.length padded) rateBytes padded)
              (repeat 0 25) in
  flat_map (bytesOfLane 8) (firstn 4 st).

End Keccak.

(* ===================================================================== *)
(** * JavaScript numbers and 64-bit integers (long.js) *)
(* ===================================================================== *)

(** The numbers that occur in a blockchain order: [Math.round] of a
    product, a timestamp in milliseconds, a sum of two integers, [0] or
    [1]. They are integers, an infinity or NaN ([-0] is not told from
    [0]: neither the hash nor a test tells them apart). *)
Inductive number : Set :=
| NaN
| Inf (negative : bool)
| Num (z : Z).

(** [n ? a : b] takes [a] unless [n] is [0] or NaN. *)
Definition truthy (n : number) : bool :=
  match n with
  | NaN => false
  | Inf _ => true
  | Num 0 => false
  | Num _ => true
  end.

Module Long.

(** A [Long] is two signed 32-bit halves. *)
Record t : Set := fromBits { low : Z; high : Z }.

(** [x | 0] *)
Definition toInt32 (x : Z) : Z := (x + 2 ^ 31) mod 2 ^ 32 - 2 ^ 31.

(** [x >>> 0] *)
Definition toUint32 (x : Z) : Z := x mod 2 ^ 32.

Definition ZERO : t := fromBits 0 0.
Definition MIN_VALUE : t := fromBits 0 (toInt32 0x80000000).
Definition MAX_VALUE : t := fromBits (toInt32 0xFFFFFFFF) (toInt32 0x7FFFFFFF).

Definition TWO_PWR_32_DBL : Z := 2 ^ 32.
Definition TWO_PWR_63_DBL : Z := 2 ^ 63.

(** The 64 bits of a [Long] read as an unsigned integer. *)
Definition bits (l : t) : Z := toUint32 (high l) * 2 ^ 32 + toUint32 (low l).

(** [l.not().add(ONE)], two's complement negation on 64 bits;
    [MIN_VALUE] is its own negation. *)
Definition neg (l : t) : t :=
  let b := (2 ^ 64 - bits l) mod 2 ^ 64 in
  fromBits (toInt32 (b mod 2 ^ 32)) (toInt32 (b / 2 ^ 32)).

(** [fromBits((value % TWO_PWR_32_DBL) | 0, (value / TWO_PWR_32_DBL) | 0)]
    for [0 <= value]. *)
Definition fromNonNegative (value : Z) : t :=
  fromBits (toInt32 (value mod TWO_PWR_32_DBL))
           (toInt32 (value / TWO_PWR_32_DBL)).

(** [Long.fromNumber(value)], signed, on the integers:
    [if (isNaN(value)) return ZERO;
     if (value <= -TWO_PWR_63_DBL) return MIN_VALUE;
     if (value + 1 >= TWO_PWR_63_DBL) return MAX_VALUE;
     if (value < 0) return fromNumber(-value).neg();
     return fromBits(...)]. An infinity is not NaN and takes the second or
    the third exit. *)
Definition fromNumber (value : number) : t :=
  match value with
  | NaN => ZERO
  | Inf true => MIN_VALUE
  | Inf false => MAX_VALUE
  | Num v =>
      if v <=? - TWO_PWR_63_DBL then MIN_VALUE
      else if TWO_PWR_63_DBL <=? v + 1 then MAX_VALUE
      else if v <? 0 then neg (fromNonNegative (- v))
      else fromNonNegative v
  end.

(** [toBytesBE()]:
    [[hi >>> 24, hi >>> 16 & 0xff, hi >>> 8 & 0xff, hi & 0xff,
      lo >>> 24, lo >>> 16 & 0xff, lo >>> 8 & 0xff, lo & 0xff]] *)
Definition toBytesBE (l : t) : list Z :=
  let hi := high l in
  let lo := low l in
  [ Z.shiftr (toUint32 hi) 24;
    Z.land (Z.shiftr (toUint32 hi) 16) 0xff;
    Z.land (Z.shiftr (toUint32 hi) 8) 0xff;
    Z.land hi 0xff;
    Z.shiftr (toUint32 lo) 24;
    Z.land (Z.shiftr (toUint32 lo) 16) 0xff;
    Z.land (Z.shiftr (toUint32 lo) 8) 0xff;
    Z.land lo 0xff ].

End Long.

(** ** Doubles *)

Module Double.

(** An IEEE 754 binary64 value: NaN, an infinity, or a finite value,
    which is a rational ([-0] is not told from [0]). *)
Inductive t : Set :=
| NaN
| Inf (negative : bool)
| Fin (q : Q).

Definition pow2 (e : Z) : Q := (2 # 1) ^ e.

(** [floor(log2(x))] for [0 < x]: the difference of the bit lengths of
    numerator and denominator, or one less. *)
Definition ilog2 (x : Q) : Z :=
  let e := Z.log2 (Qnum x) - Z.log2 (Z.pos (Qden x)) in
  if Qle_bool (pow2 e) x then e else e - 1.

(** The nearest integer, a half to the even neighbour. *)
Definition roundEven (x : Q) : Z :=
  let f := Qfloor x in
  match (x - inject_Z f ?= 1 # 2)%Q with
  | Lt => f
  | Gt => f + 1
  | Eq => if Z.even f then f else f + 1
  end.

(** The double nearest to the rational [x], ties to even: 53 significant
    bits at the exponent of [x], which is at least [-1022] (below it the
    numbers are subnormal and spaced [2^-1074] apart); a result of
    [2^1024] or more is an infinity. *)
Definition ofQ (x : Q) : t :=
  if Qeq_bool x 0 then Fin 0
  else
    let a := Qabs x in
    let e := Z.max (ilog2 a) (-1022) in
    let ulp := pow2 (e - 52) in
    let r := Qred (inject_Z (roundEven (a / ulp)) * ulp) in
    if Qle_bool (pow2 1024) r then Inf (negb (Qle_bool 0 x))
    else Fin (if Qle_bool 0 x then r else - r).

(** [a * b] *)
Definition mul (a b : t) : t :=
  match a, b with
  | NaN, _ | _, NaN => NaN
  | Fin x, Fin y => ofQ (x * y)
  | Inf s, Fin y | Fin y, Inf s =>
      if Qeq_bool y 0 then NaN else Inf (xorb s (negb (Qle_bool 0 y)))
  | Inf s, Inf s' => Inf (xorb s s')
  end.

End Double.

(* ===================================================================== *)
(** * BigNumber (bignumber.js) *)
(* ===================================================================== *)

(** A [BigNumber] is a decimal fraction, here an exact rational, or NaN
    (the infinities are left out: amounts, balances and limits are parsed
    from decimal strings). Comparisons with NaN are false and arithmetic
    on NaN gives NaN. *)
Inductive BigNumber : Set :=
| BNaN
| BFin (q : Q).

Module BN.

Definition isNaN (a : BigNumber) : bool :=
  match a with BNaN => true | BFin _ => false end.

Definition plus (a b : BigNumber) : BigNumber :=
  match a, b with
  | BFin x, BFin y => BFin (x + y)
  | _, _ => BNaN
  end.

Definition minus (a b : BigNumber) : BigNumber :=
  match a, b with
  | BFin x, BFin y => BFin (x - y)
  | _, _ => BNaN
  end.

(** Division is exact here; bignumber.js rounds a quotient to 20
    decimal places, which divisions by a power of ten of an amount in
    base units do not reach. A division by zero, an infinity or NaN in
    bignumber.js, is NaN. *)
Definition dividedBy (a b : BigNumber) : BigNumber :=
  match a, b with
  | BFin x, BFin y => if Qeq_bool y 0 then BNaN else BFin (x / y)
  | _, _ => BNaN
  end.

Definition eq (a b : BigNumber) : bool :=
  match a, b with
  | BFin x, BFin y => Qeq_bool x y
  | _, _ => false
  end.

Definition lt (a b : BigNumber) : bool :=
  match a, b with
  | BFin x, BFin y => negb (Qle_bool y x)
  | _, _ => false
  end.

Definition gt (a b : BigNumber) : bool := lt b a.

Definition gte (a b : BigNumber) : bool :=
  match a, b with
  | BFin x, BFin y => Qle_bool y x
  | _, _ => false
  end.

Definition ofZ (z : Z) : BigNumber := BFin (inject_Z z).

(** [toNumber()] is [+valueOf(this)]: the decimal notation of the value,
    converted to the nearest double. *)
Definition toNumber (a : BigNumber) : Double.t :=
  match a with
  | BNaN => Double.NaN
  | BFin q => Double.ofQ q
  end.

(** [BigNumber.maximum(a, b)]: NaN when either is NaN, else [b] when
    [a < b] and [a] otherwise. *)
Definition maximum (a b : BigNumber) : BigNumber :=
  match b with
  | BNaN => BNaN
  | BFin _ => if lt a b then b else a
  end.

End BN.

(* ===================================================================== *)
(** * JavaScript objects used as dictionaries *)
(* ===================================================================== *)

Definition Dictionary (V : Type) : Type := list (string * V).

Module Dict.
Section Ops.
Context {V : Type}.

(** [o[k]]; [None] is [undefined]. *)
Fixpoint get (o : Dictionary V) (k : string) : option V :=
  match o with
  | [] => None
  | (k', v) :: rest => if String.eqb k' k then Some v else get rest k
  end.

(** [o[k] = v]: an existing key keeps its place, a new one goes last. *)
Fixpoint set (o : Dictionary V) (k : string) (v : V) : Dictionary V :=
  match o with
  | [] => [(k, v)]
  | (k', v') :: rest =>
      if String.eqb k' k then (k', v) :: rest
      else (k', v') :: set rest k v
  end.

(** The keys [for (k in o)] walks, in order. *)
Definition keys (o : Dictionary V) : list string := map fst o.

End Ops.
End Dict.

(* ===================================================================== *)
(** * Model ([src/Model.ts], [src/db/Db.ts], [src/hub/BrokerHub.ts]) *)
(* ===================================================================== *)

Inductive Side : Set := buy | sell.

Inductive Status : Set := PREPARE | ACCEPTED | FILLED | CANCELED | REJECTED.

Definition Status_eqb (a b : Status) : bool :=
  match a, b with
  | PREPARE, PREPARE | ACCEPTED, ACCEPTED | FILLED, FILLED
  | CANCELED, CANCELED | REJECTED, REJECTED => true
  | _, _ => false
  end.

Module DbSubOrder.
Record t : Set := mk {
  id : Z;
  symbol : string;
  side : Side;
  price : BigNumber;
  amount : BigNumber;
  exchange : string;
  exchangeOrderId : option string;
  timestamp : Z;
  status : Status;
  filledAmount : BigNumber;
  sentToAggregator : bool
}.

Definition set_status (s : t) (v : Status) : t :=
  mk (id s) (symbol s) (side s) (price s) (amount s) (exchange s)
     (exchangeOrderId s) (timestamp s) v (filledAmount s)
     (sentToAggregator s).

Definition set_filledAmount (s : t) (v : BigNumber) : t :=
  mk (id s) (symbol s) (side s) (price s) (amount s) (exchange s)
     (exchangeOrderId s) (timestamp s) (status s) v (sentToAggregator s).

Definition set_exchangeOrderId (s : t) (v : option string) : t :=
  mk (id s) (symbol s) (side s) (price s) (amount s) (exchange s)
     v (timestamp s) (status s) (filledAmount s) (sentToAggregator s).

Definition set_sentToAggregator (s : t) (v : bool) : t :=
  mk (id s) (symbol s) (side s) (price s) (amount s) (exchange s)
     (exchangeOrderId s) (timestamp s) (status s) (filledAmount s) v.
End DbSubOrder.

(** What the venue adapter returns for a placed order; the engine reads
    its [exchangeOrderId] only. *)
Module SubOrder.
Record t : Set := mk { exchangeOrderId : string }.
End SubOrder.

Module Trade.
Record t : Set := mk {
  exchange : string;
  exchangeOrderId : string;
  price : BigNumber;
  amount : BigNumber;
  status : Status
}.
End Trade.

Module BlockchainOrder.
Record t : Set := mk {
  id : string;
  senderAddress : string;
  matcherAddress : string;
  baseAsset : string;
  quoteAsset : string;
  matcherFeeAsset : string;
  amount : number;
  price : number;
  matcherFee : number;
  nonce : number;
  expiration : number;
  buySide : number;
  signature : string
}.

Definition set_id (o : t) (v : string) : t :=
  mk v (senderAddress o) (matcherAddress o) (baseAsset o) (quoteAsset o)
     (matcherFeeAsset o) (amount o) (price o) (matcherFee o) (nonce o)
     (expiration o) (buySide o) (signature o).

Definition set_signature (o : t) (v : string) : t :=
  mk (id o) (senderAddress o) (matcherAddress o) (baseAsset o)
     (quoteAsset o) (matcherFeeAsset o) (amount o) (price o)
     (matcherFee o) (nonce o) (expiration o) (buySide o) v.
End BlockchainOrder.

Module CreateSubOrder.
Record t : Set := mk {
  id : Z;
  symbol : string;
  side : Side;
  price : BigNumber;
  amount : BigNumber;
  exchange : string
}.
End CreateSubOrder.

Module SubOrderStatus.
Record t : Set := mk {
  id : Z;
  status : option Status;
  filledAmount : string;
  blockchainOrder : option BlockchainOrder.t
}.
End SubOrderStatus.

Module SubOrderStatusAccepted.
Record t : Set := mk { id : Z; status : Status }.
End SubOrderStatusAccepted.

Module Liability.
Record t : Set := mk {
  assetName : string;
  outstandingAmount : BigNumber;
  timestamp : Z
}.
End Liability.

Module Transaction.
Inductive Status : Set := PENDING | OK | FAIL.
Record t : Set := mk {
  transactionHash : string;
  method : string;
  asset : string;
  amount : BigNumber;
  createTime : Z;
  status : Status
}.
End Transaction.

Module Withdraw.
Inductive Status : Set := pending | ok | failed | canceled.
Record t : Set := mk {
  exchangeWithdrawId : string;
  exchange : string;
  currency : string;
  amount : BigNumber;
  status : Status
}.
End Withdraw.

Module ExchangeWithdrawLimit.
Record t : Set := mk { min : BigNumber; fee : BigNumber }.
End ExchangeWithdrawLimit.

(** A call either returns a value or throws. Of the message of an error
    the fixed text is kept, without the ids and names the code appends
    to it. *)
Inductive result (A : Type) : Type :=
| Ok (a : A)
| Throw (msg : string).
Arguments Ok {A} a.
Arguments Throw {A} msg.

(* ===================================================================== *)
(** * OrionBlockchain.ts *)
(* ===================================================================== *)

Definition longToHex (long : number) : string :=
  Hex.bytesToHex (Long.toBytesBE (Long.fromNumber long)).

Fixpoint packArgs (args : list string) : option (list byte) :=
  match args with
  | [] => Some []
  | a :: rest =>
      match Hex.hexToBytes a, packArgs rest with
      | Some bs, Some more => Some (bs ++ more)
      | _, _ => None
      end
  end.

Section Web3.

(** web3 detects the type of every argument of [soliditySha3]. The
    bytes it hashes when some argument is not an even-length hexadecimal
    string with [0x] (40 digits without [0x] are packed as an address, a
    decimal numeral as a [uint256], other text as UTF-8) are a
    parameter; [None] where web3 throws, as it does on an odd number of
    digits after [0x]. *)
Variable web3_packed : list string -> option (list byte).

(** [Web3.utils.soliditySha3] on string arguments: every argument that is
    a hexadecimal string is packed tightly as its bytes and the
    concatenation is hashed. [None] when web3 throws. *)
Definition soliditySha3 (args : list string) : option string :=
  let packed :=
    match packArgs args with
    | Some bytes => Some bytes
    | None => web3_packed args
    end in
  match packed with
  | Some bytes =>
      Some (Hex.bytesToHex (map Hex.Z_of_byte (Keccak.keccak256 bytes)))
  | None => None
  end.

Definition hashArgs (order : BlockchainOrder.t) : list string :=
  [ "0x03";
    BlockchainOrder.senderAddress order;
    BlockchainOrder.matcherAddress order;
    BlockchainOrder.baseAsset order;
    BlockchainOrder.quoteAsset order;
    BlockchainOrder.matcherFeeAsset order;
    longToHex (BlockchainOrder.amount order);
    longToHex (BlockchainOrder.price order);
    longToHex (BlockchainOrder.matcherFee order);
    longToHex (BlockchainOrder.nonce order);
    longToHex (BlockchainOrder.expiration order);
    if truthy (BlockchainOrder.buySide order) then "0x01" else "0x00" ].

Definition hashOrder (order : BlockchainOrder.t) : option string :=
  soliditySha3 (hashArgs order).

End Web3.

Definition DEFAULT_EXPIRATION : Z := 29 * 24 * 60 * 60 * 1000.

(** [Math.round(x)] of a finite [x]: the nearest integer, halves
    upwards. *)
Definition Math_round (x : Q) : Z := Qfloor (x + (1 # 2)).

(** [Math.round(amount.toNumber() * 10 ** decimals)] with [decimals = 8]:
    the amount is rounded to a double, the product with [1e8] is rounded
    to a double, and [Math.round] takes the nearest integer of that. *)
Definition toBaseUnit (amount : BigNumber) : number :=
  match Double.mul (BN.toNumber amount) (Double.Fin (inject_Z (10 ^ 8))) with
  | Double.NaN => NaN
  | Double.Inf negative => Inf negative
  | Double.Fin x => Num (Math_round x)
  end.

Definition counterSide (side : Side) : number :=
  match side with
  | buy => Num 0
  | sell => Num 1
  end.

(** [number + number]. The sum of two integers is taken exactly, as the
    sum of two doubles is when it is below [2^53]: so it is for a
    timestamp in milliseconds and the 29 days added to it, and
    eth-sig-util signs no nonce and no expiration from [2^53] on. *)
Definition num_add (a b : number) : number :=
  match a, b with
  | Num x, Num y => Num (x + y)
  | Inf s, Num _ | Num _, Inf s => Inf s
  | Inf s, Inf s' => if Bool.eqb s s' then Inf s else NaN
  | _, _ => NaN
  end.

Module OrionBlockchain.

(** The fields the constructor sets. *)
Record t : Set := mk {
  chainId : Z;
  matcherAddress : string;
  bufferKey : string;
  address : string
}.

Section Signing.

(** The token registry of [src/main.ts], which is not part of the
    sources at hand: [tokens.symbolToAddresses(symbol)] gives the base
    and the quote asset, [tokens.nameToAddress[name]] an asset's
    address. *)
Variable symbolToAddresses : string -> string * string.
Variable nameToAddress : string -> string.

(** What web3 hashes for arguments that are not hexadecimal strings. *)
Variable web3_packed : list string -> option (list byte).

(** [signTypedMessage(key, {data}, 'V4')] of eth-sig-util, by the key,
    the chain id of the domain and the message: the signature, or the
    error it throws (as it does for a [uint64] field that is negative,
    not below [2^53] or NaN). *)
Variable signTypedMessage : string -> Z -> BlockchainOrder.t -> result string.

Variable self : t.

Definition signOrder (order : BlockchainOrder.t) : result string :=
  signTypedMessage (bufferKey self) (chainId self) order.

Definition createBlockchainOrder (subOrder : DbSubOrder.t) (trade : Trade.t)
  : BlockchainOrder.t :=
  let assets := symbolToAddresses (DbSubOrder.symbol subOrder) in
  let buySide := counterSide (DbSubOrder.side subOrder) in
  let matcherFeeAsset := nameToAddress "ORN" in
  {| BlockchainOrder.id := EmptyString;
     BlockchainOrder.senderAddress := address self;
     BlockchainOrder.matcherAddress := matcherAddress self;
     BlockchainOrder.baseAsset := fst assets;
     BlockchainOrder.quoteAsset := snd assets;
     BlockchainOrder.matcherFeeAsset := matcherFeeAsset;
     BlockchainOrder.amount := toBaseUnit (Trade.amount trade);
     BlockchainOrder.price := toBaseUnit (Trade.price trade);
     BlockchainOrder.matcherFee := Num 0;
     BlockchainOrder.nonce := Num (DbSubOrder.timestamp subOrder);
     BlockchainOrder.expiration :=
       num_add (Num (DbSubOrder.timestamp subOrder)) (Num DEFAULT_EXPIRATION);
     BlockchainOrder.buySide := buySide;
     BlockchainOrder.signature := EmptyString |}.

(** [signTrade]; it throws when hashing or signing does. *)
Definition signTrade (subOrder : DbSubOrder.t) (trade : Trade.t)
  : result BlockchainOrder.t :=
  let bo := createBlockchainOrder subOrder trade in
  match hashOrder web3_packed bo with
  | None => Throw "soliditySha3"
  | Some h =>
      let bo := BlockchainOrder.set_id bo h in
      match signOrder bo with
      | Throw msg => Throw msg
      | Ok signature => Ok (BlockchainOrder.set_signature bo signature)
      end
  end.

End Signing.

End OrionBlockchain.

(* ===================================================================== *)
(** * The canonical form of an order, in the words of the specification *)
(* ===================================================================== *)

(** [z] as an [n]-byte big-endian unsigned integer. *)
Fixpoint bigEndian (n : nat) (z : Z) : list byte :=
  match n with
  | O => []
  | S n' => bigEndian n' (z / 256) ++ [Hex.byte_of_Z z]
  end.

(** The value of big-endian bytes. *)
Definition fromBigEndian (bytes : list byte) : Z :=
  fold_left (fun acc b => 256 * acc + Hex.Z_of_byte b) bytes 0.

(** What of an order is hashed: five addresses as bytes, five integers
    and the side. *)
Module Canonical.
Record t : Set := mk {
  sender : list byte;
  matcher : list byte;
  baseAsset : list byte;
  quoteAsset : list byte;
  matcherFeeAsset : list byte;
  amount : Z;
  price : Z;
  matcherFee : Z;
  nonce : Z;
  expiration : Z;
  buy : bool
}.
End Canonical.

(** The byte concatenation of the tag [0x03], the five addresses, the
    five integers as big-endian 8-byte unsigned integers, and the side as
    one byte, 1 for buy and 0 for sell. *)
Definition orderBytes (c : Canonical.t) : list byte :=
  [x03]
  ++ Canonical.sender c
  ++ Canonical.matcher c
  ++ Canonical.baseAsset c
  ++ Canonical.quoteAsset c
  ++ Canonical.matcherFeeAsset c
  ++ bigEndian 8 (Canonical.amount c)
  ++ bigEndian 8 (Canonical.price c)
  ++ bigEndian 8 (Canonical.matcherFee c)
  ++ bigEndian 8 (Canonical.nonce c)
  ++ bigEndian 8 (Canonical.expiration c)
  ++ [if Canonical.buy c then x01 else x00].

(** The order [o] reads as [c]: its address strings are the hexadecimal
    notation of the addresses of [c], its numbers are the integers of
    [c], and its [buySide] is truthy exactly when [c] buys. *)
Definition decodes (o : BlockchainOrder.t) (c : Canonical.t) : Prop :=
  Hex.hexToBytes (BlockchainOrder.senderAddress o) = Some (Canonical.sender c)
  /\ Hex.hexToBytes (BlockchainOrder.matcherAddress o) = Some (Canonical.matcher c)
  /\ Hex.hexToBytes (BlockchainOrder.baseAsset o) = Some (Canonical.baseAsset c)
  /\ Hex.hexToBytes (BlockchainOrder.quoteAsset o) = Some (Canonical.quoteAsset c)
  /\ Hex.hexToBytes (BlockchainOrder.matcherFeeAsset o)
     = Some (Canonical.matcherFeeAsset c)
  /\ BlockchainOrder.amount o = Num (Canonical.amount c)
  /\ BlockchainOrder.price o = Num (Canonical.price c)
  /\ BlockchainOrder.matcherFee o = Num (Canonical.matcherFee c)
  /\ BlockchainOrder.nonce o = Num (Canonical.nonce c)
  /\ BlockchainOrder.expiration o = Num (Canonical.expiration c)
  /\ truthy (BlockchainOrder.buySide o) = Canonical.buy c.

(** Addresses of 20 bytes and integers that a signed 64-bit integer holds
    without a sign. *)
Definition inRange (c : Canonical.t) : Prop :=
  List.length (Canonical.sender c) = 20%nat
  /\ List.length (Canonical.matcher c) = 20%nat
  /\ List.length (Canonical.baseAsset c) = 20%nat
  /\ List.length (Canonical.quoteAsset c) = 20%nat
  /\ List.length (Canonical.matcherFeeAsset c) = 20%nat
  /\ 0 <= Canonical.amount c < 2 ^ 63
  /\ 0 <= Canonical.price c < 2 ^ 63
  /\ 0 <= Canonical.matcherFee c < 2 ^ 63
  /\ 0 <= Canonical.nonce c < 2 ^ 63
  /\ 0 <= Canonical.expiration c < 2 ^ 63.

(** A string web3 packs as bytes. *)
Definition isHexString (s : string) : Prop :=
  exists bytes, Hex.hexToBytes s = Some bytes.

(* ===================================================================== *)
(** * The store ([src/db/Db.ts]) *)
(* ===================================================================== *)

(** A string is falsy when it is [undefined] or empty. *)
Definition str_truthy (s : option string) : bool :=
  match s with
  | Some s' => negb (String.eqb s' EmptyString)
  | None => false
  end.

Definition opt_string_eqb (a : option string) (b : string) : bool :=
  match a with
  | Some a' => String.eqb a' b
  | None => false
  end.

Module Db.

(** Modelled from the spec: [src/db/Db.ts] is not among the sources. The
    store holds four tables, sub-orders, trades, withdrawals and
    on-chain transactions, as rows in insertion order. *)
Record t : Set := mk {
  subOrders : list DbSubOrder.t;
  trades : list Trade.t;
  withdraws : list Withdraw.t;
  transactions : list Transaction.t
}.

(** Modelled from the spec: [getSubOrderById(id)], the sub-order whose
    primary key is [id], if any. *)
Definition getSubOrderById (id : Z) (db : t) : option DbSubOrder.t :=
  find (fun s => DbSubOrder.id s =? id) (subOrders db).

(** Modelled from the spec: [getSubOrder(exchange, exchangeOrderId)],
    the secondary lookup of a sub-order by venue and venue order id. *)
Definition getSubOrder (exchange exchangeOrderId : string) (db : t)
  : option DbSubOrder.t :=
  find (fun s => String.eqb (DbSubOrder.exchange s) exchange
                 && opt_string_eqb (DbSubOrder.exchangeOrderId s) exchangeOrderId)
    (subOrders db).

(** Modelled from the spec: [insertSubOrder], idempotent, the id is
    unique: a row is added unless the id is taken. *)
Definition insertSubOrder (s : DbSubOrder.t) (db : t) : t :=
  match getSubOrderById (DbSubOrder.id s) db with
  | Some _ => db
  | None => mk (subOrders db ++ [s]) (trades db) (withdraws db) (transactions db)
  end.

(** Modelled from the spec: [updateSubOrder], the row with the id of
    the argument is replaced by the argument. *)
Definition updateSubOrder (s : DbSubOrder.t) (db : t) : t :=
  mk (map (fun r => if DbSubOrder.id r =? DbSubOrder.id s then s else r)
        (subOrders db))
     (trades db) (withdraws db) (transactions db).

(** Modelled from the spec: [insertTrade] adds a row. Nothing keeps a
    second trade of the same venue order out: [getSubOrderTrades]
    returns an array and its caller checks for more than one element. *)
Definition insertTrade (tr : Trade.t) (db : t) : t :=
  mk (subOrders db) (trades db ++ [tr]) (withdraws db) (transactions db).

(** Modelled from the spec: [getSubOrderTrades(exchange,
    exchangeOrderId)], the trades keyed on that venue order. *)
Definition getSubOrderTrades (exchange exchangeOrderId : string) (db : t)
  : list Trade.t :=
  filter (fun tr => String.eqb (Trade.exchange tr) exchange
                    && String.eqb (Trade.exchangeOrderId tr) exchangeOrderId)
    (trades db).

(** Modelled from the spec: [insertWithdraw] adds a row. *)
Definition insertWithdraw (w : Withdraw.t) (db : t) : t :=
  mk (subOrders db) (trades db) (withdraws db ++ [w]) (transactions db).

(** Modelled from the spec: [getWithdrawsToCheck], status = pending. *)
Definition getWithdrawsToCheck (db : t) : list Withdraw.t :=
  filter (fun w => match Withdraw.status w with
                   | Withdraw.pending => true
                   | _ => false
                   end)
    (withdraws db).

(** Modelled from the spec: [insetTransaction] (the name the code
    calls) adds a row. *)
Definition insetTransaction (tx : Transaction.t) (db : t) : t :=
  mk (subOrders db) (trades db) (withdraws db) (transactions db ++ [tx]).

(** Modelled from the spec: [getPendingTransactions], status = PENDING. *)
Definition getPendingTransactions (db : t) : list Transaction.t :=
  filter (fun tx => match Transaction.status tx with
                    | Transaction.PENDING => true
                    | _ => false
                    end)
    (transactions db).

Definition empty : t := mk [] [] [] [].

End Db.

(* ===================================================================== *)
(** * The world a handler runs in *)
(* ===================================================================== *)

(** Calls that leave the broker. *)
Inductive Event : Type :=
| Connectors_submitSubOrder (exchange : string) (id : Z) (symbol : string)
    (side : Side) (amount price : BigNumber)
| Connectors_cancelSubOrder (subOrder : DbSubOrder.t)
| Connectors_withdraw (exchange assetName : string) (amount : BigNumber)
    (address : string)
| OrionBlockchain_depositETH (amount : BigNumber)
| OrionBlockchain_depositERC20 (amount : BigNumber) (assetName : string)
| WebUI_sendToFrontend (data : DbSubOrder.t)
| BrokerHub_sendSubOrderStatus (data : SubOrderStatus.t)
| BrokerHub_sendBalances (data : Dictionary (Dictionary string)).

Module World.
Record t : Type := mk {
  db : Db.t;
  lastBalances : Dictionary (Dictionary BigNumber);
  (** [Date.now()], in milliseconds *)
  now : Z;
  (** how many requests the blockchain gateway has answered *)
  requests : nat;
  (** [webUI.lastBalancesJson] *)
  webUI_lastBalancesJson : string;
  (** what [brokerHub.getLastBalancesJson()] returns *)
  hub_lastBalancesJson : string;
  trace : list Event
}.

Definition set_db (w : t) (v : Db.t) : t :=
  mk v (lastBalances w) (now w) (requests w) (webUI_lastBalancesJson w)
     (hub_lastBalancesJson w) (trace w).

Definition set_lastBalances (w : t) (v : Dictionary (Dictionary BigNumber)) : t :=
  mk (db w) v (now w) (requests w) (webUI_lastBalancesJson w)
     (hub_lastBalancesJson w) (trace w).

Definition set_now (w : t) (v : Z) : t :=
  mk (db w) (lastBalances w) v (requests w) (webUI_lastBalancesJson w)
     (hub_lastBalancesJson w) (trace w).

Definition set_requests (w : t) (v : nat) : t :=
  mk (db w) (lastBalances w) (now w) v (webUI_lastBalancesJson w)
     (hub_lastBalancesJson w) (trace w).

Definition set_webUI_lastBalancesJson (w : t) (v : string) : t :=
  mk (db w) (lastBalances w) (now w) (requests w) v
     (hub_lastBalancesJson w) (trace w).

Definition set_hub_lastBalancesJson (w : t) (v : string) : t :=
  mk (db w) (lastBalances w) (now w) (requests w)
     (webUI_lastBalancesJson w) v (trace w).

Definition set_trace (w : t) (v : list Event) : t :=
  mk (db w) (lastBalances w) (now w) (requests w)
     (webUI_lastBalancesJson w) (hub_lastBalancesJson w) v.
End World.

(** An asynchronous method: from a world to what it returns or throws,
    and the world it leaves. *)
Definition M (A : Type) : Type := World.t -> result A * World.t.

Definition ret {A} (a : A) : M A := fun w => (Ok a, w).

Definition throw {A} (msg : string) : M A := fun w => (Throw msg, w).

Definition bind {A B} (c : M A) (k : A -> M B) : M B :=
  fun w =>
    match c w with
    | (Ok a, w') => k a w'
    | (Throw msg, w') => (Throw msg, w')
    end.

(** [try { c } catch (e) { log }] *)
Definition try_log (c : M unit) : M unit :=
  fun w =>
    match c w with
    | (Ok a, w') => (Ok a, w')
    | (Throw _, w') => (Ok tt, w')
    end.

Definition lift {A} (r : result A) : M A := fun w => (r, w).

Definition reads {A} (f : World.t -> A) : M A := fun w => (Ok (f w), w).

Definition modify (f : World.t -> World.t) : M unit := fun w => (Ok tt, f w).

Definition emit (e : Event) : M unit :=
  modify (fun w => World.set_trace w (World.trace w ++ [e])).

Definition writeDb (f : Db.t -> Db.t) : M unit :=
  modify (fun w => World.set_db w (f (World.db w))).

Declare Scope broker_scope.
Delimit Scope broker_scope with broker.
Notation "x <- c ;; k" := (bind c (fun x => k))
  (at level 61, c at next level, right associativity) : broker_scope.
Notation "c ;; k" := (bind c (fun _ => k))
  (at level 61, right associativity) : broker_scope.
Local Open Scope broker_scope.

(* ===================================================================== *)
(** * Broker.ts *)
(* ===================================================================== *)

(** [ExchangeResolve<T>]: what polling one venue gave, an error or a
    result. *)
Module ExchangeResolve.
Record t (A : Type) : Type := mk { error : option string; result : option A }.
Arguments mk {A} error result.
Arguments error {A} _.
Arguments result {A} _.
End ExchangeResolve.

(** The [Connector] interface, as far as the broker calls it. *)
Module Connector.
Record t : Type := mk {
  hasWithdraw : bool;
  getWithdrawLimit : string -> result (option ExchangeWithdrawLimit.t)
}.
End Connector.

(** [o[k1][k2] = v]. On a missing [o[k1]] JavaScript throws a TypeError;
    the callers set [o[k1]] first. *)
Definition set2 {V} (o : Dictionary (Dictionary V)) (k1 k2 : string) (v : V)
  : Dictionary (Dictionary V) :=
  match Dict.get o k1 with
  | Some inner => Dict.set o k1 (Dict.set inner k2 v)
  | None => o
  end.

(** [o[k1][k2]]; [None] when either lookup is [undefined] (the second is
    then a TypeError). *)
Definition get2 {V} (o : Dictionary (Dictionary V)) (k1 k2 : string) : option V :=
  match Dict.get o k1 with
  | Some inner => Dict.get inner k2
  | None => None
  end.

(** [dbSubOrder.exchangeOrderId
      ? db.getSubOrderTrades(dbSubOrder.exchange, dbSubOrder.exchangeOrderId)
      : []] *)
Definition subOrderTrades (dbSubOrder : DbSubOrder.t) (db : Db.t) : list Trade.t :=
  match DbSubOrder.exchangeOrderId dbSubOrder with
  | Some exchangeOrderId =>
      if str_truthy (Some exchangeOrderId)
      then Db.getSubOrderTrades (DbSubOrder.exchange dbSubOrder) exchangeOrderId db
      else []
  | None => []
  end.

Definition fromWei (wei : BigNumber) (decimals : Z) : BigNumber :=
  BN.dividedBy wei (BN.ofZ (10 ^ decimals)).

Definition fromWei8 (wei : BigNumber) : BigNumber := fromWei wei 8.

Definition Qlt_bool (a b : Q) : bool := negb (Qle_bool b a).

Section Broker.

(** ** Collaborators *)

(** [settings.duePeriodSeconds] *)
Variable duePeriodSeconds : Z.

(** The chain client and what it is parameterised by. *)
Variable orionBlockchain : OrionBlockchain.t.
Variable symbolToAddresses : string -> string * string.
Variable nameToAddress : string -> string.
Variable web3_packed : list string -> option (list byte).
Variable signTypedMessage : string -> Z -> BlockchainOrder.t -> result string.

(** [BigNumber.prototype.toString] and [JSON.stringify]. *)
Variable BigNumber_toString : BigNumber -> string.
Variable JSON_stringify : Dictionary (Dictionary string) -> string.

(** Modelled from the spec: [src/hub/BrokerHub.ts] is not among the
    sources, and the transport to the hub may fail. What the promise of
    [brokerHub.sendBalances(data)] settles to when the call is the
    [n]-th event of the run: resolved, or rejected with a message. *)
Variable brokerHub_sendBalances :
  nat -> Dictionary (Dictionary string) -> result unit.

(** [Connectors] ([src/connectors/Connectors.ts], not among the
    sources): the venue adapters by venue id. Each call returns or
    throws. *)
Variable connector_getConnector : string -> result Connector.t.
Variable connector_submitSubOrder :
  string -> Z -> string -> Side -> BigNumber -> BigNumber -> result SubOrder.t.
Variable connector_hasWithdraw : string -> result bool.
Variable connector_withdraw :
  string -> string -> BigNumber -> string -> result (option string).

(** The blockchain gateway. Its answer to the [n]-th request of the
    broker: wallet balances, an allowance, and the hash of a broadcast
    deposit (the methods of [OrionBlockchain] that build, sign and post
    the transaction). *)
Variable gateway_getWalletBalance : nat -> result (Dictionary BigNumber).
Variable gateway_getAllowance : nat -> string -> result BigNumber.
Variable gateway_depositETH : nat -> BigNumber -> result string.
Variable gateway_depositERC20 : nat -> BigNumber -> string -> result string.

Definition signTrade : DbSubOrder.t -> Trade.t -> M BlockchainOrder.t :=
  fun subOrder trade =>
    lift (OrionBlockchain.signTrade symbolToAddresses nameToAddress
            web3_packed signTypedMessage orionBlockchain subOrder trade).

(** One request to the gateway. *)
Definition request {A} (answer : nat -> result A) : M A :=
  fun w =>
    (answer (World.requests w),
     World.set_requests w (S (World.requests w))).

Definition getWalletBalance : M (Dictionary BigNumber) :=
  request gateway_getWalletBalance.

Definition getAllowance (assetName : string) : M BigNumber :=
  request (fun n => gateway_getAllowance n assetName).

(** [OrionBlockchain.depositETH]: the transaction is posted and comes
    back as a pending [Transaction]. *)
Definition depositETH (amount : BigNumber) : M Transaction.t :=
  emit (OrionBlockchain_depositETH amount) ;;
  transactionHash <- request (fun n => gateway_depositETH n amount) ;;
  createTime <- reads World.now ;;
  ret {| Transaction.transactionHash := transactionHash;
         Transaction.method := "deposit";
         Transaction.asset := "ETH";
         Transaction.amount := amount;
         Transaction.createTime := createTime;
         Transaction.status := Transaction.PENDING |}.

(** [OrionBlockchain.depositERC20] *)
Definition depositERC20 (amount : BigNumber) (assetName : string)
  : M Transaction.t :=
  emit (OrionBlockchain_depositERC20 amount assetName) ;;
  transactionHash <- request (fun n => gateway_depositERC20 n amount assetName) ;;
  createTime <- reads World.now ;;
  ret {| Transaction.transactionHash := transactionHash;
         Transaction.method := "depositAsset";
         Transaction.asset := assetName;
         Transaction.amount := amount;
         Transaction.createTime := createTime;
         Transaction.status := Transaction.PENDING |}.

(** ** Hub handlers *)

Definition onSubOrderStatusAccepted (data : SubOrderStatusAccepted.t) : M unit :=
  let id := SubOrderStatusAccepted.id data in
  found <- reads (fun w => Db.getSubOrderById id (World.db w)) ;;
  match found with
  | None => throw "Suborder not found"
  | Some dbSubOrder =>
      let rejectedByAggregator :=
        Status_eqb (SubOrderStatusAccepted.status data) REJECTED
        && negb (Status_eqb (DbSubOrder.status dbSubOrder) REJECTED) in
      let dbSubOrder :=
        if rejectedByAggregator
        then DbSubOrder.set_status dbSubOrder REJECTED
        else dbSubOrder in
      let isStatusFinal :=
        negb (Status_eqb (DbSubOrder.status dbSubOrder) PREPARE)
        && negb (Status_eqb (DbSubOrder.status dbSubOrder) ACCEPTED) in
      if rejectedByAggregator
         || (Status_eqb (DbSubOrder.status dbSubOrder)
               (SubOrderStatusAccepted.status data)
             && isStatusFinal)
      then
        let dbSubOrder := DbSubOrder.set_sentToAggregator dbSubOrder true in
        writeDb (Db.updateSubOrder dbSubOrder) ;;
        emit (WebUI_sendToFrontend dbSubOrder)
      else ret tt
  end.

Definition onCheckSubOrder (id : Z) : M SubOrderStatus.t :=
  found <- reads (fun w => Db.getSubOrderById id (World.db w)) ;;
  match found with
  | None =>
      ret {| SubOrderStatus.id := id;
             SubOrderStatus.status := None;
             SubOrderStatus.filledAmount := "0";
             SubOrderStatus.blockchainOrder := None |}
  | Some dbSubOrder =>
      trades <- reads (fun w => subOrderTrades dbSubOrder (World.db w)) ;;
      if (1 <? List.length trades)%nat
      then throw "Cant support multiple trades yet"
      else
        blockchainOrder <-
          match trades with
          | [] => ret None
          | trade :: _ =>
              bo <- signTrade dbSubOrder trade ;;
              ret (Some bo)
          end ;;
        ret {| SubOrderStatus.id := id;
               SubOrderStatus.status :=
                 Some (if Status_eqb (DbSubOrder.status dbSubOrder) PREPARE
                       then ACCEPTED
                       else DbSubOrder.status dbSubOrder);
               SubOrderStatus.filledAmount :=
                 BigNumber_toString (DbSubOrder.filledAmount dbSubOrder);
               SubOrderStatus.blockchainOrder := blockchainOrder |}
  end.

Definition onCreateSubOrder (request : CreateSubOrder.t) : M SubOrderStatus.t :=
  oldSubOrder <- reads (fun w =>
                   Db.getSubOrderById (CreateSubOrder.id request) (World.db w)) ;;
  match oldSubOrder with
  | Some _ => onCheckSubOrder (CreateSubOrder.id request)
  | None =>
      now <- reads World.now ;;
      let dbSubOrder :=
        {| DbSubOrder.id := CreateSubOrder.id request;
           DbSubOrder.symbol := CreateSubOrder.symbol request;
           DbSubOrder.side := CreateSubOrder.side request;
           DbSubOrder.price := CreateSubOrder.price request;
           DbSubOrder.amount := CreateSubOrder.amount request;
           DbSubOrder.exchange := CreateSubOrder.exchange request;
           DbSubOrder.exchangeOrderId := None;
           DbSubOrder.timestamp := now;
           DbSubOrder.status := PREPARE;
           DbSubOrder.filledAmount := BN.ofZ 0;
           DbSubOrder.sentToAggregator := false |} in
      writeDb (Db.insertSubOrder dbSubOrder) ;;
      emit (Connectors_submitSubOrder (CreateSubOrder.exchange request)
              (DbSubOrder.id dbSubOrder) (DbSubOrder.symbol dbSubOrder)
              (DbSubOrder.side dbSubOrder) (DbSubOrder.amount dbSubOrder)
              (DbSubOrder.price dbSubOrder)) ;;
      let dbSubOrder :=
        match connector_submitSubOrder (CreateSubOrder.exchange request)
                (DbSubOrder.id dbSubOrder) (DbSubOrder.symbol dbSubOrder)
                (DbSubOrder.side dbSubOrder) (DbSubOrder.amount dbSubOrder)
                (DbSubOrder.price dbSubOrder) with
        | Throw _ => DbSubOrder.set_status dbSubOrder REJECTED
        | Ok subOrder =>
            DbSubOrder.set_status
              (DbSubOrder.set_exchangeOrderId dbSubOrder
                 (Some (SubOrder.exchangeOrderId subOrder)))
              ACCEPTED
        end in
      writeDb (Db.updateSubOrder dbSubOrder) ;;
      emit (WebUI_sendToFrontend dbSubOrder) ;;
      onCheckSubOrder (DbSubOrder.id dbSubOrder)
  end.

(** ** Balances *)

(** The body of the inner loop,
    [for (const currency in exchangeBalances.result)], on the pair of
    [exchanges] and [this.lastBalances]. *)
Definition copyCurrency (exchange : string) (result : Dictionary BigNumber)
    (acc : Dictionary (Dictionary string) * Dictionary (Dictionary BigNumber))
    (currency : string)
  : Dictionary (Dictionary string) * Dictionary (Dictionary BigNumber) :=
  match Dict.get result currency with
  | Some v =>
      (set2 (fst acc) exchange currency (BigNumber_toString v),
       set2 (snd acc) exchange currency v)
  | None => acc
  end.

(** The body of the outer loop, [for (const exchange in balances)]. *)
Definition copyExchange
    (balances : Dictionary (ExchangeResolve.t (Dictionary BigNumber)))
    (acc : Dictionary (Dictionary string) * Dictionary (Dictionary BigNumber))
    (exchange : string)
  : Dictionary (Dictionary string) * Dictionary (Dictionary BigNumber) :=
  match Dict.get balances exchange with
  | None => acc
  | Some exchangeBalances =>
      if str_truthy (ExchangeResolve.error exchangeBalances)
      then acc
      else
        let lastBalances := Dict.set (snd acc) exchange [] in
        let exchanges := Dict.set (fst acc) exchange [] in
        match ExchangeResolve.result exchangeBalances with
        | None => (exchanges, lastBalances)
        | Some result =>
            fold_left (copyCurrency exchange result) (Dict.keys result)
              (exchanges, lastBalances)
        end
  end.

(** Modelled from the spec: [src/hub/BrokerHub.ts] is not among the
    sources. [sendBalances(data)] sends the payload to the hub, and
    [getLastBalancesJson()] returns the last payload successfully sent,
    as JSON: a send that fails throws and leaves it as it was. *)
Definition sendBalances (exchanges : Dictionary (Dictionary string)) : M unit :=
  n <- reads (fun w => List.length (World.trace w)) ;;
  emit (BrokerHub_sendBalances exchanges) ;;
  lift (brokerHub_sendBalances n exchanges) ;;
  modify (fun w => World.set_hub_lastBalancesJson w (JSON_stringify exchanges)).

Definition sendUpdateBalance
    (balances : Dictionary (ExchangeResolve.t (Dictionary BigNumber))) : M unit :=
  let final := fold_left (copyExchange balances) (Dict.keys balances) ([], []) in
  let exchanges := fst final in
  modify (fun w => World.set_lastBalances w (snd final)) ;;
  let newBalancesJson := JSON_stringify exchanges in
  last <- reads World.hub_lastBalancesJson ;;
  if String.eqb last newBalancesJson
  then ret tt
  else
    modify (fun w => World.set_webUI_lastBalancesJson w newBalancesJson) ;;
    sendBalances exchanges.

(** ** Trades *)

Definition onTrade (trade : Trade.t) : M unit :=
  try_log (
    found <- reads (fun w =>
               Db.getSubOrder (Trade.exchange trade)
                 (Trade.exchangeOrderId trade) (World.db w)) ;;
    match found with
    | None => throw "Suborder not found"
    | Some dbSubOrder =>
        if negb (Status_eqb (Trade.status trade) FILLED)
           && negb (Status_eqb (Trade.status trade) CANCELED)
        then throw "Unexpected trade status"
        else if Status_eqb (Trade.status trade) FILLED
                && negb (BN.eq (DbSubOrder.amount dbSubOrder) (Trade.amount trade))
        then throw "Partially trade not supported yet"
        else
          let dbSubOrder := DbSubOrder.set_filledAmount dbSubOrder (Trade.amount trade) in
          let dbSubOrder := DbSubOrder.set_status dbSubOrder (Trade.status trade) in
          (if BN.gt (DbSubOrder.filledAmount dbSubOrder) (BN.ofZ 0)
           then writeDb (Db.insertTrade trade)
           else ret tt) ;;
          writeDb (Db.updateSubOrder dbSubOrder) ;;
          st <- onCheckSubOrder (DbSubOrder.id dbSubOrder) ;;
          emit (BrokerHub_sendSubOrderStatus st) ;;
          emit (WebUI_sendToFrontend dbSubOrder)
    end).

(** ** Deposit and withdraw *)

(** The body of the [try] for one venue; [None] is [continue], a caught
    exception, or a balance that does not exceed the amount. *)
Definition venueForWithdraw (lastBalances : Dictionary (Dictionary BigNumber))
    (amount : BigNumber) (assetName exchange : string) : option BigNumber :=
  match connector_getConnector exchange with
  | Throw _ => None
  | Ok connector =>
      if negb (Connector.hasWithdraw connector) then None
      else
        match Connector.getWithdrawLimit connector assetName with
        | Throw _ => None
        | Ok None => None
        | Ok (Some withdrawLimit) =>
            if BN.isNaN (ExchangeWithdrawLimit.fee withdrawLimit)
               || BN.isNaN (ExchangeWithdrawLimit.min withdrawLimit)
            then None
            else
              let amountWithFee :=
                BN.plus amount (ExchangeWithdrawLimit.fee withdrawLimit) in
              let amountWithFee :=
                if BN.lt amountWithFee (ExchangeWithdrawLimit.min withdrawLimit)
                then ExchangeWithdrawLimit.min withdrawLimit
                else amountWithFee in
              match get2 lastBalances exchange assetName with
              | None => None
              | Some balance =>
                  if BN.gt balance amountWithFee then Some amountWithFee else None
              end
        end
  end.

Fixpoint forExchanges (lastBalances : Dictionary (Dictionary BigNumber))
    (amount : BigNumber) (assetName : string) (exchanges : list string)
  : option (string * BigNumber) :=
  match exchanges with
  | [] => None
  | exchange :: rest =>
      match venueForWithdraw lastBalances amount assetName exchange with
      | Some amountWithFee => Some (exchange, amountWithFee)
      | None => forExchanges lastBalances amount assetName rest
      end
  end.

Definition getExchangeForWithdraw (amount : BigNumber) (assetName : string)
  : M (option (string * BigNumber)) :=
  reads (fun w =>
    forExchanges (World.lastBalances w) amount assetName
      (Dict.keys (World.lastBalances w))).

Definition exchangeWithdraw (exchange : string) (amount : BigNumber)
    (assetName : string) : M unit :=
  supported <- lift (connector_hasWithdraw exchange) ;;
  if negb supported then ret tt
  else
    emit (Connectors_withdraw exchange assetName amount
            (OrionBlockchain.address orionBlockchain)) ;;
    exchangeWithdrawId <-
      lift (connector_withdraw exchange assetName amount
              (OrionBlockchain.address orionBlockchain)) ;;
    if str_truthy exchangeWithdrawId
    then
      match exchangeWithdrawId with
      | Some exchangeWithdrawId =>
          writeDb (Db.insertWithdraw
                     {| Withdraw.exchangeWithdrawId := exchangeWithdrawId;
                        Withdraw.exchange := exchange;
                        Withdraw.currency := assetName;
                        Withdraw.amount := amount;
                        Withdraw.status := Withdraw.pending |})
      | None => ret tt
      end
    else ret tt.

Definition deposit (amount : BigNumber) (assetName : string) : M unit :=
  balance <- getWalletBalance ;;
  match Dict.get balance assetName with
  | None => throw "TypeError"
  | Some assetBalance =>
      if BN.lt assetBalance amount then ret tt
      else
        transaction <-
          (if String.eqb assetName "ETH"
           then
             tx <- depositETH amount ;;
             ret (Some tx)
           else
             allowance <- getAllowance assetName ;;
             if BN.gte allowance amount
             then
               tx <- depositERC20 amount assetName ;;
               ret (Some tx)
             else ret None) ;;
        match transaction with
        | Some tx => writeDb (Db.insetTransaction tx)
        | None => ret tt
        end
  end.

(** ** Liabilities *)

Definition manageLiability (liability : Liability.t) : M unit :=
  nowMs <- reads World.now ;;
  let now := (inject_Z nowMs / inject_Z 1000)%Q in
  if BN.gt (Liability.outstandingAmount liability) (BN.ofZ 0)
     && Qlt_bool (inject_Z duePeriodSeconds)
          (now - inject_Z (Liability.timestamp liability))%Q
  then
    let assetName := Liability.assetName liability in
    let amount := fromWei8 (Liability.outstandingAmount liability) in
    pendingTransactions <- reads (fun w => Db.getPendingTransactions (World.db w)) ;;
    if (0 <? List.length pendingTransactions)%nat then ret tt
    else
      withdrawsToCheck <- reads (fun w => Db.getWithdrawsToCheck (World.db w)) ;;
      if (0 <? List.length withdrawsToCheck)%nat then ret tt
      else
        balance <- getWalletBalance ;;
        match Dict.get balance assetName, Dict.get balance "ETH" with
        | None, _ => throw "No balance for asset"
        | Some assetBalance, ethBalanceOpt =>
            if BN.isNaN assetBalance then throw "No balance for asset"
            else
              match ethBalanceOpt with
              | None => throw "No balance for ETH"
              | Some ethBalance =>
                  if BN.isNaN ethBalance then throw "No balance for ETH"
                  else
                    let ethFeeAmount := BFin (45 # 1000) in
                    if negb (BN.gt ethBalance ethFeeAmount) then ret tt
                    else
                      let assetBalance :=
                        if String.eqb assetName "ETH"
                        then BN.minus assetBalance ethFeeAmount
                        else assetBalance in
                      let fitBalance := BN.gte assetBalance amount in
                      if fitBalance
                      then deposit amount assetName
                      else
                        let remaining := BN.minus amount assetBalance in
                        exchangeForWithdraw <-
                          getExchangeForWithdraw remaining assetName ;;
                        match exchangeForWithdraw with
                        | Some (exchange, amountWithFee) =>
                            exchangeWithdraw exchange amountWithFee assetName
                        | None => ret tt
                        end
              end
        end
  else ret tt.

End Broker.

(* ===================================================================== *)
(** * Venue selection and the liability frame, in the words of the
      specification *)
(* ===================================================================== *)

Section VenueSelection.

Variable connector_getConnector : string -> result Connector.t.

(** The venue supports withdrawal, has a valid withdraw limit, and its
    last known balance for the asset strictly exceeds
    [amountWithFee = max(remaining + fee, min)]. *)
Definition qualifies (lastBalances : Dictionary (Dictionary BigNumber))
    (remaining : BigNumber) (assetName exchange : string)
    (amountWithFee : BigNumber) : Prop :=
  exists connector limit balance,
    connector_getConnector exchange = Ok connector
    /\ Connector.hasWithdraw connector = true
    /\ Connector.getWithdrawLimit connector assetName = Ok (Some limit)
    /\ BN.isNaN (ExchangeWithdrawLimit.fee limit) = false
    /\ BN.isNaN (ExchangeWithdrawLimit.min limit) = false
    /\ amountWithFee
       = BN.maximum (BN.plus remaining (ExchangeWithdrawLimit.fee limit))
           (ExchangeWithdrawLimit.min limit)
    /\ get2 lastBalances exchange assetName = Some balance
    /\ BN.gt balance amountWithFee = true.

End VenueSelection.

(** What a liability tick may change: the sub-orders, the trades and the
    balance snapshot stay; either nothing is stored, or one PENDING
    transaction, or one pending withdrawal. *)
Definition liabilityFrame (w w' : World.t) : Prop :=
  Db.subOrders (World.db w') = Db.subOrders (World.db w)
  /\ Db.trades (World.db w') = Db.trades (World.db w)
  /\ World.lastBalances w' = World.lastBalances w
  /\ (Db.transactions (World.db w') = Db.transactions (World.db w)
      /\ Db.withdraws (World.db w') = Db.withdraws (World.db w)
      \/ (exists tx,
            Db.transactions (World.db w') = Db.transactions (World.db w) ++ [tx]
            /\ Transaction.status tx = Transaction.PENDING)
         /\ Db.withdraws (World.db w') = Db.withdraws (World.db w)
      \/ Db.transactions (World.db w') = Db.transactions (World.db w)
         /\ (exists wd,
               Db.withdraws (World.db w') = Db.withdraws (World.db w) ++ [wd]
               /\ Withdraw.status wd = Withdraw.pending)).

(** How often a trace calls [connector.submitSubOrder]. *)
Definition isSubmitSubOrder (e : Event) : bool :=
  match e with
  | Connectors_submitSubOrder _ _ _ _ _ _ => true
  | _ => false
  end.

Definition submitCalls (trace : list Event) : nat :=
  List.length (filter isSubmitSubOrder trace).

(* ===================================================================== *)
(** * A concrete deployment, for the scenarios *)
(* ===================================================================== *)

Module Scenario.

Definition BTC : string := "0x1111111111111111111111111111111111111111".
Definition USDT : string := "0x2222222222222222222222222222222222222222".
Definition ORN : string := "0x3333333333333333333333333333333333333333".

Definition symbolToAddresses (symbol : string) : string * string := (BTC, USDT).

Definition nameToAddress (name : string) : string :=
  if String.eqb name "ORN" then ORN
  else if String.eqb name "USDT" then USDT
  else BTC.

(** The arguments the scenarios hash are hexadecimal strings; for
    others this web3 throws. *)
Definition web3_packed (args : list string) : option (list byte) := None.

(** A number that bn.js takes for an unsigned integer field: an integer
    from 0 and below [2^53]. *)
Definition isUint (n : number) : bool :=
  match n with
  | Num z => (0 <=? z) && (z <? 2 ^ 53)
  | _ => false
  end.

(** Signing is a parameter of the model. eth-sig-util encodes the
    amount, the price, the fee, the nonce, the expiration and the side
    as unsigned integers and throws on a number that is none. Otherwise
    the scenarios take the key followed by the digest for the signature;
    none of them depends on that choice. *)
Definition signTypedMessage (key : string) (chainId : Z)
    (order : BlockchainOrder.t) : result string :=
  if isUint (BlockchainOrder.amount order)
     && isUint (BlockchainOrder.price order)
     && isUint (BlockchainOrder.matcherFee order)
     && isUint (BlockchainOrder.nonce order)
     && isUint (BlockchainOrder.expiration order)
     && isUint (BlockchainOrder.buySide order)
  then Ok (key ++ BlockchainOrder.id order)%string
  else Throw "Supplied uint is not an unsigned integer".

Definition orionBlockchain : OrionBlockchain.t :=
  {| OrionBlockchain.chainId := 3;
     OrionBlockchain.matcherAddress := "0x4444444444444444444444444444444444444444";
     OrionBlockchain.bufferKey := "key";
     OrionBlockchain.address := "0x5555555555555555555555555555555555555555" |}.

Definition digit (d : Z) : ascii := Hex.hexDigit d.

Fixpoint digitsOf (fuel : nat) (n : Z) (acc : string) : string :=
  match fuel with
  | O => acc
  | S fuel' =>
      let acc' := String (digit (n mod 10)) acc in
      if n / 10 =? 0 then acc' else digitsOf fuel' (n / 10) acc'
  end.

Fixpoint fraction (fuel : nat) (num den : Z) : string :=
  match fuel with
  | O => EmptyString
  | S fuel' =>
      if num =? 0 then EmptyString
      else String (digit (10 * num / den)) (fraction fuel' ((10 * num) mod den) den)
  end.

(** Decimal notation of a [BigNumber], as [toString] prints a value
    from [1e-6] and below [1e21]; outside that range bignumber.js
    prints an exponent, and the scenarios have no such value. *)
Definition BigNumber_toString (b : BigNumber) : string :=
  match b with
  | BNaN => "NaN"
  | BFin q =>
      let n := Z.abs (Qnum q) in
      let d := Z.pos (Qden q) in
      let sign := if Qnum q <? 0 then "-" else EmptyString in
      let whole := digitsOf 40 (n / d) EmptyString in
      let part :=
        if n mod d =? 0 then EmptyString else String "." (fraction 20 (n mod d) d) in
      (sign ++ whole ++ part)%string
  end.

Definition quoted (s : string) : string :=
  (String (ascii_of_nat 34) s ++ String (ascii_of_nat 34) EmptyString)%string.

Fixpoint members {V} (print : V -> string) (o : Dictionary V) : string :=
  match o with
  | [] => EmptyString
  | [(k, v)] => (quoted k ++ ":" ++ print v)%string
  | (k, v) :: rest => (quoted k ++ ":" ++ print v ++ "," ++ members print rest)%string
  end.

(** [JSON.stringify] of a dictionary of dictionaries of strings whose
    keys and values need no escaping. *)
Definition JSON_stringify (o : Dictionary (Dictionary string)) : string :=
  ("{" ++ members (fun inner => "{" ++ members quoted inner ++ "}") o ++ "}")%string.

(** Venue [X] takes every order as venue order [e1], supports
    withdrawals with [{min: 10, fee: 1}] and answers a withdrawal with
    the id [w1]; there is no other venue. *)
Definition connectorX : Connector.t :=
  {| Connector.hasWithdraw := true;
     Connector.getWithdrawLimit := fun _ =>
       Ok (Some {| ExchangeWithdrawLimit.min := BN.ofZ 10;
                   ExchangeWithdrawLimit.fee := BN.ofZ 1 |}) |}.

Definition connector_getConnector (exchange : string) : result Connector.t :=
  if String.eqb exchange "X" then Ok connectorX else Throw "no connector".

Definition connector_submitSubOrder (exchange : string) (id : Z)
    (symbol : string) (side : Side) (amount price : BigNumber)
  : result SubOrder.t :=
  if String.eqb exchange "X"
  then Ok {| SubOrder.exchangeOrderId := "e1" |}
  else Throw "no connector".

Definition connector_hasWithdraw (exchange : string) : result bool :=
  if String.eqb exchange "X" then Ok true else Throw "no connector".

Definition connector_withdraw (exchange assetName : string)
    (amount : BigNumber) (address : string) : result (option string) :=
  if String.eqb exchange "X" then Ok (Some "w1") else Throw "no connector".

(** A gateway that reports a wallet with the given USDT and 0.1 ETH,
    an unlimited allowance, and broadcasts every deposit. *)
Definition gateway_getWalletBalance (usdt : Z) (n : nat)
  : result (Dictionary BigNumber) :=
  Ok [("USDT", BN.ofZ usdt); ("ETH", BFin (1 # 10))].

Definition gateway_getAllowance (n : nat) (assetName : string)
  : result BigNumber :=
  Ok (BN.ofZ 1000000).

Definition gateway_depositETH (n : nat) (amount : BigNumber) : result string :=
  Ok "0xaa".

Definition gateway_depositERC20 (n : nat) (amount : BigNumber)
    (assetName : string) : result string :=
  Ok "0xbb".

Definition duePeriodSeconds : Z := 3600.

Definition world0 : World.t :=
  {| World.db := Db.empty;
     World.lastBalances := [];
     World.now := 1600000000000;
     World.requests := 0;
     World.webUI_lastBalancesJson := "{}";
     World.hub_lastBalancesJson := "{}";
     World.trace := [] |}.

(** The handlers of the broker in this deployment. *)
Definition onCreateSubOrder :=
  onCreateSubOrder orionBlockchain symbolToAddresses nameToAddress
    web3_packed signTypedMessage BigNumber_toString connector_submitSubOrder.

Definition onCheckSubOrder :=
  onCheckSubOrder orionBlockchain symbolToAddresses nameToAddress
    web3_packed signTypedMessage BigNumber_toString.

Definition onTrade :=
  onTrade orionBlockchain symbolToAddresses nameToAddress
    web3_packed signTypedMessage BigNumber_toString.

Definition signTrade :=
  signTrade orionBlockchain symbolToAddresses nameToAddress
    web3_packed signTypedMessage.

Definition manageLiability (usdt : Z) :=
  manageLiability duePeriodSeconds orionBlockchain connector_getConnector
    connector_hasWithdraw connector_withdraw (gateway_getWalletBalance usdt)
    gateway_getAllowance gateway_depositETH gateway_depositERC20.

Definition getExchangeForWithdraw :=
  getExchangeForWithdraw connector_getConnector.

(** A hub that takes every payload. *)
Definition brokerHub_sendBalances (n : nat)
    (data : Dictionary (Dictionary string)) : result unit :=
  Ok tt.

Definition sendUpdateBalance :=
  sendUpdateBalance BigNumber_toString JSON_stringify brokerHub_sendBalances.

(** S1: create(id = 1, BTC-USDT, buy, price = 1e4, amount = 1e-2,
    exchange = X). *)
Definition request1 : CreateSubOrder.t :=
  {| CreateSubOrder.id := 1;
     CreateSubOrder.symbol := "BTC-USDT";
     CreateSubOrder.side := buy;
     CreateSubOrder.price := BN.ofZ 10000;
     CreateSubOrder.amount := BFin (1 # 100);
     CreateSubOrder.exchange := "X" |}.

Definition trade1 : Trade.t :=
  {| Trade.exchange := "X";
     Trade.exchangeOrderId := "e1";
     Trade.price := BN.ofZ 10000;
     Trade.amount := BFin (1 # 100);
     Trade.status := FILLED |}.

(** The world after the create. *)
Definition world1 : World.t := snd (onCreateSubOrder request1 world0).

(** The world after the venue has reported the fill. *)
Definition world2 : World.t := snd (onTrade trade1 world1).

(** The world after the venue has reported the fill a second time. *)
Definition world3 : World.t := snd (onTrade trade1 world2).

(** The sub-order of S1 after the fill. *)
Definition subOrder1 : DbSubOrder.t :=
  {| DbSubOrder.id := 1;
     DbSubOrder.symbol := "BTC-USDT";
     DbSubOrder.side := buy;
     DbSubOrder.price := BN.ofZ 10000;
     DbSubOrder.amount := BFin (1 # 100);
     DbSubOrder.exchange := "X";
     DbSubOrder.exchangeOrderId := Some "e1";
     DbSubOrder.timestamp := 1600000000000;
     DbSubOrder.status := FILLED;
     DbSubOrder.filledAmount := BFin (1 # 100);
     DbSubOrder.sentToAggregator := false |}.

Definition subOrder1Accepted : DbSubOrder.t :=
  DbSubOrder.set_filledAmount (DbSubOrder.set_status subOrder1 ACCEPTED) (BN.ofZ 0).

(** A fill of half the amount. *)
Definition partialTrade : Trade.t :=
  {| Trade.exchange := "X";
     Trade.exchangeOrderId := "e1";
     Trade.price := BN.ofZ 10000;
     Trade.amount := BFin (1 # 200);
     Trade.status := FILLED |}.

(** The order [createBlockchainOrder] builds for S1. *)
Definition order1 : BlockchainOrder.t :=
  OrionBlockchain.createBlockchainOrder symbolToAddresses nameToAddress
    orionBlockchain subOrder1 trade1.

Definition address (b : byte) : list byte := repeat b 20.

(** [order1], read. *)
Definition canonical1 : Canonical.t :=
  {| Canonical.sender := address x55;
     Canonical.matcher := address x44;
     Canonical.baseAsset := address x11;
     Canonical.quoteAsset := address x22;
     Canonical.matcherFeeAsset := address x33;
     Canonical.amount := 1000000;
     Canonical.price := 1000000000000;
     Canonical.matcherFee := 0;
     Canonical.nonce := 1600000000000;
     Canonical.expiration := 1602505600000;
     Canonical.buy := false |}.

Definition set_buySide (o : BlockchainOrder.t) (v : number) : BlockchainOrder.t :=
  BlockchainOrder.mk (BlockchainOrder.id o) (BlockchainOrder.senderAddress o)
    (BlockchainOrder.matcherAddress o) (BlockchainOrder.baseAsset o)
    (BlockchainOrder.quoteAsset o) (BlockchainOrder.matcherFeeAsset o)
    (BlockchainOrder.amount o) (BlockchainOrder.price o)
    (BlockchainOrder.matcherFee o) (BlockchainOrder.nonce o)
    (BlockchainOrder.expiration o) v (BlockchainOrder.signature o).

(** S6: the snapshot holds 200 USDT on venue X. *)
Definition worldS6 : World.t :=
  World.set_lastBalances world0 [("X", [("USDT", BN.ofZ 200)])].

(** S5, S6: a liability of 100 USDT, in base units, due for more than
    the period. *)
Definition liability1 : Liability.t :=
  {| Liability.assetName := "USDT";
     Liability.outstandingAmount := BN.ofZ 10000000000;
     Liability.timestamp := 1600000000 - 3600 - 1 |}.

Definition pendingTransaction : Transaction.t :=
  {| Transaction.transactionHash := "0xcc";
     Transaction.method := "deposit";
     Transaction.asset := "ETH";
     Transaction.amount := BN.ofZ 1;
     Transaction.createTime := 1599999999000;
     Transaction.status := Transaction.PENDING |}.

(** [worldS6] with a transaction in flight. *)
Definition worldPending : World.t :=
  World.set_db worldS6 (Db.insetTransaction pendingTransaction Db.empty).

(** A poll in which venue X answered and venue Y failed. *)
Definition balances1 : Dictionary (ExchangeResolve.t (Dictionary BigNumber)) :=
  [("X", ExchangeResolve.mk None (Some [("USDT", BN.ofZ 200); ("BTC", BN.ofZ 1)]));
   ("Y", ExchangeResolve.mk (Some "timeout") None)].

(** A snapshot from an earlier poll, in which Y had answered. *)
Definition worldOld : World.t :=
  World.set_lastBalances world0
    [("Y", [("USDT", BN.ofZ 500)]); ("X", [("USDT", BN.ofZ 5)])].

(** [order1] as a buy, with [buySide = 2], and with a signature. *)
Definition order1Buy : BlockchainOrder.t := set_buySide order1 (Num 1).
Definition order1Buy2 : BlockchainOrder.t := set_buySide order1 (Num 2).
Definition order1BuySigned : BlockchainOrder.t :=
  BlockchainOrder.set_signature order1Buy "0xabcdef".

(** The sell-side twin of sub-order 1. *)
(** A fill of 70000000.00000002 and one of 100000000 of the base asset,
    at the same venue order. *)
Definition tradeUneven : Trade.t :=
  {| Trade.exchange := "X";
     Trade.exchangeOrderId := "e1";
     Trade.price := BN.ofZ 10000;
     Trade.amount := BFin (7000000000000002 # 100000000);
     Trade.status := FILLED |}.

Definition tradeHuge : Trade.t :=
  {| Trade.exchange := "X";
     Trade.exchangeOrderId := "e1";
     Trade.price := BN.ofZ 10000;
     Trade.amount := BN.ofZ 100000000;
     Trade.status := FILLED |}.

Definition subOrder1Sell : DbSubOrder.t :=
  DbSubOrder.mk 1 "BTC-USDT" sell (BN.ofZ 10000) (BFin (1 # 100)) "X"
    (Some "e1") 1600000000000 FILLED (BFin (1 # 100)) false.

End Scenario.

(* ===================================================================== *)
(** * More of Broker.ts: cancelling and the periodic checks *)
(* ===================================================================== *)

Module DbQueries.

(** Modelled from the spec: [getSubOrdersToResend], the sub-orders with a
    terminal status that the hub has not acknowledged
    ([sentToAggregator = false]). *)
Definition getSubOrdersToResend (db : Db.t) : list DbSubOrder.t :=
  filter (fun s => negb (Status_eqb (DbSubOrder.status s) PREPARE)
                   && negb (Status_eqb (DbSubOrder.status s) ACCEPTED)
                   && negb (DbSubOrder.sentToAggregator s))
    (Db.subOrders db).

(** Modelled from the spec: [updateTransactionStatus(transactionHash,
    status)], the status of the rows with that hash is replaced. *)
Definition updateTransactionStatus (transactionHash : string)
    (status : Transaction.Status) (db : Db.t) : Db.t :=
  Db.mk (Db.subOrders db) (Db.trades db) (Db.withdraws db)
    (map (fun tx =>
            if String.eqb (Transaction.transactionHash tx) transactionHash
            then Transaction.mk (Transaction.transactionHash tx)
                   (Transaction.method tx) (Transaction.asset tx)
                   (Transaction.amount tx) (Transaction.createTime tx) status
            else tx)
       (Db.transactions db)).

(** Modelled from the spec: [updateWithdrawStatus(exchangeWithdrawId,
    status)], the status of the rows with that id is replaced. *)
Definition updateWithdrawStatus (exchangeWithdrawId : string)
    (status : Withdraw.Status) (db : Db.t) : Db.t :=
  Db.mk (Db.subOrders db) (Db.trades db)
    (map (fun wd =>
            if String.eqb (Withdraw.exchangeWithdrawId wd) exchangeWithdrawId
            then Withdraw.mk (Withdraw.exchangeWithdrawId wd)
                   (Withdraw.exchange wd) (Withdraw.currency wd)
                   (Withdraw.amount wd) status
            else wd)
       (Db.withdraws db))
    (Db.transactions db).

End DbQueries.

(** [ExchangeWithdrawStatus]: a withdrawal id with the status the venue
    reports, one of ok, failed and canceled. *)
Module ExchangeWithdrawStatus.
Record t : Set := mk { exchangeWithdrawId : string; status : Withdraw.Status }.
End ExchangeWithdrawStatus.

(** What [getTransactionStatus] answers. *)
Inductive TransactionAnswer : Set :=
| Answer_PENDING
| Answer_OK
| Answer_FAIL
| Answer_NONE.

(** [status !== tx.status] *)
Definition answerDiffers (status : TransactionAnswer) (stored : Transaction.Status)
  : bool :=
  match status, stored with
  | Answer_PENDING, Transaction.PENDING => false
  | Answer_OK, Transaction.OK => false
  | Answer_FAIL, Transaction.FAIL => false
  | _, _ => true
  end.

(** [for (const x of items) { await body(x) }]: a throw ends the loop. *)
Fixpoint forEach {A} (body : A -> M unit) (items : list A) : M unit :=
  match items with
  | [] => ret tt
  | x :: rest => body x ;; forEach body rest
  end.

Section BrokerChecks.

Variable orionBlockchain : OrionBlockchain.t.
Variable symbolToAddresses : string -> string * string.
Variable nameToAddress : string -> string.
Variable web3_packed : list string -> option (list byte).
Variable signTypedMessage : string -> Z -> BlockchainOrder.t -> result string.
Variable BigNumber_toString : BigNumber -> string.

(** [Connectors.cancelSubOrder] and [Connectors.checkWithdraws], which
    return or throw. *)
Variable connector_cancelSubOrder : DbSubOrder.t -> result unit.
Variable connector_checkWithdraws :
  list Withdraw.t -> result (list ExchangeWithdrawStatus.t).

(** The gateway's answer to [getTransactionStatus(hash)] as the [n]-th
    request. *)
Variable gateway_getTransactionStatus : nat -> string -> result TransactionAnswer.

(** [onCancelSubOrder]. For an unknown id the message of the error
    dereferences the missing sub-order: a TypeError is thrown in place of
    the error. *)
Definition onCancelSubOrder (id : Z) : M (option SubOrderStatus.t) :=
  found <- reads (fun w => Db.getSubOrderById id (World.db w)) ;;
  match found with
  | None => throw "TypeError"
  | Some dbSubOrder =>
      if Status_eqb (DbSubOrder.status dbSubOrder) PREPARE
      then ret None
      else if Status_eqb (DbSubOrder.status dbSubOrder) ACCEPTED
      then
        emit (Connectors_cancelSubOrder dbSubOrder) ;;
        lift (connector_cancelSubOrder dbSubOrder) ;;
        ret None
      else
        st <- onCheckSubOrder orionBlockchain symbolToAddresses nameToAddress
                web3_packed signTypedMessage BigNumber_toString (DbSubOrder.id dbSubOrder) ;;
        ret (Some st)
  end.

(** The body of the loop of [startCheckTransactions] for one pending
    transaction. *)
Definition checkTransaction (tx : Transaction.t) : M unit :=
  answer <- request (fun n =>
              gateway_getTransactionStatus n (Transaction.transactionHash tx)) ;;
  now <- reads World.now ;;
  let status :=
    match answer with
    | Answer_NONE =>
        if 10 * 60 * 1000 <? now - Transaction.createTime tx
        then Answer_FAIL
        else Answer_NONE
    | _ => answer
    end in
  if answerDiffers status (Transaction.status tx)
  then
    match status with
    | Answer_OK =>
        writeDb (DbQueries.updateTransactionStatus
                   (Transaction.transactionHash tx) Transaction.OK)
    | Answer_FAIL =>
        writeDb (DbQueries.updateTransactionStatus
                   (Transaction.transactionHash tx) Transaction.FAIL)
    | _ => ret tt
    end
  else ret tt.

(** One tick of [startCheckTransactions]. *)
Definition checkTransactions : M unit :=
  try_log (
    pendingTransactions <- reads (fun w => Db.getPendingTransactions (World.db w)) ;;
    forEach checkTransaction pendingTransactions).

(** One tick of [startCheckWithdraws]. The log line reads [w.amount] of
    the withdrawal found for a status: for a status of no open withdrawal
    that is a TypeError. *)
Definition checkWithdraws : M unit :=
  try_log (
    openWithdraws <- reads (fun w => Db.getWithdrawsToCheck (World.db w)) ;;
    if (0 <? List.length openWithdraws)%nat
    then
      withdrawsStatuses <- lift (connector_checkWithdraws openWithdraws) ;;
      forEach
        (fun status =>
           match find (fun w => String.eqb (Withdraw.exchangeWithdrawId w)
                                  (ExchangeWithdrawStatus.exchangeWithdrawId status))
                   openWithdraws with
           | None => throw "TypeError"
           | Some _ =>
               writeDb (DbQueries.updateWithdrawStatus
                          (ExchangeWithdrawStatus.exchangeWithdrawId status)
                          (ExchangeWithdrawStatus.status status))
           end)
        withdrawsStatuses
    else ret tt).

End BrokerChecks.

(* ===================================================================== *)
(** * More of OrionBlockchain.ts: the gas price *)
(* ===================================================================== *)

(** [x.toFixed(0, BigNumber.ROUND_UP)] as an integer: rounding away from
    zero. *)
Definition roundUp (x : Q) : Z :=
  if Qle_bool 0 x then Qceiling x else Qfloor x.

(** [getGasPrice], in wei, from the [fast] value of the gas feed as a
    [BigNumber]: a tenth of it in gwei, refused above 300 and rounded up.
    [parseUnits] throws on the NaN that [toFixed] prints for NaN. The
    tenth is exact (see [BN.dividedBy]), as it is in bignumber.js for a
    feed value of at most 19 decimals. *)
Definition getGasPrice (fast : BigNumber) : result Z :=
  let gweiNumber := BN.dividedBy fast (BN.ofZ 10) in
  if BN.gt gweiNumber (BN.ofZ 300)
  then Throw "gas price bigger then 300 gwei"
  else
    match gweiNumber with
    | BNaN => Throw "invalid decimal value"
    | BFin gwei => Ok (roundUp gwei * 10 ^ 9)
    end.

(* ===================================================================== *)
(** * The CCXT connector ([src/connectors/CCXTConnector.ts]) *)
(* ===================================================================== *)

Module CCXT.

(** [s.split(from).join(to)] for separators of one character: every
    [from] becomes [to]. *)
Fixpoint replaceAll (from to : ascii) (s : string) : string :=
  match s with
  | EmptyString => EmptyString
  | String c rest =>
      String (if Ascii.eqb c from then to else c) (replaceAll from to rest)
  end.

Definition toSymbol (symbol : string) : string := replaceAll "-" "/" symbol.

Definition fromSymbol (symbol : string) : string := replaceAll "/" "-" symbol.

(** [parseFilledAmount(x)], on [new BigNumber(x)]. *)
Definition parseFilledAmount (x : BigNumber) : BigNumber :=
  if BN.isNaN x then BN.ofZ 0 else x.

Definition fromStatus (status : string) : result Status :=
  if String.eqb status "open" then Ok ACCEPTED
  else if String.eqb status "closed" then Ok FILLED
  else if String.eqb status "canceled" then Ok CANCELED
  else Throw "Unknown ccxt status".

(** Of a [ccxt.Order]: its status and [new BigNumber(filled)]. *)
Module Order.
Record t : Set := mk { status : string; filled : BigNumber }.
End Order.

(** Of a [ccxt.Transaction]: its id, its status, and the [status] of its
    [info] when it has an [info]. *)
Module Transaction.
Record t : Set := mk { id : string; status : string; info : option string }.
End Transaction.

Section Connector.

(** The venue id of the connector. *)
Variable exchangeId : string.

(** [ccxtExchange.fetchOrder(id, symbol)] and
    [ccxtExchange.fetchWithdrawals()]. *)
Variable fetchOrder : string -> string -> result Order.t.
Variable fetchWithdrawals : result (list Transaction.t).

(** The body of the loop of [checkSubOrders] for one sub-order with its
    venue order id: the trade handed to the listener, if any. *)
Definition checkSubOrder (subOrder : DbSubOrder.t) (exchangeOrderId : string)
  : result (option Trade.t) :=
  match fetchOrder exchangeOrderId (toSymbol (DbSubOrder.symbol subOrder)) with
  | Throw msg => Throw msg
  | Ok ccxtOrder =>
      match fromStatus (Order.status ccxtOrder) with
      | Throw msg => Throw msg
      | Ok newStatus =>
          let amount :=
            if Status_eqb newStatus CANCELED
            then parseFilledAmount (Order.filled ccxtOrder)
            else DbSubOrder.amount subOrder in
          if Status_eqb newStatus FILLED || Status_eqb newStatus CANCELED
          then Ok (Some {| Trade.exchange := DbSubOrder.exchange subOrder;
                           Trade.exchangeOrderId := exchangeOrderId;
                           Trade.price := DbSubOrder.price subOrder;
                           Trade.amount := amount;
                           Trade.status := newStatus |})
          else Ok None
      end
  end.

(** [checkSubOrders]: the trades handed to the listener, in order, and
    whether the loop ended or threw. The broker passes sub-orders that
    have a venue order id; one without is taken to make [fetchOrder]
    throw. *)
Fixpoint checkSubOrders (subOrders : list DbSubOrder.t)
  : list Trade.t * result unit :=
  match subOrders with
  | [] => ([], Ok tt)
  | subOrder :: rest =>
      match DbSubOrder.exchangeOrderId subOrder with
      | None => ([], Throw "fetchOrder")
      | Some exchangeOrderId =>
          match checkSubOrder subOrder exchangeOrderId with
          | Throw msg => ([], Throw msg)
          | Ok None => checkSubOrders rest
          | Ok (Some trade) =>
              let (trades, outcome) := checkSubOrders rest in
              (trade :: trades, outcome)
          end
      end
  end.

(** The body of the loop of [checkWithdraws] for one withdrawal. *)
Definition checkWithdraw (transactions : list Transaction.t)
    (withdraw : Withdraw.t) : list ExchangeWithdrawStatus.t :=
  match find (fun t => String.eqb (Transaction.id t)
                         (Withdraw.exchangeWithdrawId withdraw))
          transactions with
  | None => []
  | Some tx =>
      let status :=
        if String.eqb exchangeId "kucoin"
           && match Transaction.info tx with
              | Some infoStatus => String.eqb infoStatus "PROCESSING"
              | None => false
              end
        then "pending"
        else Transaction.status tx in
      if String.eqb status "ok"
      then [ExchangeWithdrawStatus.mk (Withdraw.exchangeWithdrawId withdraw)
              Withdraw.ok]
      else if String.eqb status "failed"
      then [ExchangeWithdrawStatus.mk (Withdraw.exchangeWithdrawId withdraw)
              Withdraw.failed]
      else if String.eqb status "canceled"
      then [ExchangeWithdrawStatus.mk (Withdraw.exchangeWithdrawId withdraw)
              Withdraw.canceled]
      else []
  end.

Definition checkWithdraws (withdraws : list Withdraw.t)
  : result (list ExchangeWithdrawStatus.t) :=
  match fetchWithdrawals with
  | Throw msg => Throw msg
  | Ok transactions => Ok (flat_map (checkWithdraw transactions) withdraws)
  end.

End Connector.

End CCXT.

(* ===================================================================== *)
(** * More of Broker.ts: resending *)
(* ===================================================================== *)

Section BrokerResend.

Variable orionBlockchain : OrionBlockchain.t.
Variable symbolToAddresses : string -> string * string.
Variable nameToAddress : string -> string.
Variable web3_packed : list string -> option (list byte).
Variable signTypedMessage : string -> Z -> BlockchainOrder.t -> result string.
Variable BigNumber_toString : BigNumber -> string.

(** The first loop of [startCheckSubOrders]: the status of every
    sub-order the hub has not acknowledged is sent again. A throw goes to
    the [catch] of the tick, past the polling of the venues. *)
Definition resendSubOrders : M unit :=
  subOrdersToResend <- reads (fun w => DbQueries.getSubOrdersToResend (World.db w)) ;;
  forEach
    (fun subOrder =>
       st <- onCheckSubOrder orionBlockchain symbolToAddresses nameToAddress
               web3_packed signTypedMessage BigNumber_toString (DbSubOrder.id subOrder) ;;
       emit (BrokerHub_sendSubOrderStatus st))
    subOrdersToResend.

End BrokerResend.

(* ===================================================================== *)
(** * Notions the further properties are stated with *)
(* ===================================================================== *)

(** A dictionary with [f] applied to every value, keys and order kept. *)
Definition mapValues {A B : Type} (f : A -> B) (o : Dictionary A) : Dictionary B :=
  map (fun kv => (fst kv, f (snd kv))) o.

(** A snapshot of balances with every balance printed. *)
Definition printed (toString : BigNumber -> string)
    (snapshot : Dictionary (Dictionary BigNumber)) : Dictionary (Dictionary string) :=
  mapValues (mapValues toString) snapshot.

(** The 64-bit signed integer that stands for a number: NaN is 0 and a
    value outside the range is the nearest bound. *)
Definition clamp64 (n : number) : Z :=
  match n with
  | NaN => 0
  | Inf true => - 2 ^ 63
  | Inf false => 2 ^ 63 - 1
  | Num v => Z.max (- 2 ^ 63) (Z.min v (2 ^ 63 - 1))
  end.

(** An order with its five integers clamped. *)
Definition clampOrder (o : BlockchainOrder.t) : BlockchainOrder.t :=
  {| BlockchainOrder.id := BlockchainOrder.id o;
     BlockchainOrder.senderAddress := BlockchainOrder.senderAddress o;
     BlockchainOrder.matcherAddress := BlockchainOrder.matcherAddress o;
     BlockchainOrder.baseAsset := BlockchainOrder.baseAsset o;
     BlockchainOrder.quoteAsset := BlockchainOrder.quoteAsset o;
     BlockchainOrder.matcherFeeAsset := BlockchainOrder.matcherFeeAsset o;
     BlockchainOrder.amount := Num (clamp64 (BlockchainOrder.amount o));
     BlockchainOrder.price := Num (clamp64 (BlockchainOrder.price o));
     BlockchainOrder.matcherFee := Num (clamp64 (BlockchainOrder.matcherFee o));
     BlockchainOrder.nonce := Num (clamp64 (BlockchainOrder.nonce o));
     BlockchainOrder.expiration := Num (clamp64 (BlockchainOrder.expiration o));
     BlockchainOrder.buySide := BlockchainOrder.buySide o;
     BlockchainOrder.signature := BlockchainOrder.signature o |}.

(** Whether a character occurs in a string. *)
Fixpoint occurs (c : ascii) (s : string) : bool :=
  match s with
  | EmptyString => false
  | String c' rest => Ascii.eqb c' c || occurs c rest
  end.

(** A stored transaction after a check, against the row before: only
    the status may differ, and only for the hash of a transaction that
    was checked, to OK or FAIL. *)
Definition rechecked (hashes : list string) (old new : Transaction.t) : Prop :=
  Transaction.transactionHash new = Transaction.transactionHash old
  /\ Transaction.method new = Transaction.method old
  /\ Transaction.asset new = Transaction.asset old
  /\ Transaction.amount new = Transaction.amount old
  /\ Transaction.createTime new = Transaction.createTime old
  /\ (Transaction.status new = Transaction.status old
      \/ In (Transaction.transactionHash old) hashes
         /\ (Transaction.status new = Transaction.OK
             \/ Transaction.status new = Transaction.FAIL)).

(** The gateway's answer ends the wait for a transaction: it went
    through, it failed, or it is unknown for more than ten minutes. *)
Definition settled (answer : result TransactionAnswer) (now : Z)
    (tx : Transaction.t) : Prop :=
  answer = Ok Answer_OK
  \/ answer = Ok Answer_FAIL
  \/ answer = Ok Answer_NONE /\ 10 * 60 * 1000 < now - Transaction.createTime tx.

(** A stored withdrawal after a check, against the row before: only the
    status may differ, and only for the id of a withdrawal that was
    open. *)
Definition reported (ids : list string) (old new : Withdraw.t) : Prop :=
  Withdraw.exchangeWithdrawId new = Withdraw.exchangeWithdrawId old
  /\ Withdraw.exchange new = Withdraw.exchange old
  /\ Withdraw.currency new = Withdraw.currency old
  /\ Withdraw.amount new = Withdraw.amount old
  /\ (Withdraw.status new = Withdraw.status old
      \/ In (Withdraw.exchangeWithdrawId old) ids).

(* ===================================================================== *)
(** * Venues and gateways for the further properties *)
(* ===================================================================== *)

Module Polls.

(** A gateway whose wallet holds 1000 USDT and 0.01 ETH. *)
Definition gateway_lowGas (n : nat) : result (Dictionary BigNumber) :=
  Ok [("USDT", BN.ofZ 1000); ("ETH", BFin (1 # 100))].

(** A venue that reports every order closed with 0.01 filled. *)
Definition fetchOrder (id symbol : string) : result CCXT.Order.t :=
  Ok {| CCXT.Order.status := "closed"; CCXT.Order.filled := BFin (1 # 100) |}.

(** The withdrawals kucoin lists: [w1] is still processing, [w2] is
    done. *)
Definition fetchWithdrawals : result (list CCXT.Transaction.t) :=
  Ok [ {| CCXT.Transaction.id := "w1";
          CCXT.Transaction.status := "ok";
          CCXT.Transaction.info := Some "PROCESSING" |};
       {| CCXT.Transaction.id := "w2";
          CCXT.Transaction.status := "ok";
          CCXT.Transaction.info := Some "SUCCESS" |} ].

(** An open withdrawal of 101 USDT from kucoin. *)
Definition withdrawal (id : string) : Withdraw.t :=
  {| Withdraw.exchangeWithdrawId := id;
     Withdraw.exchange := "kucoin";
     Withdraw.currency := "USDT";
     Withdraw.amount := BN.ofZ 101;
     Withdraw.status := Withdraw.pending |}.

(** A venue that cancels what it is asked to. *)
Definition connector_cancelSubOrder (subOrder : DbSubOrder.t) : result unit :=
  Ok tt.

(** A create of 100000000 BTC at venue X, whose fill has a base-unit
    value of [10^16], and the world after the create and the fill. *)
Definition requestHuge : CreateSubOrder.t :=
  {| CreateSubOrder.id := 7;
     CreateSubOrder.symbol := "BTC-USDT";
     CreateSubOrder.side := buy;
     CreateSubOrder.price := BN.ofZ 10000;
     CreateSubOrder.amount := BN.ofZ 100000000;
     CreateSubOrder.exchange := "X" |}.

Definition worldHuge : World.t :=
  snd (Scenario.onTrade Scenario.tradeHuge
         (snd (Scenario.onCreateSubOrder requestHuge Scenario.world0))).

Definition subOrderHuge : DbSubOrder.t :=
  {| DbSubOrder.id := 7;
     DbSubOrder.symbol := "BTC-USDT";
     DbSubOrder.side := buy;
     DbSubOrder.price := BN.ofZ 10000;
     DbSubOrder.amount := BN.ofZ 100000000;
     DbSubOrder.exchange := "X";
     DbSubOrder.exchangeOrderId := Some "e1";
     DbSubOrder.timestamp := 1600000000000;
     DbSubOrder.status := FILLED;
     DbSubOrder.filledAmount := BN.ofZ 100000000;
     DbSubOrder.sentToAggregator := false |}.

(** A hub whose transport is down for the first event of the run and up
    afterwards. *)
Definition brokerHub_down (n : nat) (data : Dictionary (Dictionary string))
  : result unit :=
  match n with
  | O => Throw "hub down"
  | S _ => Ok tt
  end.

(** Venues that do not answer. *)
Definition connector_checkWithdraws (withdraws : list Withdraw.t)
  : result (list ExchangeWithdrawStatus.t) :=
  Throw "timeout".

(** A gateway that does not know the transaction, and one that still
    sees it pending. *)
Definition gateway_unknown (n : nat) (transactionHash : string)
  : result TransactionAnswer :=
  Ok Answer_NONE.

Definition gateway_pending (n : nat) (transactionHash : string)
  : result TransactionAnswer :=
  Ok Answer_PENDING.

(** The store holds the open withdrawal [w1]. *)
Definition worldWithdraw : World.t :=
  World.set_db Scenario.world0 (Db.insertWithdraw (withdrawal "w1") Db.empty).

(** An order whose amount is beyond 64 bits and whose price is NaN. *)
Definition orderBeyond : BlockchainOrder.t :=
  BlockchainOrder.mk (BlockchainOrder.id Scenario.order1)
    (BlockchainOrder.senderAddress Scenario.order1)
    (BlockchainOrder.matcherAddress Scenario.order1)
    (BlockchainOrder.baseAsset Scenario.order1)
    (BlockchainOrder.quoteAsset Scenario.order1)
    (BlockchainOrder.matcherFeeAsset Scenario.order1)
    (Num (2 ^ 70)) NaN
    (BlockchainOrder.matcherFee Scenario.order1)
    (BlockchainOrder.nonce Scenario.order1)
    (BlockchainOrder.expiration Scenario.order1)
    (BlockchainOrder.buySide Scenario.order1)
    (BlockchainOrder.signature Scenario.order1).

End Polls.

(* ===================================================================== *)
(** * Proofs *)
(* ===================================================================== *)

Example keccak256_empty :
  Hex.bytesToHex (map Hex.Z_of_byte (Keccak.keccak256 [])) =
  "0xc5d2460186f7233c927e7db2dcc703c0e500b653ca82273b7bfad8045d85a470".
Proof. vm_compute. reflexivity. Qed.

Example keccak256_abc :
  Hex.bytesToHex (map Hex.Z_of_byte (Keccak.keccak256 [x61; x62; x63])) =
  "0x4e03657aea45a94fc7d47ba826c8d667c0d1e6e33a64a036ec44f58fa12d6c45".
Proof. vm_compute. reflexivity. Qed.

(** One byte short of the rate (the padding is the single byte [0x81]),
    exactly the rate, and the length of a packed order (two blocks). *)
Example keccak256_135 :
  Hex.bytesToHex (map Hex.Z_of_byte (Keccak.keccak256 (repeat x61 135))) =
  "0x34367dc248bbd832f4e3e69dfaac2f92638bd0bbd18f2912ba4ef454919cf446".
Proof. vm_compute. reflexivity. Qed.

Example keccak256_136 :
  Hex.bytesToHex (map Hex.Z_of_byte (Keccak.keccak256 (repeat x61 136))) =
  "0xa6c4d403279fe3e0af03729caada8374b5ca54d8065329a3ebcaeb4b60aa386e".
Proof. vm_compute. reflexivity. Qed.

Example keccak256_142 :
  Hex.bytesToHex (map Hex.Z_of_byte (Keccak.keccak256 (repeat x61 142))) =
  "0xfada476917f4ed952674dac420f1a1138fcde2e296fb98cd23bdaef89ca2ae27".
Proof. vm_compute. reflexivity. Qed.

(** ** The scenarios of the specification, run *)

Example S1_accepted :
  Db.getSubOrderById 1 (World.db Scenario.world1)
  = Some (DbSubOrder.set_filledAmount
            (DbSubOrder.set_status Scenario.subOrder1 ACCEPTED) (BN.ofZ 0)).
Proof. vm_compute. reflexivity. Qed.

Example S1_filled :
  Db.getSubOrderById 1 (World.db Scenario.world2) = Some Scenario.subOrder1
  /\ Db.trades (World.db Scenario.world2) = [Scenario.trade1].
Proof. vm_compute. split; reflexivity. Qed.

(** ** The store *)

Lemma getSubOrderById_id (id : Z) (db : Db.t) (s : DbSubOrder.t) :
  Db.getSubOrderById id db = Some s -> DbSubOrder.id s = id.
Proof.
  unfold Db.getSubOrderById. intros H.
  apply find_some in H. destruct H as [_ H]. now apply Z.eqb_eq.
Qed.

Lemma find_updated (rows : list DbSubOrder.t) (id : Z) (s s' : DbSubOrder.t) :
  find (fun r => DbSubOrder.id r =? id) rows = Some s ->
  DbSubOrder.id s' = id ->
  find (fun r => DbSubOrder.id r =? id)
    (map (fun r => if DbSubOrder.id r =? DbSubOrder.id s' then s' else r) rows)
  = Some s'.
Proof.
  intros Hfind Hid. induction rows as [|r rows IH]; simpl in *.
  - discriminate.
  - rewrite Hid. destruct (DbSubOrder.id r =? id) eqn:E.
    + rewrite Hid, Z.eqb_refl. reflexivity.
    + rewrite E. rewrite Hid in IH. now apply IH.
Qed.

Lemma getSubOrderById_updateSubOrder (db : Db.t) (id : Z) (s s' : DbSubOrder.t) :
  Db.getSubOrderById id db = Some s ->
  DbSubOrder.id s' = id ->
  Db.getSubOrderById id (Db.updateSubOrder s' db) = Some s'.
Proof.
  unfold Db.getSubOrderById, Db.updateSubOrder. simpl. apply find_updated.
Qed.

Lemma find_fresh_app (rows : list DbSubOrder.t) (id : Z) (s : DbSubOrder.t) :
  find (fun r => DbSubOrder.id r =? id) rows = None ->
  DbSubOrder.id s = id ->
  find (fun r => DbSubOrder.id r =? id) (rows ++ [s]) = Some s.
Proof.
  intros Hnone Hid. induction rows as [|r rows IH]; simpl in *.
  - now rewrite Hid, Z.eqb_refl.
  - destruct (DbSubOrder.id r =? id); [discriminate | now apply IH].
Qed.

Lemma getSubOrderById_insertSubOrder (db : Db.t) (s : DbSubOrder.t) :
  Db.getSubOrderById (DbSubOrder.id s) db = None ->
  Db.getSubOrderById (DbSubOrder.id s) (Db.insertSubOrder s db) = Some s.
Proof.
  intros H. unfold Db.insertSubOrder. rewrite H.
  unfold Db.getSubOrderById in *. simpl. now apply find_fresh_app.
Qed.

Lemma set_status_same (s : DbSubOrder.t) :
  DbSubOrder.set_status s (DbSubOrder.status s) = s.
Proof. now destruct s. Qed.

(** ** C1: an acknowledgement that says REJECTED *)

(** C1, as amended. Whatever the persisted status of a sub-order is,
    FILLED and CANCELED included, [onSubOrderStatusAccepted] with
    [data.status = REJECTED] leaves it persisted as REJECTED with
    [sentToAggregator] set, its other fields as they were; an
    acknowledgement of any other status never changes the persisted
    status. *)
Theorem onSubOrderStatusAccepted_rejected_forces_rejected
    (w : World.t) (id : Z) (s : DbSubOrder.t) :
  Db.getSubOrderById id (World.db w) = Some s ->
  Db.getSubOrderById id
    (World.db (snd (onSubOrderStatusAccepted
                      {| SubOrderStatusAccepted.id := id;
                         SubOrderStatusAccepted.status := REJECTED |} w)))
  = Some (DbSubOrder.set_sentToAggregator (DbSubOrder.set_status s REJECTED) true)
  /\ forall status,
       status <> REJECTED ->
       option_map DbSubOrder.status
         (Db.getSubOrderById id
            (World.db (snd (onSubOrderStatusAccepted
                              {| SubOrderStatusAccepted.id := id;
                                 SubOrderStatusAccepted.status := status |} w))))
       = Some (DbSubOrder.status s).
Proof.
  intros Hs. pose proof (getSubOrderById_id _ _ _ Hs) as Hid. split.
  - unfold onSubOrderStatusAccepted, bind, reads. simpl. rewrite Hs.
    destruct (DbSubOrder.status s) eqn:E; simpl;
      try (apply getSubOrderById_updateSubOrder with (s := s); [exact Hs | exact Hid]).
    replace (DbSubOrder.set_status s REJECTED) with s
      by (rewrite <- E; symmetry; apply set_status_same).
    rewrite E. simpl.
    apply getSubOrderById_updateSubOrder with (s := s); [exact Hs | exact Hid].
  - intros status Hne.
    unfold onSubOrderStatusAccepted, bind, reads. simpl. rewrite Hs.
    destruct status; try congruence;
      destruct (DbSubOrder.status s) eqn:E; simpl; rewrite ?E; simpl;
        rewrite ?Hs; simpl;
        try (now rewrite E);
        (erewrite getSubOrderById_updateSubOrder; [ | exact Hs | exact Hid ];
         simpl; now rewrite E).
Qed.

(** The theorem at sub-order 1 of scenario S1 after its fill. *)
Lemma onSubOrderStatusAccepted_rejected_forces_rejected_witness :
  Db.getSubOrderById 1 (World.db Scenario.world2) = Some Scenario.subOrder1
  /\ Db.getSubOrderById 1
       (World.db (snd (onSubOrderStatusAccepted
                         {| SubOrderStatusAccepted.id := 1;
                            SubOrderStatusAccepted.status := REJECTED |}
                         Scenario.world2)))
     = Some (DbSubOrder.set_sentToAggregator
               (DbSubOrder.set_status Scenario.subOrder1 REJECTED) true).
Proof.
  split.
  - vm_compute. reflexivity.
  - apply (onSubOrderStatusAccepted_rejected_forces_rejected
             Scenario.world2 1 Scenario.subOrder1).
    vm_compute. reflexivity.
Defined.

(** C1 as stated fails: sub-order 1 of scenario S1 is persisted as FILLED,
    and after the hub's REJECTED it is persisted as REJECTED. *)
Lemma filled_regresses_to_rejected :
  option_map DbSubOrder.status (Db.getSubOrderById 1 (World.db Scenario.world2))
  = Some FILLED
  /\ option_map DbSubOrder.status
       (Db.getSubOrderById 1
          (World.db (snd (onSubOrderStatusAccepted
                            {| SubOrderStatusAccepted.id := 1;
                               SubOrderStatusAccepted.status := REJECTED |}
                            Scenario.world2))))
     = Some REJECTED.
Proof. vm_compute. split; reflexivity. Qed.

(** ** C5: what [onCheckSubOrder] reports *)

Section CheckSubOrder.

Variable orionBlockchain : OrionBlockchain.t.
Variable symbolToAddresses : string -> string * string.
Variable nameToAddress : string -> string.
Variable web3_packed : list string -> option (list byte).
Variable signTypedMessage : string -> Z -> BlockchainOrder.t -> result string.
Variable BigNumber_toString : BigNumber -> string.

Local Abbreviation check :=
  (onCheckSubOrder orionBlockchain symbolToAddresses nameToAddress
     web3_packed signTypedMessage BigNumber_toString).
Local Abbreviation sign :=
  (OrionBlockchain.signTrade symbolToAddresses nameToAddress
     web3_packed signTypedMessage orionBlockchain).

(** Checking reads the store and signs; it leaves the world alone. *)
Lemma onCheckSubOrder_world (id : Z) (w : World.t) : snd (check id w) = w.
Proof.
  unfold onCheckSubOrder, bind, reads, signTrade, lift, ret, throw. simpl.
  destruct (Db.getSubOrderById id (World.db w)) as [s|]; [|reflexivity].
  destruct (subOrderTrades s (World.db w)) as [|t [|t' rest]]; simpl;
    try reflexivity.
  destruct (sign s t); reflexivity.
Qed.

(** What it returns depends on the store only. *)
Lemma onCheckSubOrder_store (id : Z) (w1 w2 : World.t) :
  World.db w1 = World.db w2 -> fst (check id w1) = fst (check id w2).
Proof.
  intros Hdb. destruct w1 as [db1 ? ? ? ? ? ?], w2 as [db2 ? ? ? ? ? ?].
  simpl in Hdb. subst db2.
  unfold onCheckSubOrder, bind, reads, signTrade, lift, ret, throw. simpl.
  destruct (Db.getSubOrderById id db1) as [s|]; [|reflexivity]. simpl.
  destruct (subOrderTrades s db1) as [|t [|t' rest]]; simpl;
    try reflexivity.
  destruct (sign s t); reflexivity.
Qed.

(** C5, as amended. [onCheckSubOrder(id)] returns
    [{id, status = null, filledAmount = "0"}] when no sub-order with that
    id is persisted. When one is persisted and at most one trade is
    stored for it, it returns its [filledAmount] with status PREPARE
    mapped to ACCEPTED, without a [blockchainOrder] when there is no
    trade and with the order [signTrade] returns when there is one; when
    [signTrade] throws, the call throws the same error. When more than
    one trade is stored for it, the call throws and returns nothing. In
    every case the world is left as it was. *)
Theorem onCheckSubOrder_reports (w : World.t) (id : Z) :
  (Db.getSubOrderById id (World.db w) = None ->
   check id w
   = (Ok {| SubOrderStatus.id := id;
            SubOrderStatus.status := None;
            SubOrderStatus.filledAmount := "0";
            SubOrderStatus.blockchainOrder := None |}, w))
  /\ (forall s,
        Db.getSubOrderById id (World.db w) = Some s ->
        (subOrderTrades s (World.db w) = [] ->
         check id w
         = (Ok {| SubOrderStatus.id := id;
                  SubOrderStatus.status :=
                    Some (if Status_eqb (DbSubOrder.status s) PREPARE
                          then ACCEPTED else DbSubOrder.status s);
                  SubOrderStatus.filledAmount :=
                    BigNumber_toString (DbSubOrder.filledAmount s);
                  SubOrderStatus.blockchainOrder := None |}, w))
        /\ (forall trade bo,
              subOrderTrades s (World.db w) = [trade] ->
              sign s trade = Ok bo ->
              check id w
              = (Ok {| SubOrderStatus.id := id;
                       SubOrderStatus.status :=
                         Some (if Status_eqb (DbSubOrder.status s) PREPARE
                               then ACCEPTED else DbSubOrder.status s);
                       SubOrderStatus.filledAmount :=
                         BigNumber_toString (DbSubOrder.filledAmount s);
                       SubOrderStatus.blockchainOrder := Some bo |}, w))
        /\ (forall trade msg,
              subOrderTrades s (World.db w) = [trade] ->
              sign s trade = Throw msg ->
              check id w = (Throw msg, w))
        /\ (forall trade trade' rest,
              subOrderTrades s (World.db w) = trade :: trade' :: rest ->
              check id w = (Throw "Cant support multiple trades yet", w))).
Proof.
  split; [|intros s Hs; repeat split].
  - intros Hnone.
    unfold onCheckSubOrder, bind, reads, ret. simpl. now rewrite Hnone.
  - intros Hnil.
    unfold onCheckSubOrder, bind, reads, ret. simpl. rewrite Hs. simpl.
    now rewrite Hnil.
  - intros trade bo Hone Hsign.
    unfold onCheckSubOrder, bind, reads, ret, signTrade, lift. simpl.
    rewrite Hs. simpl. rewrite Hone. simpl. now rewrite Hsign.
  - intros trade msg Hone Hsign.
    unfold onCheckSubOrder, bind, reads, ret, signTrade, lift. simpl.
    rewrite Hs. simpl. rewrite Hone. simpl. now rewrite Hsign.
  - intros trade trade' rest Hmany.
    unfold onCheckSubOrder, bind, reads, throw. simpl.
    rewrite Hs. simpl. now rewrite Hmany.
Qed.

End CheckSubOrder.

(** The theorem at scenario S1: before the create sub-order 1 is unknown,
    after the fill it is reported FILLED with the signed order. And at a
    fill of 100000000 BTC, which cannot be signed: the check throws. *)
Lemma onCheckSubOrder_reports_witness :
  Db.getSubOrderById 1 (World.db Scenario.world0) = None
  /\ fst (Scenario.onCheckSubOrder 1 Scenario.world0)
     = Ok {| SubOrderStatus.id := 1;
             SubOrderStatus.status := None;
             SubOrderStatus.filledAmount := "0";
             SubOrderStatus.blockchainOrder := None |}
  /\ (exists bo,
       Scenario.signTrade Scenario.subOrder1 Scenario.trade1 Scenario.world2
       = (Ok bo, Scenario.world2)
       /\ fst (Scenario.onCheckSubOrder 1 Scenario.world2)
          = Ok {| SubOrderStatus.id := 1;
                  SubOrderStatus.status := Some FILLED;
                  SubOrderStatus.filledAmount := "0.01";
                  SubOrderStatus.blockchainOrder := Some bo |})
  /\ fst (Scenario.onCheckSubOrder 7 Polls.worldHuge)
     = Throw "Supplied uint is not an unsigned integer".
Proof.
  split; [vm_compute; reflexivity|]. split; [|split].
  - pose proof (onCheckSubOrder_reports Scenario.orionBlockchain
                  Scenario.symbolToAddresses Scenario.nameToAddress
                  Scenario.web3_packed Scenario.signTypedMessage Scenario.BigNumber_toString
                  Scenario.world0 1) as [H _].
    unfold Scenario.onCheckSubOrder. rewrite H; [reflexivity|].
    vm_compute. reflexivity.
  - destruct (OrionBlockchain.signTrade Scenario.symbolToAddresses
                Scenario.nameToAddress
                  Scenario.web3_packed Scenario.signTypedMessage
                Scenario.orionBlockchain Scenario.subOrder1 Scenario.trade1)
      as [bo|msg] eqn:Hsign; [|vm_compute in Hsign; discriminate].
    exists bo. split.
    + unfold Scenario.signTrade, signTrade, lift. now rewrite Hsign.
    + pose proof (onCheckSubOrder_reports Scenario.orionBlockchain
                    Scenario.symbolToAddresses Scenario.nameToAddress
                    Scenario.web3_packed Scenario.signTypedMessage Scenario.BigNumber_toString
                    Scenario.world2 1) as [_ H].
      specialize (H Scenario.subOrder1).
      destruct H as (_ & H & _); [vm_compute; reflexivity|].
      unfold Scenario.onCheckSubOrder.
      rewrite (H Scenario.trade1 bo); [reflexivity | vm_compute; reflexivity | exact Hsign].
  - pose proof (onCheckSubOrder_reports Scenario.orionBlockchain
                  Scenario.symbolToAddresses Scenario.nameToAddress
                  Scenario.web3_packed Scenario.signTypedMessage
                  Scenario.BigNumber_toString Polls.worldHuge 7) as [_ H].
    specialize (H Polls.subOrderHuge).
    destruct H as (_ & _ & H & _); [vm_compute; reflexivity|].
    unfold Scenario.onCheckSubOrder.
    rewrite (H Scenario.tradeHuge
               "Supplied uint is not an unsigned integer"%string);
      [reflexivity | vm_compute; reflexivity | vm_compute; reflexivity].
Defined.

(** C5 as stated fails: in scenario S1 the venue reports the fill of
    order [e1] twice; sub-order 1 is persisted, two trades are stored for
    it, and [onCheckSubOrder(1)] throws instead of returning. *)
Lemma onCheckSubOrder_fails_on_two_trades :
  Db.getSubOrderById 1 (World.db Scenario.world3) = Some Scenario.subOrder1
  /\ subOrderTrades Scenario.subOrder1 (World.db Scenario.world3)
     = [Scenario.trade1; Scenario.trade1]
  /\ fst (Scenario.onCheckSubOrder 1 Scenario.world3)
     = Throw "Cant support multiple trades yet".
Proof. vm_compute. repeat split; reflexivity. Qed.

(** ** C3: replaying a create *)

Section CreateSubOrder.

Variable orionBlockchain : OrionBlockchain.t.
Variable symbolToAddresses : string -> string * string.
Variable nameToAddress : string -> string.
Variable web3_packed : list string -> option (list byte).
Variable signTypedMessage : string -> Z -> BlockchainOrder.t -> result string.
Variable BigNumber_toString : BigNumber -> string.
Variable connector_submitSubOrder :
  string -> Z -> string -> Side -> BigNumber -> BigNumber -> result SubOrder.t.

Local Abbreviation check :=
  (onCheckSubOrder orionBlockchain symbolToAddresses nameToAddress
     web3_packed signTypedMessage BigNumber_toString).
Local Abbreviation create :=
  (onCreateSubOrder orionBlockchain symbolToAddresses nameToAddress
     web3_packed signTypedMessage BigNumber_toString connector_submitSubOrder).

(** A create ends in a check of a world in which the sub-order is
    persisted: the world it started in when the id was known, and
    otherwise one whose trace has one more call of the adapter. *)
Lemma onCreateSubOrder_shape (request : CreateSubOrder.t) (w : World.t) :
  exists w1,
    create request w = check (CreateSubOrder.id request) w1
    /\ (exists s, Db.getSubOrderById (CreateSubOrder.id request) (World.db w1) = Some s)
    /\ ((exists old,
           Db.getSubOrderById (CreateSubOrder.id request) (World.db w) = Some old)
         /\ w1 = w
        \/ Db.getSubOrderById (CreateSubOrder.id request) (World.db w) = None
           /\ submitCalls (World.trace w1) = S (submitCalls (World.trace w))).
Proof.
  destruct (Db.getSubOrderById (CreateSubOrder.id request) (World.db w))
    as [old|] eqn:Hold.
  - exists w. split; [|split].
    + unfold onCreateSubOrder, bind, reads. simpl. now rewrite Hold.
    + now exists old.
    + left. split; [now exists old | reflexivity].
  - unfold onCreateSubOrder.
    set (chk := onCheckSubOrder orionBlockchain symbolToAddresses
                  nameToAddress
                    web3_packed signTypedMessage BigNumber_toString).
    unfold bind, reads. simpl. rewrite Hold.
    unfold writeDb, emit, modify. simpl.
    destruct (connector_submitSubOrder _ _ _ _ _ _); simpl;
      (eexists; split; [reflexivity|]; simpl; split;
       [ eexists; eapply getSubOrderById_updateSubOrder;
         [ apply (getSubOrderById_insertSubOrder (World.db w)
                    (DbSubOrder.mk (CreateSubOrder.id request) _ _ _ _ _ _ _ _ _ _));
           exact Hold
         | reflexivity ]
       | right; split; [reflexivity|];
         unfold submitCalls; rewrite <- app_assoc, filter_app, length_app;
         simpl; lia ]).
Qed.

(** C3. Calling [onCreateSubOrder(request)] a second time, at any later
    time, returns what the first call returned and leaves the persisted
    state, and the whole trace of outgoing calls, as the first call left
    them: the adapter's [submitSubOrder] is not invoked again. When the
    id was not persisted before the first call, the two calls together
    invoke it exactly once. *)
Theorem onCreateSubOrder_idempotent
    (request : CreateSubOrder.t) (w : World.t) (later : Z) :
  let once := create request w in
  let twice := create request (World.set_now (snd once) later) in
  fst twice = fst once
  /\ World.db (snd twice) = World.db (snd once)
  /\ World.trace (snd twice) = World.trace (snd once)
  /\ (Db.getSubOrderById (CreateSubOrder.id request) (World.db w) = None ->
      submitCalls (World.trace (snd twice)) = S (submitCalls (World.trace w))).
Proof.
  intros once twice.
  destruct (onCreateSubOrder_shape request w) as (w1 & Hshape & [s Hs] & Hcalls).
  assert (Hw1 : snd once = w1).
  { unfold once. rewrite Hshape. apply onCheckSubOrder_world. }
  assert (Htwice : twice = check (CreateSubOrder.id request) (World.set_now w1 later)).
  { unfold twice. rewrite Hw1.
    unfold onCreateSubOrder at 1. unfold bind, reads. simpl. now rewrite Hs. }
  assert (Hsnd : snd twice = World.set_now w1 later).
  { rewrite Htwice. apply onCheckSubOrder_world. }
  repeat split.
  - rewrite Htwice. unfold once. rewrite Hshape.
    apply onCheckSubOrder_store. reflexivity.
  - now rewrite Hsnd, Hw1.
  - now rewrite Hsnd, Hw1.
  - intros Hfresh. rewrite Hsnd. simpl.
    destruct Hcalls as [[[old Hold] _] | [_ Hone]]; [congruence | exact Hone].
Qed.

End CreateSubOrder.

(** The theorem at scenario S4: the create of S1, twice, from the empty
    store. *)
Lemma onCreateSubOrder_idempotent_witness :
  Db.getSubOrderById 1 (World.db Scenario.world0) = None
  /\ submitCalls
       (World.trace
          (snd (Scenario.onCreateSubOrder Scenario.request1
                  (World.set_now Scenario.world1 1600000005000))))
     = 1%nat.
Proof.
  split.
  - vm_compute. reflexivity.
  - apply (onCreateSubOrder_idempotent Scenario.orionBlockchain
             Scenario.symbolToAddresses Scenario.nameToAddress
             Scenario.web3_packed Scenario.signTypedMessage Scenario.BigNumber_toString
             Scenario.connector_submitSubOrder
             Scenario.request1 Scenario.world0 1600000005000).
    vm_compute. reflexivity.
Defined.

(** ** C4: a trade event *)

Lemma getSubOrder_In (exchange exchangeOrderId : string) (db : Db.t)
    (s : DbSubOrder.t) :
  Db.getSubOrder exchange exchangeOrderId db = Some s -> In s (Db.subOrders db).
Proof. unfold Db.getSubOrder. intros H. now apply find_some in H. Qed.

Lemma find_by_id_In (rows : list DbSubOrder.t) (s : DbSubOrder.t) :
  In s rows ->
  exists r, find (fun r => DbSubOrder.id r =? DbSubOrder.id s) rows = Some r.
Proof.
  induction rows as [|r rows IH]; simpl; [contradiction|].
  intros [-> | Hin].
  - rewrite Z.eqb_refl. now exists s.
  - destruct (DbSubOrder.id r =? DbSubOrder.id s); [now exists r | now apply IH].
Qed.

Section Trade.

Variable orionBlockchain : OrionBlockchain.t.
Variable symbolToAddresses : string -> string * string.
Variable nameToAddress : string -> string.
Variable web3_packed : list string -> option (list byte).
Variable signTypedMessage : string -> Z -> BlockchainOrder.t -> result string.
Variable BigNumber_toString : BigNumber -> string.

Local Abbreviation check :=
  (onCheckSubOrder orionBlockchain symbolToAddresses nameToAddress
     web3_packed signTypedMessage BigNumber_toString).
Local Abbreviation handle :=
  (onTrade orionBlockchain symbolToAddresses nameToAddress
     web3_packed signTypedMessage BigNumber_toString).

(** The store a handled trade leaves: the trade is inserted when its
    amount is positive, then the sub-order is updated. *)
Lemma onTrade_store (w : World.t) (trade : Trade.t) (s : DbSubOrder.t) :
  Db.getSubOrder (Trade.exchange trade) (Trade.exchangeOrderId trade) (World.db w)
  = Some s ->
  Trade.status trade = FILLED /\ BN.eq (DbSubOrder.amount s) (Trade.amount trade) = true
  \/ Trade.status trade = CANCELED ->
  World.db (snd (handle trade w))
  = Db.updateSubOrder
      (DbSubOrder.set_status
         (DbSubOrder.set_filledAmount s (Trade.amount trade))
         (Trade.status trade))
      (if BN.gt (Trade.amount trade) (BN.ofZ 0)
       then Db.insertTrade trade (World.db w)
       else World.db w).
Proof.
  intros Hs Hok.
  unfold onTrade.
  pose proof (onCheckSubOrder_world orionBlockchain symbolToAddresses
                nameToAddress
                  web3_packed signTypedMessage BigNumber_toString) as Hworld.
  set (chk := onCheckSubOrder orionBlockchain symbolToAddresses
                nameToAddress
                  web3_packed signTypedMessage BigNumber_toString) in *.
  clearbody chk.
  unfold try_log, bind, reads. cbn -[BN.gt]. rewrite Hs.
  assert (Hguard :
    negb (Status_eqb (Trade.status trade) FILLED)
    && negb (Status_eqb (Trade.status trade) CANCELED) = false
    /\ Status_eqb (Trade.status trade) FILLED
       && negb (BN.eq (DbSubOrder.amount s) (Trade.amount trade)) = false).
  { destruct Hok as [[-> ->] | ->]; split; reflexivity. }
  destruct Hguard as [-> ->].
  unfold writeDb, emit, modify, ret. cbn -[BN.gt].
  destruct (BN.gt (Trade.amount trade) (BN.ofZ 0)); cbn -[BN.gt];
    match goal with
    | |- context [chk ?id ?w'] =>
        specialize (Hworld id w');
        destruct (chk id w') as [[st|msg] w'']; simpl in Hworld; subst w'';
        reflexivity
    end.
Qed.

(** C4. For a trade event whose sub-order is stored: when its status is
    FILLED and its amount differs from the sub-order's amount, [onTrade]
    fails and leaves the world, hence all persisted state, as it was.
    When the trade is accepted (FILLED with the sub-order's amount, or
    CANCELED), the persisted sub-order has [filledAmount = trade.amount]
    and [status = trade.status], and the trade is added to the stored
    trades exactly when [trade.amount > 0]. *)
Theorem onTrade_persists (w : World.t) (trade : Trade.t) (s : DbSubOrder.t) :
  Db.getSubOrder (Trade.exchange trade) (Trade.exchangeOrderId trade) (World.db w)
  = Some s ->
  (Trade.status trade = FILLED ->
   BN.eq (DbSubOrder.amount s) (Trade.amount trade) = false ->
   snd (handle trade w) = w)
  /\ (Trade.status trade = FILLED /\ BN.eq (DbSubOrder.amount s) (Trade.amount trade) = true
      \/ Trade.status trade = CANCELED ->
      Db.getSubOrderById (DbSubOrder.id s) (World.db (snd (handle trade w)))
      = Some (DbSubOrder.set_status
                (DbSubOrder.set_filledAmount s (Trade.amount trade))
                (Trade.status trade))
      /\ Db.trades (World.db (snd (handle trade w)))
         = (if BN.gt (Trade.amount trade) (BN.ofZ 0)
            then Db.trades (World.db w) ++ [trade]
            else Db.trades (World.db w))
      /\ Db.withdraws (World.db (snd (handle trade w))) = Db.withdraws (World.db w)
      /\ Db.transactions (World.db (snd (handle trade w)))
         = Db.transactions (World.db w)).
Proof.
  intros Hs. split.
  - intros Hfilled Hne.
    unfold onTrade, try_log, bind, reads, throw. simpl.
    rewrite Hs, Hfilled, Hne. reflexivity.
  - intros Hok. rewrite (onTrade_store w trade s Hs Hok).
    repeat split.
    + destruct (find_by_id_In (Db.subOrders (World.db w)) s
                  (getSubOrder_In _ _ _ _ Hs)) as [r Hr].
      unfold Db.getSubOrderById, Db.updateSubOrder. cbn [Db.subOrders].
      apply find_updated with (s := r); [|reflexivity].
      destruct (BN.gt (Trade.amount trade) (BN.ofZ 0)); exact Hr.
    + now destruct (BN.gt (Trade.amount trade) (BN.ofZ 0)).
    + now destruct (BN.gt (Trade.amount trade) (BN.ofZ 0)).
    + now destruct (BN.gt (Trade.amount trade) (BN.ofZ 0)).
Qed.

End Trade.

(** The theorem at scenario S1: a fill of half the amount is refused and
    changes nothing; the fill of the whole amount is stored. *)
Lemma onTrade_persists_witness :
  Db.getSubOrder "X" "e1" (World.db Scenario.world1) = Some Scenario.subOrder1Accepted
  /\ snd (Scenario.onTrade Scenario.partialTrade Scenario.world1) = Scenario.world1
  /\ Db.getSubOrderById 1 (World.db (snd (Scenario.onTrade Scenario.trade1 Scenario.world1)))
     = Some Scenario.subOrder1
  /\ Db.trades (World.db (snd (Scenario.onTrade Scenario.trade1 Scenario.world1)))
     = [Scenario.trade1].
Proof.
  assert (Hs : Db.getSubOrder "X" "e1" (World.db Scenario.world1)
               = Some Scenario.subOrder1Accepted) by (vm_compute; reflexivity).
  split; [exact Hs|].
  split.
  - apply (onTrade_persists Scenario.orionBlockchain Scenario.symbolToAddresses
             Scenario.nameToAddress
               Scenario.web3_packed Scenario.signTypedMessage
             Scenario.BigNumber_toString Scenario.world1 Scenario.partialTrade
             Scenario.subOrder1Accepted Hs);
      vm_compute; reflexivity.
  - destruct (onTrade_persists Scenario.orionBlockchain Scenario.symbolToAddresses
                Scenario.nameToAddress
                  Scenario.web3_packed Scenario.signTypedMessage
                Scenario.BigNumber_toString Scenario.world1 Scenario.trade1
                Scenario.subOrder1Accepted Hs) as [_ H].
    destruct H as (Hsub & Htrades & _).
    + left. split; vm_compute; reflexivity.
    + split; [exact Hsub | exact Htrades].
Defined.

(** ** Hexadecimal notation and big-endian bytes *)

Lemma parse_one (z : Z) (rest : string) :
  0 <= z < 256 ->
  Hex.parseDigits
    (String (Hex.hexDigit (Z.shiftr z 4))
       (String (Hex.hexDigit (Z.land z 15)) rest))
  = match Hex.parseDigits rest with
    | Some bs => Some (Hex.byte_of_Z z :: bs)
    | None => None
    end.
Proof.
  intros Hz.
  assert (Hn : exists n, (n < 256)%nat /\ z = Z.of_nat n).
  { exists (Z.to_nat z). split; lia. }
  destruct Hn as (n & Hn & ->). clear Hz.
  do 256 (destruct n as [|n]; [reflexivity|]). lia.
Qed.

Lemma byte_of_Z_mod (a b : Z) : a mod 256 = b mod 256 -> Hex.byte_of_Z a = Hex.byte_of_Z b.
Proof. unfold Hex.byte_of_Z. now intros ->. Qed.

Lemma toBytesBE_fromNumber (v : Z) :
  0 <= v < 2 ^ 63 ->
  map Hex.byte_of_Z (Long.toBytesBE (Long.fromNumber (Num v))) = bigEndian 8 v.
Proof.
  intros Hv. unfold Long.fromNumber.
  destruct (v <=? - Long.TWO_PWR_63_DBL) eqn:E1.
  { apply Z.leb_le in E1. unfold Long.TWO_PWR_63_DBL in E1. lia. }
  destruct (Long.TWO_PWR_63_DBL <=? v + 1) eqn:E2.
  { apply Z.leb_le in E2. unfold Long.TWO_PWR_63_DBL in E2.
    assert (v = 2 ^ 63 - 1) as -> by lia. vm_compute. reflexivity. }
  apply Z.leb_gt in E2. unfold Long.TWO_PWR_63_DBL in E2.
  destruct (v <? 0) eqn:E3; [apply Z.ltb_lt in E3; lia|].
  unfold Long.fromNonNegative, Long.toBytesBE, Long.TWO_PWR_32_DBL.
  cbn [Long.low Long.high map bigEndian app].
  rewrite !Z.shiftr_div_pow2 by lia.
  change 0xff with (Z.ones 8). rewrite !Z.land_ones by lia.
  unfold Long.toUint32, Long.toInt32.
  repeat (f_equal; [apply byte_of_Z_mod; Z.div_mod_to_equations; lia|]).
  f_equal. apply byte_of_Z_mod. Z.div_mod_to_equations. lia.
Qed.

Lemma toBytesBE_range (l : Long.t) :
  Forall (fun b => 0 <= b < 256) (Long.toBytesBE l).
Proof.
  unfold Long.toBytesBE, Long.toUint32.
  change 0xff with (Z.ones 8).
  rewrite !Z.land_ones, !Z.shiftr_div_pow2 by lia.
  repeat constructor; Z.div_mod_to_equations; lia.
Qed.

Lemma parse_hexDigits (bytes : list Z) :
  Forall (fun b => 0 <= b < 256) bytes ->
  Hex.parseDigits (Hex.hexDigits bytes) = Some (map Hex.byte_of_Z bytes).
Proof.
  induction 1 as [|b bytes Hb _ IH]; [reflexivity|].
  cbn [Hex.hexDigits]. rewrite parse_one by exact Hb. now rewrite IH.
Qed.

Lemma hexToBytes_bytesToHex (bytes : list Z) :
  Forall (fun b => 0 <= b < 256) bytes ->
  Hex.hexToBytes (Hex.bytesToHex bytes) = Some (map Hex.byte_of_Z bytes).
Proof. intros H. unfold Hex.bytesToHex. cbn [Hex.hexToBytes]. simpl. now apply parse_hexDigits. Qed.

Lemma bigEndian_length (n : nat) (z : Z) : List.length (bigEndian n z) = n.
Proof.
  revert z. induction n as [|n IH]; intros z; [reflexivity|].
  cbn [bigEndian]. rewrite length_app, IH. simpl. lia.
Qed.

Lemma Z_of_byte_of_Z (z : Z) : Hex.Z_of_byte (Hex.byte_of_Z z) = z mod 256.
Proof.
  unfold Hex.Z_of_byte, Hex.byte_of_Z.
  assert (H : (Z.to_N (z mod 256) < 256)%N).
  { pose proof (Z.mod_pos_bound z 256). lia. }
  destruct (Byte.of_N (Z.to_N (z mod 256))) as [b|] eqn:E.
  - apply Byte.to_of_N in E. rewrite E.
    pose proof (Z.mod_pos_bound z 256). lia.
  - apply Byte.of_N_None_iff in E. lia.
Qed.

Lemma fromBigEndian_app (bs : list byte) (b : byte) :
  fromBigEndian (bs ++ [b]) = 256 * fromBigEndian bs + Hex.Z_of_byte b.
Proof. unfold fromBigEndian. now rewrite fold_left_app. Qed.

Lemma fromBigEndian_bigEndian (n : nat) (z : Z) :
  fromBigEndian (bigEndian n z) = z mod 256 ^ Z.of_nat n.
Proof.
  revert z. induction n as [|n IH]; intros z.
  - simpl. now rewrite Z.mod_1_r.
  - cbn [bigEndian]. rewrite fromBigEndian_app, IH, Z_of_byte_of_Z.
    rewrite Nat2Z.inj_succ, Z.pow_succ_r by lia.
    rewrite Z.rem_mul_r by lia. lia.
Qed.


Lemma bigEndian_inj (z z' : Z) :
  0 <= z < 2 ^ 63 -> 0 <= z' < 2 ^ 63 -> bigEndian 8 z = bigEndian 8 z' -> z = z'.
Proof.
  intros Hz Hz' H. apply (f_equal fromBigEndian) in H.
  rewrite !fromBigEndian_bigEndian in H.
  change (256 ^ Z.of_nat 8) with (2 ^ 64) in H.
  rewrite !Z.mod_small in H by lia. exact H.
Qed.

Lemma app_inj_length {A} (a a' b b' : list A) :
  List.length a = List.length a' -> a ++ b = a' ++ b' -> a = a' /\ b = b'.
Proof.
  revert a'. induction a as [|x a IH]; intros [|x' a'] Hlen H; simpl in *;
    try discriminate.
  - now split.
  - injection H as -> H. destruct (IH a' ltac:(lia) H) as [-> ->]. now split.
Qed.

Lemma hexToBytes_longToHex (n : number) :
  Hex.hexToBytes (longToHex n)
  = Some (map Hex.byte_of_Z (Long.toBytesBE (Long.fromNumber n))).
Proof. unfold longToHex. apply hexToBytes_bytesToHex, toBytesBE_range. Qed.

Lemma hexToBytes_longToHex_inRange (v : Z) :
  0 <= v < 2 ^ 63 -> Hex.hexToBytes (longToHex (Num v)) = Some (bigEndian 8 v).
Proof. intros Hv. now rewrite hexToBytes_longToHex, toBytesBE_fromNumber. Qed.

Lemma packArgs_hashArgs (o : BlockchainOrder.t) (c : Canonical.t) :
  decodes o c -> inRange c -> packArgs (hashArgs o) = Some (orderBytes c).
Proof.
  intros (H1 & H2 & H3 & H4 & H5 & H6 & H7 & H8 & H9 & H10 & H11)
         (_ & _ & _ & _ & _ & R6 & R7 & R8 & R9 & R10).
  unfold hashArgs. cbn [packArgs].
  rewrite H1, H2, H3, H4, H5, H6, H7, H8, H9, H10, H11.
  rewrite !hexToBytes_longToHex_inRange by assumption.
  unfold orderBytes. destruct (Canonical.buy c); reflexivity.
Qed.

Lemma orderBytes_inj (c c' : Canonical.t) :
  inRange c -> inRange c' -> orderBytes c' = orderBytes c -> c' = c.
Proof.
  intros (L1 & L2 & L3 & L4 & L5 & R6 & R7 & R8 & R9 & R10)
         (L1' & L2' & L3' & L4' & L5' & R6' & R7' & R8' & R9' & R10') H.
  unfold orderBytes in H.
  apply app_inj_length in H as [_ H]; [|reflexivity].
  apply app_inj_length in H as [E1 H]; [|congruence].
  apply app_inj_length in H as [E2 H]; [|congruence].
  apply app_inj_length in H as [E3 H]; [|congruence].
  apply app_inj_length in H as [E4 H]; [|congruence].
  apply app_inj_length in H as [E5 H]; [|congruence].
  apply app_inj_length in H as [E6 H]; [|now rewrite !bigEndian_length].
  apply app_inj_length in H as [E7 H]; [|now rewrite !bigEndian_length].
  apply app_inj_length in H as [E8 H]; [|now rewrite !bigEndian_length].
  apply app_inj_length in H as [E9 H]; [|now rewrite !bigEndian_length].
  apply app_inj_length in H as [E10 H]; [|now rewrite !bigEndian_length].
  apply bigEndian_inj in E6, E7, E8, E9, E10; try assumption.
  destruct c as [? ? ? ? ? ? ? ? ? ? b], c' as [? ? ? ? ? ? ? ? ? ? b'].
  simpl in *. subst.
  f_equal. destruct b, b'; congruence.
Qed.

(** C8, as amended. For every order whose five addresses are hexadecimal
    strings and whose amount, price, matcherFee, nonce and expiration are
    integers in [0, 2^63), [hashOrder] is the keccak-256 of the 142 bytes
    that concatenate the tag [0x03], the five addresses, the five integers
    as big-endian 8-byte unsigned integers, and one byte that is 1 when
    [buySide] is truthy and 0 otherwise. Two such orders with 20-byte
    addresses that differ in an address, in one of the five integers or
    in the truth of [buySide] have different hashed bytes (and so
    different hashes, unless keccak-256 collides). [id] and [signature]
    are not hashed. *)
Theorem hashOrder_canonical
    (web3_packed : list string -> option (list byte))
    (o : BlockchainOrder.t) (c : Canonical.t) :
  decodes o c ->
  inRange c ->
  hashOrder web3_packed o
  = Some (Hex.bytesToHex (map Hex.Z_of_byte (Keccak.keccak256 (orderBytes c))))
  /\ List.length (orderBytes c) = 142%nat
  /\ forall c', inRange c' -> orderBytes c' = orderBytes c -> c' = c.
Proof.
  intros Hdec Hrange. split; [|split].
  - unfold hashOrder, soliditySha3. now rewrite (packArgs_hashArgs o c).
  - destruct Hrange as (L1 & L2 & L3 & L4 & L5 & _).
    unfold orderBytes. cbn [app List.length].
    rewrite !length_app, !bigEndian_length, L1, L2, L3, L4, L5. reflexivity.
  - intros c' Hrange'. now apply orderBytes_inj.
Qed.

(** The theorem at the order of scenario S1, with the hash it gives. *)
Lemma hashOrder_canonical_witness :
  decodes Scenario.order1 Scenario.canonical1
  /\ inRange Scenario.canonical1
  /\ hashOrder Scenario.web3_packed Scenario.order1
     = Some "0xc16c8375614024318bc2c5c1cd86e91e8f37811384a8f503a74b237000ba74cc".
Proof.
  assert (Hdec : decodes Scenario.order1 Scenario.canonical1)
    by (repeat split; vm_compute; reflexivity).
  assert (Hrange : inRange Scenario.canonical1)
    by (repeat split; try reflexivity; simpl; lia).
  split; [exact Hdec|]. split; [exact Hrange|].
  destruct (hashOrder_canonical Scenario.web3_packed Scenario.order1
              Scenario.canonical1 Hdec Hrange) as [H _].
  rewrite H. vm_compute. reflexivity.
Defined.

(** C8 as stated fails: changing [buySide] from 1 to 2, or changing the
    [signature], changes the order and not its hash. *)
Lemma hashOrder_unchanged_by_some_fields :
  Scenario.order1Buy <> Scenario.order1Buy2
  /\ hashOrder Scenario.web3_packed Scenario.order1Buy
     = hashOrder Scenario.web3_packed Scenario.order1Buy2
  /\ Scenario.order1Buy <> Scenario.order1BuySigned
  /\ hashOrder Scenario.web3_packed Scenario.order1Buy
     = hashOrder Scenario.web3_packed Scenario.order1BuySigned
  /\ hashOrder Scenario.web3_packed Scenario.order1Buy
     = Some "0x4e53f358d1bd54d914fe63dbf5141b8264cc3121ca6a60316229dba56de7b210".
Proof.
  repeat split; try (vm_compute; reflexivity); vm_compute; discriminate.
Qed.

(** ** Rounding to a double *)

(** The rounding at 0.1, at the last rational below the halfway point
    above the largest double and at that point, at the halfway point
    below the smallest subnormal number and between that number and
    the next; and the base units of 70000000.00000002 and of
    0.000000015. *)
Example ofQ_tenth :
  Double.ofQ (1 # 10) = Double.Fin (3602879701896397 # 36028797018963968).
Proof. vm_compute. reflexivity. Qed.

Example ofQ_largest :
  Double.ofQ (inject_Z ((2 ^ 53 - 1) * 2 ^ 971 + 2 ^ 970 - 1))
  = Double.Fin (inject_Z ((2 ^ 53 - 1) * 2 ^ 971)).
Proof. vm_compute. reflexivity. Qed.

Example ofQ_overflow :
  Double.ofQ (inject_Z ((2 ^ 53 - 1) * 2 ^ 971 + 2 ^ 970)) = Double.Inf false
  /\ Double.ofQ (- inject_Z (2 ^ 1024)) = Double.Inf true.
Proof. vm_compute. split; reflexivity. Qed.

Example ofQ_subnormal :
  Double.ofQ (1 # 2 ^ 1075) = Double.Fin 0
  /\ Double.ofQ (3 # 2 ^ 1075) = Double.Fin (1 # 2 ^ 1073)
  /\ Double.ofQ (3 # 2 ^ 1076) = Double.Fin (1 # 2 ^ 1074).
Proof. vm_compute. repeat split; reflexivity. Qed.

Example toBaseUnit_vectors :
  toBaseUnit (BFin (7000000000000002 # 100000000)) = Num 7000000000000001
  /\ toBaseUnit (BFin (15 # 1000000000)) = Num 1
  /\ toBaseUnit (BFin (1 # 100)) = Num 1000000
  /\ toBaseUnit (BFin (inject_Z (10 ^ 301))) = Inf false
  /\ toBaseUnit BNaN = NaN.
Proof. vm_compute. repeat split; reflexivity. Qed.

Lemma pow2_pos (e : Z) : (0 < Double.pow2 e)%Q.
Proof. apply Qpower_0_lt. reflexivity. Qed.

Lemma pow2_plus (a b : Z) : (Double.pow2 (a + b) == Double.pow2 a * Double.pow2 b)%Q.
Proof. apply Qpower_plus. discriminate. Qed.

Lemma pow2_succ (a : Z) : (Double.pow2 (a + 1) == 2 * Double.pow2 a)%Q.
Proof. rewrite pow2_plus. unfold Double.pow2 at 2. rewrite Qpower_1_r. ring. Qed.

Lemma pow2_Z (n : Z) : 0 <= n -> (Double.pow2 n == inject_Z (2 ^ n))%Q.
Proof. intros H. symmetry. apply (Zpower_Qpower 2 n H). Qed.

Lemma ilog2_spec (x : Q) :
  (0 < x)%Q -> (Double.pow2 (Double.ilog2 x) <= x < Double.pow2 (Double.ilog2 x + 1))%Q.
Proof.
  intros Hx. destruct x as [p d].
  assert (Hp : 0 < p) by (unfold Qlt in Hx; simpl in Hx; lia).
  unfold Double.ilog2. cbn [Qnum Qden].
  set (a := Z.log2 p). set (b := Z.log2 (Z.pos d)).
  assert (Ha : 0 <= a) by apply Z.log2_nonneg.
  assert (Hb : 0 <= b) by apply Z.log2_nonneg.
  destruct (Z.log2_spec p Hp) as [Ha1 Ha2]. fold a in Ha1, Ha2.
  destruct (Z.log2_spec (Z.pos d) eq_refl) as [Hb1 Hb2]. fold b in Hb1, Hb2.
  assert (HA := pow2_pos a). assert (HB := pow2_pos b).
  assert (Hab : (Double.pow2 (a - b) * Double.pow2 b == Double.pow2 a)%Q).
  { rewrite <- pow2_plus. now replace (a - b + b) with a by lia. }
  assert (HP1 : (Double.pow2 a <= inject_Z p)%Q)
    by (rewrite pow2_Z by lia; now rewrite <- Zle_Qle).
  assert (HP2 : (inject_Z p < 2 * Double.pow2 a)%Q).
  { rewrite <- pow2_succ, pow2_Z by lia. rewrite <- Zlt_Qlt.
    now rewrite <- Z.add_1_r in Ha2. }
  assert (HD1 : (Double.pow2 b <= inject_Z (Z.pos d))%Q)
    by (rewrite pow2_Z by lia; now rewrite <- Zle_Qle).
  assert (HD2 : (inject_Z (Z.pos d) < 2 * Double.pow2 b)%Q).
  { rewrite <- pow2_succ, pow2_Z by lia. rewrite <- Zlt_Qlt.
    now rewrite <- Z.add_1_r in Hb2. }
  assert (HE := pow2_pos (a - b)).
  assert (Hx' : (p # d == inject_Z p / inject_Z (Z.pos d))%Q)
    by apply Qmake_Qdiv.
  assert (Hd : (0 < inject_Z (Z.pos d))%Q) by reflexivity.
  set (P := inject_Z p) in *. set (D := inject_Z (Z.pos d)) in *.
  set (A := Double.pow2 a) in *. set (B := Double.pow2 b) in *.
  set (E := Double.pow2 (a - b)) in *.
  assert (Hlow : (E * (1 # 2) <= P / D)%Q).
  { apply Qle_shift_div_l; [exact Hd|].
    assert (H : (E * (2 * B - D) >= 0)%Q) by (apply Qmult_le_0_compat; lra).
    lra. }
  assert (Hhigh : (P / D < 2 * E)%Q).
  { apply Qlt_shift_div_r; [exact Hd|].
    assert (H : (E * (D - B) >= 0)%Q) by (apply Qmult_le_0_compat; lra).
    lra. }
  destruct (Qle_bool E (p # d)) eqn:Ht.
  - apply Qle_bool_iff in Ht. split; [exact Ht|].
    rewrite pow2_succ. fold E. rewrite Hx'. exact Hhigh.
  - assert (Hlt : (p # d < E)%Q).
    { apply Qnot_le_lt. intros H. apply Qle_bool_iff in H. congruence. }
    replace (a - b - 1 + 1) with (a - b) by lia. fold E.
    split; [|exact Hlt].
    assert (Hhalf : (Double.pow2 (a - b - 1) == E * (1 # 2))%Q).
    { assert (H := pow2_succ (a - b - 1)).
      replace (a - b - 1 + 1) with (a - b) in H by lia. fold E in H.
      lra. }
    rewrite Hhalf, Hx'. exact Hlow.
Qed.

Lemma roundEven_error (x : Q) :
  (inject_Z (Double.roundEven x) - x <= 1 # 2)%Q
  /\ (x - inject_Z (Double.roundEven x) <= 1 # 2)%Q.
Proof.
  unfold Double.roundEven.
  assert (H1 := Qfloor_le x). assert (H2 := Qlt_floor x).
  assert (Hs : (inject_Z (Qfloor x + 1) == inject_Z (Qfloor x) + 1)%Q)
    by (rewrite inject_Z_plus; reflexivity).
  rewrite Hs in H2.
  destruct (x - inject_Z (Qfloor x) ?= 1 # 2)%Q eqn:Hc.
  - apply Qeq_alt in Hc.
    destruct (Z.even (Qfloor x)); [|rewrite Hs]; lra.
  - apply Qlt_alt in Hc. lra.
  - apply Qgt_alt in Hc. rewrite Hs. lra.
Qed.

(** Rounding a rational to a double moves it by at most half a unit in
    the last place: by [2^-53] of its size, or by [2^-1075] among the
    subnormal numbers. *)
Lemma ofQ_error (x : Q) :
  (Qabs x <= inject_Z (2 ^ 60))%Q ->
  exists y,
    Double.ofQ x = Double.Fin y
    /\ (Qabs (y - x) <= Qabs x * Double.pow2 (-53) + Double.pow2 (-1075))%Q.
Proof.
  intros Hbound. unfold Double.ofQ.
  assert (Heps := pow2_pos (-53)). assert (Htau := pow2_pos (-1075)).
  set (eps := Double.pow2 (-53)) in *. set (tau := Double.pow2 (-1075)) in *.
  destruct (Qeq_bool x 0) eqn:Hz.
  - apply Qeq_bool_iff in Hz. exists 0%Q. split; [reflexivity|].
    rewrite Hz.
    assert (H0 : (Qabs (0 - 0) == 0)%Q) by reflexivity.
    assert (H1 : (Qabs 0 == 0)%Q) by reflexivity.
    rewrite H0, H1. lra.
  - assert (Hnz : ~ (x == 0)%Q) by (intros H; apply Qeq_bool_iff in H; congruence).
    set (a := Qabs x) in *.
    assert (Ha : (0 < a)%Q).
    { unfold a. destruct (Qlt_le_dec 0 (Qabs x)) as [H|H]; [exact H|].
      exfalso. apply Hnz. apply Qabs_Qle_condition in H. lra. }
    set (e := Z.max (Double.ilog2 a) (-1022)).
    set (ulp := Double.pow2 (e - 52)).
    assert (Hulp : (0 < ulp)%Q) by apply pow2_pos.
    set (m := Double.roundEven (a / ulp)).
    destruct (roundEven_error (a / ulp)) as [Hm1 Hm2]. fold m in Hm1, Hm2.
    set (r := Qred (inject_Z m * ulp)).
    assert (Hr : (r == inject_Z m * ulp)%Q) by apply Qred_correct.
    assert (Haeps : (0 <= a * eps)%Q) by (apply Qmult_le_0_compat; lra).
    assert (Hhalf : (ulp * (1 # 2) <= a * eps + tau)%Q).
    { unfold ulp, e.
      destruct (Z.max_spec (Double.ilog2 a) (-1022)) as [[_ ->] | [_ ->]].
      - assert (H : (Double.pow2 (-1022 - 52) * (1 # 2) == tau)%Q)
          by (vm_compute; reflexivity).
        lra.
      - replace (Double.ilog2 a - 52) with (Double.ilog2 a + -52) by lia.
        rewrite pow2_plus.
        destruct (ilog2_spec a Ha) as [Hlog _].
        assert (H52 : (Double.pow2 (-52) * (1 # 2) == eps)%Q)
          by (vm_compute; reflexivity).
        assert (Hp := pow2_pos (Double.ilog2 a)).
        assert (H : (0 <= (a - Double.pow2 (Double.ilog2 a)) * eps)%Q)
          by (apply Qmult_le_0_compat; lra).
        rewrite <- Qmult_assoc, H52. lra. }
    assert (Hdiv : (a / ulp * ulp == a)%Q) by (field; lra).
    assert (Herr : (r - a <= ulp * (1 # 2) /\ a - r <= ulp * (1 # 2))%Q).
    { assert (H1 : (0 <= ((1 # 2) - (inject_Z m - a / ulp)) * ulp)%Q)
        by (apply Qmult_le_0_compat; lra).
      assert (H2 : (0 <= ((1 # 2) - (a / ulp - inject_Z m)) * ulp)%Q)
        by (apply Qmult_le_0_compat; lra).
      set (d := (a / ulp)%Q) in *. clearbody d. lra. }
    assert (Hover : Qle_bool (Double.pow2 1024) r = false).
    { destruct (Qle_bool (Double.pow2 1024) r) eqn:Ho; [|reflexivity].
      apply Qle_bool_iff in Ho.
      assert (H : (4 * inject_Z (2 ^ 60) <= Double.pow2 1024)%Q)
        by (apply Qle_bool_imp_le; vm_compute; reflexivity).
      assert (H60 : (1 <= inject_Z (2 ^ 60))%Q)
        by (apply Qle_bool_imp_le; vm_compute; reflexivity).
      assert (He : (eps <= 1)%Q)
        by (apply Qle_bool_imp_le; vm_compute; reflexivity).
      assert (Ht : (tau <= 1)%Q)
        by (apply Qle_bool_imp_le; vm_compute; reflexivity).
      assert (H1 : (0 <= a * (1 - eps))%Q) by (apply Qmult_le_0_compat; lra).
      fold a in Hbound. lra. }
    rewrite Hover.
    exists (if Qle_bool 0 x then r else (- r)%Q). split; [reflexivity|].
    apply Qabs_Qle_condition.
    destruct (Qle_bool 0 x) eqn:Hs.
    + apply Qle_bool_iff in Hs.
      assert (Hax : (a == x)%Q) by (unfold a; now apply Qabs_pos).
      lra.
    + assert (Hneg : (x <= 0)%Q).
      { apply Qlt_le_weak, Qnot_le_lt. intros H. apply Qle_bool_iff in H. congruence. }
      assert (Hax : (a == - x)%Q) by (unfold a; now apply Qabs_neg).
      lra.
Qed.

Lemma Qfloor_unique (x : Q) (n : Z) :
  (inject_Z n <= x)%Q -> (x < inject_Z n + 1)%Q -> Qfloor x = n.
Proof.
  intros H1 H2.
  assert (H3 := Qfloor_le x). assert (H4 := Qlt_floor x).
  assert (Hs : forall z, (inject_Z (z + 1) == inject_Z z + 1)%Q)
    by (intros z; rewrite inject_Z_plus; reflexivity).
  rewrite Hs in H4.
  assert (Ha : (inject_Z (Qfloor x) < inject_Z (n + 1))%Q)
    by (rewrite Hs; lra).
  assert (Hb : (inject_Z n < inject_Z (Qfloor x + 1))%Q)
    by (rewrite Hs; lra).
  rewrite <- Zlt_Qlt in Ha, Hb. lia.
Qed.

(** An amount whose base-unit value is an integer of at most 50 bits
    comes out exactly. *)
Lemma toBaseUnit_scaled (q : Q) (n : Z) :
  (q * inject_Z (10 ^ 8) == inject_Z n)%Q ->
  Z.abs n <= 2 ^ 50 ->
  toBaseUnit (BFin q) = Num n.
Proof.
  intros Hq Hn. unfold toBaseUnit, BN.toNumber.
  assert (HN : (- inject_Z (2 ^ 50) <= inject_Z n <= inject_Z (2 ^ 50))%Q).
  { rewrite <- inject_Z_opp, <- !Zle_Qle. lia. }
  assert (H8 : (inject_Z (10 ^ 8) == 100000000)%Q) by reflexivity.
  assert (H50 : (inject_Z (2 ^ 50) == 1125899906842624)%Q) by reflexivity.
  assert (H60 : (inject_Z (2 ^ 60) == 1152921504606846976)%Q) by reflexivity.
  assert (He : (Double.pow2 (-53) == 1 # 9007199254740992)%Q) by reflexivity.
  assert (Ht : (Double.pow2 (-1075) <= 1 # 1152921504606846976)%Q)
    by (apply Qle_bool_imp_le; vm_compute; reflexivity).
  assert (Ht0 := pow2_pos (-1075)).
  set (N := inject_Z n) in *. set (tau := Double.pow2 (-1075)) in *.
  assert (Hsplit : forall x, (Qabs x == x /\ 0 <= x \/ Qabs x == - x /\ x <= 0)%Q).
  { intros x. destruct (Qlt_le_dec x 0) as [H|H].
    - right. split; [apply Qabs_neg|]; lra.
    - left. split; [apply Qabs_pos|]; lra. }
  rewrite H8 in Hq.
  destruct (ofQ_error q) as (y1 & H1 & E1).
  { apply Qabs_Qle_condition. lra. }
  rewrite H1. unfold Double.mul.
  fold tau in E1. rewrite He in E1. apply Qabs_Qle_condition in E1.
  destruct (ofQ_error (y1 * inject_Z (10 ^ 8))) as (y2 & H2 & E2).
  { apply Qabs_Qle_condition.
    rewrite H8.
    destruct (Hsplit q) as [[Hq1 Hq2] | [Hq1 Hq2]]; rewrite Hq1 in E1; lra. }
  rewrite H2. f_equal. unfold Math_round.
  fold tau in E2. rewrite He in E2. apply Qabs_Qle_condition in E2.
  apply Qfloor_unique; fold N;
    destruct (Hsplit q) as [[Hq1 Hq2] | [Hq1 Hq2]]; rewrite Hq1 in E1;
    destruct (Hsplit (y1 * inject_Z (10 ^ 8))%Q) as [[Hy1 Hy2] | [Hy1 Hy2]];
    rewrite Hy1 in E2; rewrite H8 in E2, Hy2; lra.
Qed.

(** ** C2: the signed order *)

(** Hashing returns when the five addresses are hexadecimal strings. *)
Lemma hashOrder_returns (web3_packed : list string -> option (list byte))
    (o : BlockchainOrder.t) :
  isHexString (BlockchainOrder.senderAddress o) ->
  isHexString (BlockchainOrder.matcherAddress o) ->
  isHexString (BlockchainOrder.baseAsset o) ->
  isHexString (BlockchainOrder.quoteAsset o) ->
  isHexString (BlockchainOrder.matcherFeeAsset o) ->
  exists h, hashOrder web3_packed o = Some h.
Proof.
  intros [b1 H1] [b2 H2] [b3 H3] [b4 H4] [b5 H5].
  unfold hashOrder, soliditySha3, hashArgs. cbn [packArgs].
  rewrite H1, H2, H3, H4, H5, !hexToBytes_longToHex.
  destruct (truthy (BlockchainOrder.buySide o)); eexists; reflexivity.
Qed.

Section SignTrade.

Variable symbolToAddresses : string -> string * string.
Variable nameToAddress : string -> string.
Variable web3_packed : list string -> option (list byte).
Variable signTypedMessage : string -> Z -> BlockchainOrder.t -> result string.
Variable self : OrionBlockchain.t.

Local Abbreviation sign :=
  (OrionBlockchain.signTrade symbolToAddresses nameToAddress
     web3_packed signTypedMessage self).
Local Abbreviation create :=
  (OrionBlockchain.createBlockchainOrder symbolToAddresses nameToAddress self).

(** C2, as amended. Let [order] be what [createBlockchainOrder] builds.
    [signTrade] returns when web3 hashes [order] and eth-sig-util signs
    it with that hash as [id], and throws when either throws. The order
    it returns has [buySide = 0] for a buy-side sub-order and
    [buySide = 1] for a sell-side one (the counter side), [amount] and
    [price] equal to [Math.round(x.toNumber() * 1e8)] of the trade's
    amount and price [x], computed on doubles (which is [x * 1e8]
    exactly when that is an integer of at most 50 bits),
    [matcherFee = 0] and
    [expiration = subOrder.timestamp + 29*24*60*60*1000]. *)
Theorem signTrade_fields (subOrder : DbSubOrder.t) (trade : Trade.t) :
  let order := create subOrder trade in
  let signed h :=
    signTypedMessage (OrionBlockchain.bufferKey self)
      (OrionBlockchain.chainId self) (BlockchainOrder.set_id order h) in
  (forall h signature,
      hashOrder web3_packed order = Some h ->
      signed h = Ok signature ->
      exists bo, sign subOrder trade = Ok bo)
  /\ (hashOrder web3_packed order = None ->
      exists msg, sign subOrder trade = Throw msg)
  /\ (forall h msg,
        hashOrder web3_packed order = Some h ->
        signed h = Throw msg ->
        sign subOrder trade = Throw msg)
  /\ (forall bo,
        sign subOrder trade = Ok bo ->
        BlockchainOrder.buySide bo
        = match DbSubOrder.side subOrder with
          | buy => Num 0
          | sell => Num 1
          end
        /\ BlockchainOrder.amount bo = toBaseUnit (Trade.amount trade)
        /\ BlockchainOrder.price bo = toBaseUnit (Trade.price trade)
        /\ (forall q n,
              Trade.amount trade = BFin q ->
              (q * inject_Z (10 ^ 8) == inject_Z n)%Q ->
              Z.abs n <= 2 ^ 50 ->
              BlockchainOrder.amount bo = Num n)
        /\ (forall q n,
              Trade.price trade = BFin q ->
              (q * inject_Z (10 ^ 8) == inject_Z n)%Q ->
              Z.abs n <= 2 ^ 50 ->
              BlockchainOrder.price bo = Num n)
        /\ BlockchainOrder.matcherFee bo = Num 0
        /\ BlockchainOrder.expiration bo
           = Num (DbSubOrder.timestamp subOrder + 29 * 24 * 60 * 60 * 1000)).
Proof.
  intros order signed. unfold signed, order. clear signed order.
  unfold OrionBlockchain.signTrade, OrionBlockchain.signOrder.
  destruct (hashOrder web3_packed (create subOrder trade)) as [h|] eqn:Hh.
  - split; [|split; [discriminate|split]].
    + intros h' signature Hh' Hsigned. injection Hh' as <-.
      rewrite Hsigned. eexists. reflexivity.
    + intros h' msg Hh' Hsigned. injection Hh' as <-. now rewrite Hsigned.
    + intros bo.
      destruct (signTypedMessage _ _ _) as [signature|msg]; [|discriminate].
      intros Hbo. injection Hbo as <-. cbn.
      split; [now destruct (DbSubOrder.side subOrder)|].
      split; [reflexivity|]. split; [reflexivity|].
      split; [|split; [|split; reflexivity]].
      * intros q n -> Hq Hn. now apply toBaseUnit_scaled.
      * intros q n -> Hq Hn. now apply toBaseUnit_scaled.
  - split; [discriminate|]. split; [intros _; eexists; reflexivity|].
    split; discriminate.
Qed.

Variable orionBlockchain : OrionBlockchain.t.

Local Abbreviation signAt :=
  (signTrade orionBlockchain symbolToAddresses nameToAddress web3_packed
     signTypedMessage).

(** Of the sub-order [signTrade] reads the symbol, the side and the
    timestamp, of the trade the amount and the price, and of the world
    nothing: no clock is consulted, the nonce and the expiration come
    from the timestamp of the sub-order. *)
Lemma signTrade_reads (s1 s2 : DbSubOrder.t) (t1 t2 : Trade.t) (w1 w2 : World.t) :
  DbSubOrder.symbol s1 = DbSubOrder.symbol s2 ->
  DbSubOrder.side s1 = DbSubOrder.side s2 ->
  DbSubOrder.timestamp s1 = DbSubOrder.timestamp s2 ->
  Trade.amount t1 = Trade.amount t2 ->
  Trade.price t1 = Trade.price t2 ->
  fst (signAt s1 t1 w1) = fst (signAt s2 t2 w2).
Proof.
  intros E1 E2 E3 E4 E5.
  unfold signTrade, lift, OrionBlockchain.signTrade,
    OrionBlockchain.createBlockchainOrder. cbn [fst].
  now rewrite E1, E2, E3, E4, E5.
Qed.

End SignTrade.

(** The theorem at scenario S1: the order for the filled buy. *)
Lemma signTrade_fields_witness :
  exists bo,
    OrionBlockchain.signTrade Scenario.symbolToAddresses Scenario.nameToAddress
      Scenario.web3_packed Scenario.signTypedMessage Scenario.orionBlockchain
      Scenario.subOrder1 Scenario.trade1 = Ok bo
    /\ BlockchainOrder.buySide bo = Num 0
    /\ BlockchainOrder.amount bo = Num 1000000
    /\ BlockchainOrder.price bo = Num 1000000000000
    /\ BlockchainOrder.matcherFee bo = Num 0
    /\ BlockchainOrder.expiration bo = Num (1600000000000 + 29 * 86400000).
Proof.
  destruct (signTrade_fields Scenario.symbolToAddresses Scenario.nameToAddress
              Scenario.web3_packed Scenario.signTypedMessage
              Scenario.orionBlockchain Scenario.subOrder1 Scenario.trade1)
    as (Hreturns & _ & _ & Hfields).
  destruct (Hreturns
              "0xc16c8375614024318bc2c5c1cd86e91e8f37811384a8f503a74b237000ba74cc"%string
              "key0xc16c8375614024318bc2c5c1cd86e91e8f37811384a8f503a74b237000ba74cc"%string)
    as [bo Hbo]; [vm_compute; reflexivity | vm_compute; reflexivity |].
  exists bo. split; [exact Hbo|].
  destruct (Hfields bo Hbo)
    as (Hside & _ & _ & Hamount & Hprice & Hfee & Hexp).
  split; [exact Hside|].
  split; [apply (Hamount (1 # 100)%Q); [reflexivity | reflexivity | vm_compute; discriminate]|].
  split; [apply (Hprice (inject_Z 10000)); [reflexivity | reflexivity | vm_compute; discriminate]|].
  split; [exact Hfee | exact Hexp].
Defined.

(** C2 as stated fails. For the buy-side sub-order of scenario S1 and its
    FILLED trade [signTrade] returns an order with [buySide = 0], and for
    its sell-side twin one with [buySide = 1]. For a FILLED trade of
    70000000.00000002 the amount of the order is 7000000000000001, one
    less than the amount times 1e8: the double nearest to the amount is
    70000000.000000014901. For a FILLED trade of 100000000, whose
    base-unit value is not below [2^53], signing throws and no order is
    returned. *)
Lemma signTrade_buy_has_buySide_0 :
  DbSubOrder.side Scenario.subOrder1 = buy
  /\ Trade.status Scenario.trade1 = FILLED
  /\ (exists bo,
        OrionBlockchain.signTrade Scenario.symbolToAddresses
          Scenario.nameToAddress Scenario.web3_packed Scenario.signTypedMessage
          Scenario.orionBlockchain Scenario.subOrder1 Scenario.trade1 = Ok bo
        /\ BlockchainOrder.buySide bo = Num 0
        /\ BlockchainOrder.buySide bo <> Num 1)
  /\ (exists bo,
        OrionBlockchain.signTrade Scenario.symbolToAddresses
          Scenario.nameToAddress Scenario.web3_packed Scenario.signTypedMessage
          Scenario.orionBlockchain Scenario.subOrder1Sell Scenario.trade1 = Ok bo
        /\ BlockchainOrder.buySide bo = Num 1
        /\ BlockchainOrder.buySide bo <> Num 0)
  /\ (Trade.status Scenario.tradeUneven = FILLED
      /\ Trade.amount Scenario.tradeUneven = BFin (7000000000000002 # 100000000)
      /\ exists bo,
           OrionBlockchain.signTrade Scenario.symbolToAddresses
             Scenario.nameToAddress Scenario.web3_packed
             Scenario.signTypedMessage Scenario.orionBlockchain
             Scenario.subOrder1 Scenario.tradeUneven = Ok bo
           /\ BlockchainOrder.amount bo = Num 7000000000000001)
  /\ (Trade.status Scenario.tradeHuge = FILLED
      /\ Trade.amount Scenario.tradeHuge = BN.ofZ 100000000
      /\ exists msg,
           OrionBlockchain.signTrade Scenario.symbolToAddresses
             Scenario.nameToAddress Scenario.web3_packed
             Scenario.signTypedMessage Scenario.orionBlockchain
             Scenario.subOrder1 Scenario.tradeHuge = Throw msg).
Proof.
  split; [reflexivity|]. split; [reflexivity|]. split; [|split; [|split]].
  - eexists. split; [vm_compute; reflexivity|]. split; [reflexivity|discriminate].
  - eexists. split; [vm_compute; reflexivity|]. split; [reflexivity|discriminate].
  - split; [reflexivity|]. split; [reflexivity|].
    eexists. split; [vm_compute; reflexivity|]. reflexivity.
  - split; [reflexivity|]. split; [reflexivity|].
    eexists. vm_compute. reflexivity.
Qed.

(** ** C6: which venue a withdrawal is taken from *)

Lemma maximum_is_max (x y : Q) :
  exists z,
    BN.maximum (BFin x) (BFin y) = BFin z
    /\ (x <= z)%Q /\ (y <= z)%Q /\ (z = x \/ z = y).
Proof.
  unfold BN.maximum, BN.lt.
  destruct (Qle_bool y x) eqn:E; simpl.
  - exists x. apply Qle_bool_iff in E. repeat split; auto. apply Qle_refl.
  - exists y. repeat split; auto; [|apply Qle_refl].
    destruct (Qlt_le_dec x y) as [H|H]; [now apply Qlt_le_weak|].
    apply Qle_bool_iff in H. congruence.
Qed.

Section VenueSelectionProofs.

Variable connector_getConnector : string -> result Connector.t.

Local Abbreviation venue := (venueForWithdraw connector_getConnector).
Local Abbreviation scan := (forExchanges connector_getConnector).
Local Abbreviation fits := (qualifies connector_getConnector).

Lemma venueForWithdraw_qualifies
    (lastBalances : Dictionary (Dictionary BigNumber))
    (remaining : BigNumber) (assetName exchange : string)
    (amountWithFee : BigNumber) :
  venue lastBalances remaining assetName exchange = Some amountWithFee
  <-> fits lastBalances remaining assetName exchange amountWithFee.
Proof.
  unfold venueForWithdraw, qualifies. split.
  - destruct (connector_getConnector exchange) as [connector|]; [|discriminate].
    destruct (Connector.hasWithdraw connector) eqn:Hhas; [|discriminate].
    cbn [negb].
    destruct (Connector.getWithdrawLimit connector assetName)
      as [[limit|]|] eqn:Hlimit; try discriminate.
    destruct (BN.isNaN (ExchangeWithdrawLimit.fee limit)) eqn:Hfee;
      [discriminate|].
    destruct (BN.isNaN (ExchangeWithdrawLimit.min limit)) eqn:Hmin;
      [discriminate|].
    cbn [orb].
    destruct (get2 lastBalances exchange assetName) as [balance|] eqn:Hbal;
      [|discriminate].
    match goal with
    | |- context [BN.gt balance ?a] => destruct (BN.gt balance a) eqn:Hgt
    end; [|discriminate].
    intros [= <-].
    exists connector, limit, balance. repeat split; try assumption.
    unfold BN.maximum.
    destruct (ExchangeWithdrawLimit.min limit); [discriminate|reflexivity].
  - intros (connector & limit & balance
            & Hc & Hhas & Hlimit & Hfee & Hmin & -> & Hbal & Hgt).
    rewrite Hc, Hhas. cbn [negb]. rewrite Hlimit, Hfee, Hmin. cbn [orb].
    rewrite Hbal.
    unfold BN.maximum in Hgt |- *.
    destruct (ExchangeWithdrawLimit.min limit) eqn:Em; [discriminate|].
    now rewrite Hgt.
Qed.

Lemma venueForWithdraw_none
    (lastBalances : Dictionary (Dictionary BigNumber))
    (remaining : BigNumber) (assetName exchange : string) :
  venue lastBalances remaining assetName exchange = None
  <-> forall a, ~ fits lastBalances remaining assetName exchange a.
Proof.
  split.
  - intros Hnone a Hq. apply venueForWithdraw_qualifies in Hq. congruence.
  - intros Hno.
    destruct (venue lastBalances remaining assetName exchange) as [a|] eqn:E;
      [|reflexivity].
    apply venueForWithdraw_qualifies in E. now apply Hno in E.
Qed.

Lemma forExchanges_some
    (lastBalances : Dictionary (Dictionary BigNumber))
    (remaining : BigNumber) (assetName : string) (exchanges : list string)
    (exchange : string) (amountWithFee : BigNumber) :
  scan lastBalances remaining assetName exchanges = Some (exchange, amountWithFee)
  <-> exists before after,
        exchanges = before ++ exchange :: after
        /\ (forall e a, In e before -> ~ fits lastBalances remaining assetName e a)
        /\ fits lastBalances remaining assetName exchange amountWithFee.
Proof.
  induction exchanges as [|e rest IH]; cbn [forExchanges].
  - split; [discriminate|].
    intros (before & after & H & _). now destruct before.
  - destruct (venue lastBalances remaining assetName e) as [a|] eqn:E.
    + split.
      * intros [= <- <-]. exists [], rest. split; [reflexivity|].
        split; [intros ? ? []|]. now apply venueForWithdraw_qualifies.
      * intros ([|e' before] & after & H & Hbefore & Hq).
        -- injection H as <- _.
           apply venueForWithdraw_qualifies in Hq. congruence.
        -- injection H as <- _.
           apply venueForWithdraw_qualifies in E.
           exfalso. apply (Hbefore e a); [now left | exact E].
    + rewrite IH. split.
      * intros (before & after & -> & Hbefore & Hq).
        exists (e :: before), after. split; [reflexivity|]. split; [|exact Hq].
        intros e' a' [<- | Hin].
        -- now apply venueForWithdraw_none.
        -- now apply Hbefore.
      * intros ([|e' before] & after & H & Hbefore & Hq).
        -- injection H as <- _.
           apply venueForWithdraw_qualifies in Hq. congruence.
        -- injection H as <- ->. exists before, after.
           split; [reflexivity|]. split; [|exact Hq].
           intros e' a' Hin. apply Hbefore. now right.
Qed.

Lemma forExchanges_none
    (lastBalances : Dictionary (Dictionary BigNumber))
    (remaining : BigNumber) (assetName : string) (exchanges : list string) :
  scan lastBalances remaining assetName exchanges = None
  <-> forall e a, In e exchanges -> ~ fits lastBalances remaining assetName e a.
Proof.
  induction exchanges as [|e rest IH]; cbn [forExchanges].
  - split; [intros _ ? ? []|reflexivity].
  - destruct (venue lastBalances remaining assetName e) as [a|] eqn:E.
    + split; [discriminate|]. intros H. exfalso.
      apply (H e a); [now left|]. now apply venueForWithdraw_qualifies.
    + rewrite IH. split.
      * intros H e' a' [<- | Hin]; [now apply venueForWithdraw_none | now apply H].
      * intros H e' a' Hin. apply H. now right.
Qed.

(** C6. [getExchangeForWithdraw(remaining, asset)] changes nothing and
    returns the first venue, in the enumeration order of the balance
    snapshot, that supports withdrawal, has a valid withdraw limit and
    whose last known balance for the asset strictly exceeds
    [amountWithFee = max(remaining + fee, min)], together with that
    [amountWithFee]; it returns none exactly when no venue of the
    snapshot qualifies. *)
Theorem getExchangeForWithdraw_first_qualifying
    (remaining : BigNumber) (assetName : string) (w : World.t) :
  let found := getExchangeForWithdraw connector_getConnector remaining assetName w in
  snd found = w
  /\ (forall exchange amountWithFee,
       fst found = Ok (Some (exchange, amountWithFee))
       <-> exists before after,
             Dict.keys (World.lastBalances w) = before ++ exchange :: after
             /\ (forall e a,
                   In e before ->
                   ~ fits (World.lastBalances w) remaining assetName e a)
             /\ fits (World.lastBalances w) remaining assetName exchange
                  amountWithFee)
  /\ (fst found = Ok None
      <-> forall e a,
            In e (Dict.keys (World.lastBalances w)) ->
            ~ fits (World.lastBalances w) remaining assetName e a).
Proof.
  unfold getExchangeForWithdraw, reads. cbn [fst snd].
  split; [reflexivity|]. split.
  - intros exchange amountWithFee. rewrite <- forExchanges_some.
    split; [now intros [= ->] | now intros ->].
  - rewrite <- forExchanges_none.
    split; [now intros [= ->] | now intros ->].
Qed.

End VenueSelectionProofs.

(** The theorem at scenario S6: remaining 100, venue X with 200 USDT and
    [{min: 10, fee: 1}] gives X with 101. *)
Lemma getExchangeForWithdraw_first_qualifying_witness :
  Dict.keys (World.lastBalances Scenario.worldS6) = [] ++ "X"%string :: []
  /\ fst (Scenario.getExchangeForWithdraw (BN.ofZ 100) "USDT" Scenario.worldS6)
     = Ok (Some ("X"%string, BN.ofZ 101)).
Proof.
  split; [reflexivity|].
  apply (getExchangeForWithdraw_first_qualifying Scenario.connector_getConnector
           (BN.ofZ 100) "USDT" Scenario.worldS6).
  exists [], []. split; [reflexivity|]. split; [intros ? ? []|].
  exists Scenario.connectorX,
    {| ExchangeWithdrawLimit.min := BN.ofZ 10; ExchangeWithdrawLimit.fee := BN.ofZ 1 |},
    (BN.ofZ 200).
  repeat split; vm_compute; reflexivity.
Defined.

(** ** C7: a liability tick *)

Lemma liabilityFrame_refl (w : World.t) : liabilityFrame w w.
Proof. unfold liabilityFrame. repeat (split; [reflexivity|]). left. now split. Qed.

(** A step that leaves store and snapshot alone does not count. *)
Lemma liabilityFrame_quiet (w w1 w2 : World.t) :
  World.db w1 = World.db w ->
  World.lastBalances w1 = World.lastBalances w ->
  liabilityFrame w1 w2 ->
  liabilityFrame w w2.
Proof. unfold liabilityFrame. intros <- <-. exact (fun H => H). Qed.

Section Liability.

Variable duePeriodSeconds : Z.
Variable orionBlockchain : OrionBlockchain.t.
Variable connector_getConnector : string -> result Connector.t.
Variable connector_hasWithdraw : string -> result bool.
Variable connector_withdraw :
  string -> string -> BigNumber -> string -> result (option string).
Variable gateway_getWalletBalance : nat -> result (Dictionary BigNumber).
Variable gateway_getAllowance : nat -> string -> result BigNumber.
Variable gateway_depositETH : nat -> BigNumber -> result string.
Variable gateway_depositERC20 : nat -> BigNumber -> string -> result string.

Local Abbreviation depositOf :=
  (deposit gateway_getWalletBalance gateway_getAllowance gateway_depositETH
     gateway_depositERC20).
Local Abbreviation withdrawOf :=
  (exchangeWithdraw orionBlockchain connector_hasWithdraw connector_withdraw).
Local Abbreviation manage :=
  (manageLiability duePeriodSeconds orionBlockchain connector_getConnector
     connector_hasWithdraw connector_withdraw gateway_getWalletBalance
     gateway_getAllowance gateway_depositETH gateway_depositERC20).

Ltac cases :=
  repeat match goal with
         | |- context [match ?x with _ => _ end] =>
             lazymatch x with
             | context [match _ with _ => _ end] => fail
             | _ => destruct x eqn:?; cbn
             end
         end.

Ltac framed :=
  unfold liabilityFrame; cbn;
  first
    [ repeat (split; [reflexivity|]); left; split; reflexivity
    | repeat (split; [reflexivity|]); right; left;
      split; [eexists; split; reflexivity | reflexivity]
    | repeat (split; [reflexivity|]); right; right;
      split; [reflexivity | eexists; split; reflexivity] ].

Lemma deposit_frame (amount : BigNumber) (assetName : string) (w : World.t) :
  liabilityFrame w (snd (depositOf amount assetName w)).
Proof.
  unfold deposit, getWalletBalance, getAllowance, depositETH, depositERC20,
    request, bind, reads, ret, throw, emit, writeDb, modify.
  cbn. cases; framed.
Qed.

Lemma exchangeWithdraw_frame (exchange : string) (amount : BigNumber)
    (assetName : string) (w : World.t) :
  liabilityFrame w (snd (withdrawOf exchange amount assetName w)).
Proof.
  unfold exchangeWithdraw, bind, lift, ret, emit, writeDb, modify.
  cbn. cases; framed.
Qed.

Lemma pending_transaction_found (db : Db.t) (tx : Transaction.t) :
  In tx (Db.transactions db) ->
  Transaction.status tx = Transaction.PENDING ->
  (0 <? List.length (Db.getPendingTransactions db))%nat = true.
Proof.
  intros Hin Hstatus. unfold Db.getPendingTransactions.
  assert (H : In tx (filter (fun tx => match Transaction.status tx with
                                       | Transaction.PENDING => true
                                       | _ => false
                                       end) (Db.transactions db))).
  { apply filter_In. split; [exact Hin | now rewrite Hstatus]. }
  destruct (filter _ (Db.transactions db)); [contradiction | reflexivity].
Qed.

Lemma pending_withdraw_found (db : Db.t) (wd : Withdraw.t) :
  In wd (Db.withdraws db) ->
  Withdraw.status wd = Withdraw.pending ->
  (0 <? List.length (Db.getWithdrawsToCheck db))%nat = true.
Proof.
  intros Hin Hstatus. unfold Db.getWithdrawsToCheck.
  assert (H : In wd (filter (fun w => match Withdraw.status w with
                                      | Withdraw.pending => true
                                      | _ => false
                                      end) (Db.withdraws db))).
  { apply filter_In. split; [exact Hin | now rewrite Hstatus]. }
  destruct (filter _ (Db.withdraws db)); [contradiction | reflexivity].
Qed.

(** C7. [manageLiability] leaves the world as it found it, with no
    outgoing call and nothing stored, when some persisted transaction is
    PENDING, when some persisted withdrawal is pending, when the
    outstanding amount is at most 0, or when [now - timestamp] is at
    most [duePeriodSeconds]. In every case the sub-orders, the trades
    and the balance snapshot are left unchanged, and the store gains
    nothing, or one PENDING transaction (a deposit), or one pending
    withdrawal. *)
Theorem manageLiability_guard_and_frame (liability : Liability.t) (w : World.t) :
  ((exists tx,
       In tx (Db.transactions (World.db w))
       /\ Transaction.status tx = Transaction.PENDING)
   \/ (exists wd,
         In wd (Db.withdraws (World.db w))
         /\ Withdraw.status wd = Withdraw.pending)
   \/ (exists q,
         Liability.outstandingAmount liability = BFin q /\ (q <= 0)%Q)
   \/ (inject_Z (World.now w) / inject_Z 1000
        - inject_Z (Liability.timestamp liability)
        <= inject_Z duePeriodSeconds)%Q ->
   snd (manage liability w) = w)
  /\ liabilityFrame w (snd (manage liability w)).
Proof.
  split.
  - intros Hguard.
    unfold manageLiability, bind, reads, ret. cbn -[BN.gt Qlt_bool Nat.ltb].
    destruct (BN.gt (Liability.outstandingAmount liability) (BN.ofZ 0)) eqn:Hgt;
      [|reflexivity].
    destruct (Qlt_bool (inject_Z duePeriodSeconds) _) eqn:Hdue; [|reflexivity].
    cbn -[Nat.ltb].
    destruct (0 <? List.length (Db.getPendingTransactions (World.db w)))%nat
      eqn:Htx; [reflexivity|].
    destruct (0 <? List.length (Db.getWithdrawsToCheck (World.db w)))%nat
      eqn:Hwd; [reflexivity|].
    exfalso.
    destruct Hguard as [(tx & Hin & Hst) | [(wd & Hin & Hst) | [(q & Hq & Hle) | Hle]]].
    + rewrite (pending_transaction_found _ tx Hin Hst) in Htx. discriminate.
    + rewrite (pending_withdraw_found _ wd Hin Hst) in Hwd. discriminate.
    + rewrite Hq in Hgt. unfold BN.gt, BN.lt, BN.ofZ in Hgt.
      apply negb_true_iff in Hgt.
      apply Qle_bool_iff in Hle. change (inject_Z 0) with 0%Q in Hgt. congruence.
    + unfold Qlt_bool in Hdue. apply negb_true_iff in Hdue.
      apply Qle_bool_iff in Hle. congruence.
  - pose proof (deposit_frame) as Hdep.
    pose proof (exchangeWithdraw_frame) as Hwd.
    unfold manageLiability.
    set (dep := deposit gateway_getWalletBalance gateway_getAllowance
                  gateway_depositETH gateway_depositERC20) in *.
    set (wd := exchangeWithdraw orionBlockchain connector_hasWithdraw
                 connector_withdraw) in *.
    clearbody dep wd.
    unfold getExchangeForWithdraw, getWalletBalance, request, bind, reads,
      ret, throw.
    cbn -[BN.gt Qlt_bool BN.gte BN.minus fromWei8].
    cases;
      first
        [ apply liabilityFrame_refl
        | eapply liabilityFrame_quiet; [| | apply liabilityFrame_refl]; reflexivity
        | eapply liabilityFrame_quiet; [| | apply Hdep]; reflexivity
        | eapply liabilityFrame_quiet; [| | apply Hwd]; reflexivity ].
Qed.

End Liability.

(** The theorem at the liability of S6 with a transaction in flight. *)
Lemma manageLiability_guard_and_frame_witness :
  (exists tx,
      In tx (Db.transactions (World.db Scenario.worldPending))
      /\ Transaction.status tx = Transaction.PENDING)
  /\ snd (Scenario.manageLiability 0 Scenario.liability1 Scenario.worldPending)
     = Scenario.worldPending.
Proof.
  assert (H : exists tx,
             In tx (Db.transactions (World.db Scenario.worldPending))
             /\ Transaction.status tx = Transaction.PENDING).
  { exists Scenario.pendingTransaction. split; [now left | reflexivity]. }
  split; [exact H|].
  apply (manageLiability_guard_and_frame Scenario.duePeriodSeconds
           Scenario.orionBlockchain Scenario.connector_getConnector
           Scenario.connector_hasWithdraw Scenario.connector_withdraw
           (Scenario.gateway_getWalletBalance 0) Scenario.gateway_getAllowance
           Scenario.gateway_depositETH Scenario.gateway_depositERC20
           Scenario.liability1 Scenario.worldPending).
  left. exact H.
Defined.

(** ** C10: the balance snapshot *)

Section DictProofs.

Context {V : Type}.

Lemma get_set (o : Dictionary V) (k k' : string) (v : V) :
  Dict.get (Dict.set o k v) k'
  = if String.eqb k k' then Some v else Dict.get o k'.
Proof.
  induction o as [|[k0 v0] o IH]; cbn [Dict.set Dict.get].
  - destruct (String.eqb k k'); reflexivity.
  - destruct (String.eqb k0 k) eqn:E0; cbn [Dict.get].
    + apply String.eqb_eq in E0. subst k0.
      destruct (String.eqb k k'); reflexivity.
    + rewrite IH. destruct (String.eqb k0 k') eqn:E1; [|reflexivity].
      apply String.eqb_eq in E1. subst k0. now rewrite String.eqb_sym, E0.
Qed.

Lemma get_keys (o : Dictionary V) (k : string) :
  In k (Dict.keys o) <-> Dict.get o k <> None.
Proof.
  unfold Dict.keys. induction o as [|[k0 v0] o IH]; cbn [map Dict.get fst In].
  - tauto.
  - destruct (String.eqb k0 k) eqn:E.
    + apply String.eqb_eq in E. split; [discriminate | now left].
    + apply String.eqb_neq in E. rewrite <- IH. tauto.
Qed.

End DictProofs.

Lemma get_set2 {V} (o : Dictionary (Dictionary V)) (k1 k2 k : string) (v : V)
    (inner : Dictionary V) :
  Dict.get o k1 = Some inner ->
  Dict.get (set2 o k1 k2 v) k
  = if String.eqb k1 k then Some (Dict.set inner k2 v) else Dict.get o k.
Proof. intros H. unfold set2. rewrite H. apply get_set. Qed.

Section Snapshot.

Variable BigNumber_toString : BigNumber -> string.
Variable JSON_stringify : Dictionary (Dictionary string) -> string.
Variable brokerHub_sendBalances :
  nat -> Dictionary (Dictionary string) -> result unit.

Local Abbreviation copyC := (copyCurrency BigNumber_toString).
Local Abbreviation copyE := (copyExchange BigNumber_toString).

(** The inner loop over currencies [cs] touches [exchange] only, and
    there it sets every currency of [cs] that the result has. *)
Lemma copyCurrency_fold (exchange : string) (result : Dictionary BigNumber)
    (cs : list string) :
  forall acc inner0,
    Dict.get (snd acc) exchange = Some inner0 ->
    exists inner,
      Dict.get (snd (fold_left (copyC exchange result) cs acc)) exchange
      = Some inner
      /\ (forall c,
            Dict.get inner c
            = if in_dec string_dec c cs
              then match Dict.get result c with
                   | Some v => Some v
                   | None => Dict.get inner0 c
                   end
              else Dict.get inner0 c)
      /\ (forall e,
            e <> exchange ->
            Dict.get (snd (fold_left (copyC exchange result) cs acc)) e
            = Dict.get (snd acc) e).
Proof.
  induction cs as [|c0 cs IH]; intros acc inner0 H0; cbn [fold_left].
  - exists inner0. split; [exact H0|]. split; [|reflexivity].
    intros c. now destruct (in_dec string_dec c []).
  - unfold copyCurrency at 2 4.
    destruct (Dict.get result c0) as [v|] eqn:Ev.
    + assert (H1 : Dict.get (set2 (snd acc) exchange c0 v) exchange
                   = Some (Dict.set inner0 c0 v)).
      { rewrite (get_set2 _ _ _ _ _ _ H0). now rewrite String.eqb_refl. }
      destruct (IH (set2 (fst acc) exchange c0 (BigNumber_toString v),
                    set2 (snd acc) exchange c0 v) _ H1)
        as (inner & Hinner & Hget & Hother).
      exists inner. split; [exact Hinner|]. split.
      * intros c. rewrite Hget, get_set.
        destruct (in_dec string_dec c cs) as [Hin|Hnin];
          destruct (in_dec string_dec c (c0 :: cs)) as [Hin'|Hnin'];
          try (exfalso; apply Hnin'; now right).
        -- destruct (Dict.get result c) eqn:Ec; [reflexivity|].
           destruct (String.eqb c0 c) eqn:E; [|reflexivity].
           apply String.eqb_eq in E. subst c. congruence.
        -- destruct Hin' as [<- | Hin']; [|contradiction].
           now rewrite String.eqb_refl, Ev.
        -- destruct (String.eqb c0 c) eqn:E; [|reflexivity].
           apply String.eqb_eq in E. subst c. exfalso. apply Hnin'. now left.
      * intros e He. rewrite Hother by exact He. cbn [snd].
        rewrite (get_set2 _ _ _ _ _ _ H0).
        destruct (String.eqb exchange e) eqn:E; [|reflexivity].
        apply String.eqb_eq in E. congruence.
    + destruct (IH acc inner0 H0) as (inner & Hinner & Hget & Hother).
      exists inner. split; [exact Hinner|]. split; [|exact Hother].
      intros c. rewrite Hget.
      destruct (in_dec string_dec c cs) as [Hin|Hnin];
        destruct (in_dec string_dec c (c0 :: cs)) as [Hin'|Hnin'];
        try reflexivity.
      * exfalso. apply Hnin'. now right.
      * destruct Hin' as [<- | Hin']; [|contradiction]. now rewrite Ev.
Qed.

Variable balances : Dictionary (ExchangeResolve.t (Dictionary BigNumber)).

(** One round of the outer loop for a venue whose poll succeeded. *)
Lemma copyExchange_polled (acc : _ * _) (exchange : string)
    (polled : ExchangeResolve.t (Dictionary BigNumber)) :
  Dict.get balances exchange = Some polled ->
  str_truthy (ExchangeResolve.error polled) = false ->
  exists inner,
    Dict.get (snd (copyE balances acc exchange)) exchange = Some inner
    /\ (forall c,
          Dict.get inner c
          = match ExchangeResolve.result polled with
            | Some result => Dict.get result c
            | None => None
            end)
    /\ (forall e,
          e <> exchange ->
          Dict.get (snd (copyE balances acc exchange)) e = Dict.get (snd acc) e).
Proof.
  intros Hp Herr. unfold copyExchange. rewrite Hp, Herr.
  assert (Hother : forall e,
             e <> exchange ->
             Dict.get (Dict.set (snd acc) exchange []) e = Dict.get (snd acc) e).
  { intros e He. rewrite get_set.
    destruct (String.eqb exchange e) eqn:E; [|reflexivity].
    apply String.eqb_eq in E. congruence. }
  destruct (ExchangeResolve.result polled) as [result|].
  - destruct (copyCurrency_fold exchange result (Dict.keys result)
                (Dict.set (fst acc) exchange [], Dict.set (snd acc) exchange [])
                [])
      as (inner & Hinner & Hget & Hrest).
    { cbn [snd]. now rewrite get_set, String.eqb_refl. }
    exists inner. split; [exact Hinner|]. split.
    + intros c. rewrite Hget.
      destruct (in_dec string_dec c (Dict.keys result)) as [Hin|Hnin].
      * now destruct (Dict.get result c).
      * destruct (Dict.get result c) eqn:Ec; [|reflexivity].
        exfalso. apply Hnin. apply get_keys. congruence.
    + intros e He. rewrite Hrest by exact He. now apply Hother.
  - exists []. cbn [snd]. split; [now rewrite get_set, String.eqb_refl|].
    split; [reflexivity | exact Hother].
Qed.

(** One round for a venue that is not in the poll or whose poll
    failed. *)
Lemma copyExchange_skipped (acc : _ * _) (exchange : string) :
  Dict.get balances exchange = None
  \/ (exists polled,
        Dict.get balances exchange = Some polled
        /\ str_truthy (ExchangeResolve.error polled) = true) ->
  copyE balances acc exchange = acc.
Proof.
  unfold copyExchange. intros [-> | (polled & -> & ->)]; reflexivity.
Qed.

Lemma polled_or_skipped (exchange : string) :
  (exists polled,
      Dict.get balances exchange = Some polled
      /\ str_truthy (ExchangeResolve.error polled) = false)
  \/ (Dict.get balances exchange = None
      \/ exists polled,
           Dict.get balances exchange = Some polled
           /\ str_truthy (ExchangeResolve.error polled) = true).
Proof.
  destruct (Dict.get balances exchange) as [polled|]; [|now right; left].
  destruct (str_truthy (ExchangeResolve.error polled)) eqn:E.
  - right. right. now exists polled.
  - left. now exists polled.
Qed.

Lemma copyExchange_fold (exchanges : list string) :
  forall (acc : _ * _) (e : string),
    (forall polled,
        In e exchanges ->
        Dict.get balances e = Some polled ->
        str_truthy (ExchangeResolve.error polled) = false ->
        exists inner,
          Dict.get (snd (fold_left (copyE balances) exchanges acc)) e = Some inner
          /\ forall c,
               Dict.get inner c
               = match ExchangeResolve.result polled with
                 | Some result => Dict.get result c
                 | None => None
                 end)
    /\ (~ In e exchanges
        \/ Dict.get balances e = None
        \/ (exists polled,
              Dict.get balances e = Some polled
              /\ str_truthy (ExchangeResolve.error polled) = true) ->
        Dict.get (snd (fold_left (copyE balances) exchanges acc)) e
        = Dict.get (snd acc) e).
Proof.
  induction exchanges as [|k rest IH]; intros acc e; cbn [fold_left].
  - split; [intros ? []|reflexivity].
  - destruct (IH (copyE balances acc k) e) as [IHin IHout]. split.
    + intros polled Hin Hp Herr.
      destruct (in_dec string_dec e rest) as [Hrest|Hrest].
      * now apply IHin.
      * destruct Hin as [-> | Hin]; [|contradiction].
        rewrite IHout by now left.
        destruct (copyExchange_polled acc e polled Hp Herr)
          as (inner & Hinner & Hget & _).
        now exists inner.
    + intros Hskip.
      rewrite IHout.
      * destruct (polled_or_skipped k) as [(polled & Hp & Herr) | Hk].
        -- destruct (copyExchange_polled acc k polled Hp Herr)
             as (_ & _ & _ & Hother).
           apply Hother. intros ->.
           destruct Hskip as [Hnin | [Hnone | (polled' & Hp' & Herr')]].
           ++ apply Hnin. now left.
           ++ congruence.
           ++ congruence.
        -- now rewrite copyExchange_skipped.
      * destruct Hskip as [Hnin | Hskip]; [|now right].
        left. intros Hin. apply Hnin. now right.
Qed.

(** C10. After [sendUpdateBalance(balances)] the snapshot does not
    depend on the snapshot before: it has an entry for exactly the
    venues of [balances] whose poll did not report an error, and that
    entry holds the polled balances. A venue whose poll reported an
    error has no entry, whatever it had before, and
    [getExchangeForWithdraw] on this snapshot does not return it. *)
Theorem sendUpdateBalance_replaces_snapshot (w : World.t) :
  let snapshot :=
    World.lastBalances
      (snd (sendUpdateBalance BigNumber_toString JSON_stringify
              brokerHub_sendBalances balances w)) in
  (forall w2,
      World.lastBalances
        (snd (sendUpdateBalance BigNumber_toString JSON_stringify
                brokerHub_sendBalances balances w2))
      = snapshot)
  /\ (forall exchange,
        Dict.get snapshot exchange <> None
        <-> exists polled,
              Dict.get balances exchange = Some polled
              /\ str_truthy (ExchangeResolve.error polled) = false)
  /\ (forall exchange polled currency,
        Dict.get balances exchange = Some polled ->
        str_truthy (ExchangeResolve.error polled) = false ->
        get2 snapshot exchange currency
        = match ExchangeResolve.result polled with
          | Some result => Dict.get result currency
          | None => None
          end)
  /\ (forall exchange polled,
        Dict.get balances exchange = Some polled ->
        str_truthy (ExchangeResolve.error polled) = true ->
        Dict.get snapshot exchange = None
        /\ forall connector_getConnector amount assetName amountWithFee w',
             World.lastBalances w' = snapshot ->
             fst (getExchangeForWithdraw connector_getConnector amount
                    assetName w')
             <> Ok (Some (exchange, amountWithFee))).
Proof.
  assert (Hsnap : forall w0,
             World.lastBalances
               (snd (sendUpdateBalance BigNumber_toString JSON_stringify
                       brokerHub_sendBalances balances w0))
             = snd (fold_left (copyE balances) (Dict.keys balances) ([], []))).
  { intros w0.
    unfold sendUpdateBalance, sendBalances, bind, modify, reads, ret, emit,
      lift.
    cbn. destruct (String.eqb _ _); [reflexivity|].
    now destruct (brokerHub_sendBalances _ _). }
  intros snapshot. unfold snapshot. clear snapshot. rewrite Hsnap.
  split; [intros w2; apply Hsnap|].
  assert (Herror : forall exchange polled,
             Dict.get balances exchange = Some polled ->
             str_truthy (ExchangeResolve.error polled) = true ->
             Dict.get (snd (fold_left (copyE balances) (Dict.keys balances)
                              ([], []))) exchange = None).
  { intros exchange polled Hp Herr.
    destruct (copyExchange_fold (Dict.keys balances) ([], []) exchange)
      as [_ Hout].
    rewrite Hout; [reflexivity|]. right. right. now exists polled. }
  split; [|split].
  - intros exchange.
    destruct (copyExchange_fold (Dict.keys balances) ([], []) exchange)
      as [Hin Hout].
    split.
    + intros Hsome.
      destruct (polled_or_skipped exchange) as [Hp | Hskip]; [exact Hp|].
      exfalso. apply Hsome. rewrite Hout; [reflexivity | now right].
    + intros (polled & Hp & Herr).
      destruct (Hin polled) as (inner & Hinner & _); try assumption.
      * apply get_keys. congruence.
      * congruence.
  - intros exchange polled currency Hp Herr.
    destruct (copyExchange_fold (Dict.keys balances) ([], []) exchange)
      as [Hin _].
    destruct (Hin polled) as (inner & Hinner & Hget); try assumption.
    + apply get_keys. congruence.
    + unfold get2. rewrite Hinner. apply Hget.
  - intros exchange polled Hp Herr. split; [now apply (Herror exchange polled)|].
    intros connector_getConnector amount assetName amountWithFee w' Hw' Hfound.
    unfold getExchangeForWithdraw, reads in Hfound. cbn [fst] in Hfound.
    injection Hfound as Hfound.
    apply forExchanges_some in Hfound.
    destruct Hfound as (before & after & Hkeys & _).
    assert (Hin : In exchange (Dict.keys (World.lastBalances w'))).
    { rewrite Hkeys. apply in_or_app. right. now left. }
    apply get_keys in Hin. apply Hin. rewrite Hw'.
    now apply (Herror exchange polled).
Qed.

End Snapshot.

(** The theorem at a poll in which venue Y, present in the snapshot
    before, failed, and venue X answered. *)
Lemma sendUpdateBalance_replaces_snapshot_witness :
  Dict.get Scenario.balances1 "Y"
  = Some (ExchangeResolve.mk (Some "timeout"%string) None)
  /\ Dict.get (World.lastBalances Scenario.worldOld) "Y"
     = Some [("USDT"%string, BN.ofZ 500)]
  /\ Dict.get
       (World.lastBalances
          (snd (Scenario.sendUpdateBalance Scenario.balances1 Scenario.worldOld)))
       "Y"
     = None
  /\ get2
       (World.lastBalances
          (snd (Scenario.sendUpdateBalance Scenario.balances1 Scenario.worldOld)))
       "X" "USDT"
     = Some (BN.ofZ 200).
Proof.
  split; [reflexivity|]. split; [reflexivity|].
  destruct (sendUpdateBalance_replaces_snapshot Scenario.BigNumber_toString
              Scenario.JSON_stringify Scenario.brokerHub_sendBalances
              Scenario.balances1 Scenario.worldOld)
    as (_ & _ & Hpolled & Herror).
  split.
  - apply (Herror "Y"%string (ExchangeResolve.mk (Some "timeout"%string) None));
      reflexivity.
  - unfold Scenario.sendUpdateBalance.
    rewrite (Hpolled "X"%string
               (ExchangeResolve.mk None
                  (Some [("USDT"%string, BN.ofZ 200); ("BTC"%string, BN.ofZ 1)]))
               "USDT"%string); reflexivity.
Defined.

(** ** The remaining scenarios of the specification, run *)

(** S2: the adapter throws (there is no venue Z), the sub-order is
    REJECTED and reported without an order. *)
Example S2_rejected :
  fst (Scenario.onCreateSubOrder
         (CreateSubOrder.mk 2 "BTC-USDT" buy (BN.ofZ 10000) (BFin (1 # 100)) "Z")
         Scenario.world0)
  = Ok {| SubOrderStatus.id := 2;
          SubOrderStatus.status := Some REJECTED;
          SubOrderStatus.filledAmount := "0";
          SubOrderStatus.blockchainOrder := None |}.
Proof. vm_compute. reflexivity. Qed.

(** S3: the hub rejects a sub-order that is ACCEPTED. *)
Example S3_hub_override :
  Db.getSubOrderById 1
    (World.db (snd (onSubOrderStatusAccepted
                      (SubOrderStatusAccepted.mk 1 REJECTED) Scenario.world1)))
  = Some (DbSubOrder.set_sentToAggregator
            (DbSubOrder.set_status Scenario.subOrder1Accepted REJECTED) true).
Proof. vm_compute. reflexivity. Qed.

(** S5: the wallet holds 200 USDT and one [depositERC20(100, USDT)] is
    issued. *)
Example S5_deposit :
  World.trace (snd (Scenario.manageLiability 200 Scenario.liability1 Scenario.worldS6))
  = [OrionBlockchain_depositERC20 (BFin (10000000000 # 100000000)) "USDT"].
Proof. vm_compute. reflexivity. Qed.

(** S6: the wallet holds no USDT and one withdrawal of 101 USDT from
    venue X to the broker's address is issued. *)
Example S6_withdraw :
  exists amount,
    World.trace (snd (Scenario.manageLiability 0 Scenario.liability1 Scenario.worldS6))
    = [Connectors_withdraw "X" "USDT" amount
         (OrionBlockchain.address Scenario.orionBlockchain)]
    /\ BN.eq amount (BN.ofZ 101) = true.
Proof. eexists. split; vm_compute; reflexivity. Qed.

(* ===================================================================== *)
(** * Further properties of the code *)
(* ===================================================================== *)

(** ** Acknowledgements *)

Lemma Status_eqb_eq (a b : Status) : Status_eqb a b = true <-> a = b.
Proof. destruct a, b; simpl; split; congruence. Qed.

Lemma set_sentToAggregator_status (s : DbSubOrder.t) (v : bool) :
  DbSubOrder.status (DbSubOrder.set_sentToAggregator s v) = DbSubOrder.status s.
Proof. reflexivity. Qed.

(** X1. An acknowledgement for an unknown id throws and changes nothing.
    For a stored sub-order and a status other than REJECTED, the
    acknowledgement marks it as sent to the aggregator, updates the row
    and tells the frontend exactly when the status is the stored one and
    that is neither PREPARE nor ACCEPTED; otherwise it returns and
    changes nothing. *)
Theorem onSubOrderStatusAccepted_acknowledges
    (w : World.t) (data : SubOrderStatusAccepted.t) :
  (Db.getSubOrderById (SubOrderStatusAccepted.id data) (World.db w) = None ->
   onSubOrderStatusAccepted data w = (Throw "Suborder not found"%string, w))
  /\ (forall s,
        Db.getSubOrderById (SubOrderStatusAccepted.id data) (World.db w) = Some s ->
        SubOrderStatusAccepted.status data <> REJECTED ->
        (SubOrderStatusAccepted.status data = DbSubOrder.status s ->
         DbSubOrder.status s <> PREPARE ->
         DbSubOrder.status s <> ACCEPTED ->
         onSubOrderStatusAccepted data w
         = (Ok tt,
            World.set_trace
              (World.set_db w
                 (Db.updateSubOrder (DbSubOrder.set_sentToAggregator s true)
                    (World.db w)))
              (World.trace w
               ++ [WebUI_sendToFrontend (DbSubOrder.set_sentToAggregator s true)])))
        /\ (SubOrderStatusAccepted.status data <> DbSubOrder.status s
            \/ DbSubOrder.status s = PREPARE
            \/ DbSubOrder.status s = ACCEPTED ->
            onSubOrderStatusAccepted data w = (Ok tt, w))).
Proof.
  split.
  - intros Hnone. unfold onSubOrderStatusAccepted, bind, reads, throw.
    simpl. now rewrite Hnone.
  - intros s Hs Hne. split.
    + intros Hsame Hp Ha.
      unfold onSubOrderStatusAccepted, bind, reads. simpl. rewrite Hs.
      rewrite Hsame.
      destruct (DbSubOrder.status s) eqn:E; try congruence;
        cbn; rewrite ?E; cbn; reflexivity.
    + intros Hcase.
      unfold onSubOrderStatusAccepted, bind, reads. simpl. rewrite Hs.
      destruct (SubOrderStatusAccepted.status data) eqn:Ed; try congruence;
        destruct (DbSubOrder.status s) eqn:E; cbn; rewrite ?E; cbn;
          try reflexivity;
          exfalso; destruct Hcase as [H | [H | H]]; congruence.
Qed.

Lemma updateSubOrder_ids (s' : DbSubOrder.t) (db : Db.t) :
  map DbSubOrder.id (Db.subOrders (Db.updateSubOrder s' db))
  = map DbSubOrder.id (Db.subOrders db).
Proof.
  unfold Db.updateSubOrder. cbn [Db.subOrders]. rewrite map_map.
  apply map_ext. intros r.
  destruct (DbSubOrder.id r =? DbSubOrder.id s') eqn:E; [|reflexivity].
  apply Z.eqb_eq in E. now symmetry.
Qed.

Lemma updateSubOrder_other (s' : DbSubOrder.t) (db : Db.t) (id : Z) :
  id <> DbSubOrder.id s' ->
  Db.getSubOrderById id (Db.updateSubOrder s' db) = Db.getSubOrderById id db.
Proof.
  intros Hne. unfold Db.getSubOrderById, Db.updateSubOrder. cbn [Db.subOrders].
  induction (Db.subOrders db) as [|r rows IH]; [reflexivity|].
  cbn [map find].
  destruct (DbSubOrder.id r =? DbSubOrder.id s') eqn:E.
  - apply Z.eqb_eq in E.
    assert ((DbSubOrder.id s' =? id) = false) as -> by (apply Z.eqb_neq; congruence).
    assert ((DbSubOrder.id r =? id) = false) as -> by (apply Z.eqb_neq; congruence).
    exact IH.
  - now rewrite IH.
Qed.

Lemma resend_after_update (s' : DbSubOrder.t) (db : Db.t) (r : DbSubOrder.t) :
  DbSubOrder.sentToAggregator s' = true ->
  In r (DbQueries.getSubOrdersToResend (Db.updateSubOrder s' db)) ->
  DbSubOrder.id r <> DbSubOrder.id s'.
Proof.
  intros Hsent Hin. unfold DbQueries.getSubOrdersToResend in Hin.
  apply filter_In in Hin. destruct Hin as [Hin Hkeep].
  unfold Db.updateSubOrder in Hin. cbn [Db.subOrders] in Hin.
  apply in_map_iff in Hin. destruct Hin as (r0 & Hr & _).
  destruct (DbSubOrder.id r0 =? DbSubOrder.id s') eqn:E.
  - subst r. rewrite Hsent in Hkeep. rewrite andb_false_r in Hkeep. discriminate.
  - subst r. now apply Z.eqb_neq.
Qed.

(** The store an acknowledgement leaves: the one it found, or that with
    the sub-order updated to a row of the same id that is marked sent. *)
Lemma onSubOrderStatusAccepted_store (w : World.t) (data : SubOrderStatusAccepted.t) :
  World.db (snd (onSubOrderStatusAccepted data w)) = World.db w
  \/ exists s',
       DbSubOrder.id s' = SubOrderStatusAccepted.id data
       /\ DbSubOrder.sentToAggregator s' = true
       /\ World.db (snd (onSubOrderStatusAccepted data w))
          = Db.updateSubOrder s' (World.db w).
Proof.
  unfold onSubOrderStatusAccepted, bind, reads. cbn.
  destruct (Db.getSubOrderById (SubOrderStatusAccepted.id data) (World.db w))
    as [s|] eqn:Hs; [|now left].
  pose proof (getSubOrderById_id _ _ _ Hs) as Hid.
  match goal with
  | |- context [if ?b then _ else _] => destruct b
  end.
  - right. eexists. split; [|split; [|reflexivity]]; cbn.
    + now destruct (_ && _).
    + reflexivity.
  - now left.
Qed.

(** X2. Once the hub has acknowledged a stored sub-order, by REJECTED or
    by its own terminal status, [getSubOrdersToResend] no longer returns
    a sub-order of that id. *)
Theorem acknowledged_is_not_resent
    (w : World.t) (data : SubOrderStatusAccepted.t) (s : DbSubOrder.t) :
  Db.getSubOrderById (SubOrderStatusAccepted.id data) (World.db w) = Some s ->
  SubOrderStatusAccepted.status data = REJECTED
  \/ (SubOrderStatusAccepted.status data = DbSubOrder.status s
      /\ DbSubOrder.status s <> PREPARE
      /\ DbSubOrder.status s <> ACCEPTED) ->
  forall r,
    In r (DbQueries.getSubOrdersToResend
            (World.db (snd (onSubOrderStatusAccepted data w)))) ->
    DbSubOrder.id r <> SubOrderStatusAccepted.id data.
Proof.
  intros Hs Hcase r.
  assert (Hdb : exists s',
             DbSubOrder.id s' = SubOrderStatusAccepted.id data
             /\ DbSubOrder.sentToAggregator s' = true
             /\ World.db (snd (onSubOrderStatusAccepted data w))
                = Db.updateSubOrder s' (World.db w)).
  { pose proof (getSubOrderById_id _ _ _ Hs) as Hid.
    unfold onSubOrderStatusAccepted, bind, reads. cbn. rewrite Hs.
    destruct Hcase as [Hrej | (Hsame & Hp & Ha)].
    - rewrite Hrej.
      destruct (DbSubOrder.status s) eqn:E; cbn; rewrite ?E; cbn;
        eexists; (split; [|split; [|reflexivity]]); cbn; auto.
    - rewrite Hsame.
      destruct (DbSubOrder.status s) eqn:E; try congruence;
        cbn; rewrite ?E; cbn;
        eexists; (split; [|split; [|reflexivity]]); cbn; auto. }
  destruct Hdb as (s' & Hid' & Hsent & ->).
  intros Hin. rewrite <- Hid'. now apply (resend_after_update s' (World.db w)).
Qed.

(** X3. An acknowledgement adds and removes no sub-order, leaves the
    sub-orders of every other id as they were, and does not touch
    trades, withdrawals or transactions. *)
Theorem onSubOrderStatusAccepted_frame
    (w : World.t) (data : SubOrderStatusAccepted.t) :
  let w' := snd (onSubOrderStatusAccepted data w) in
  map DbSubOrder.id (Db.subOrders (World.db w'))
  = map DbSubOrder.id (Db.subOrders (World.db w))
  /\ (forall id,
        id <> SubOrderStatusAccepted.id data ->
        Db.getSubOrderById id (World.db w') = Db.getSubOrderById id (World.db w))
  /\ Db.trades (World.db w') = Db.trades (World.db w)
  /\ Db.withdraws (World.db w') = Db.withdraws (World.db w)
  /\ Db.transactions (World.db w') = Db.transactions (World.db w).
Proof.
  intros w'. unfold w'.
  destruct (onSubOrderStatusAccepted_store w data) as [-> | (s' & Hid & _ & ->)].
  - repeat split.
  - split; [apply updateSubOrder_ids|].
    split; [|repeat split].
    intros id Hne. apply updateSubOrder_other. congruence.
Qed.

(** ** Creating and cancelling *)

Lemma insertSubOrder_other (s : DbSubOrder.t) (db : Db.t) (id : Z) :
  id <> DbSubOrder.id s ->
  Db.getSubOrderById id (Db.insertSubOrder s db) = Db.getSubOrderById id db.
Proof.
  intros Hne. unfold Db.insertSubOrder.
  destruct (Db.getSubOrderById (DbSubOrder.id s) db); [reflexivity|].
  unfold Db.getSubOrderById. cbn [Db.subOrders].
  induction (Db.subOrders db) as [|r rows IH]; cbn.
  - assert ((DbSubOrder.id s =? id) = false) as -> by (apply Z.eqb_neq; congruence).
    reflexivity.
  - destruct (DbSubOrder.id r =? id); [reflexivity | exact IH].
Qed.

Lemma getSubOrderById_none_ids (id : Z) (db : Db.t) :
  Db.getSubOrderById id db = None ->
  ~ In id (map DbSubOrder.id (Db.subOrders db)).
Proof.
  unfold Db.getSubOrderById. intros Hnone Hin.
  apply in_map_iff in Hin. destruct Hin as (r & Hid & Hin).
  apply (find_none _ _ Hnone) in Hin. apply Z.eqb_neq in Hin. congruence.
Qed.

Section CreateAndCancel.

Variable orionBlockchain : OrionBlockchain.t.
Variable symbolToAddresses : string -> string * string.
Variable nameToAddress : string -> string.
Variable web3_packed : list string -> option (list byte).
Variable signTypedMessage : string -> Z -> BlockchainOrder.t -> result string.
Variable BigNumber_toString : BigNumber -> string.
Variable connector_submitSubOrder :
  string -> Z -> string -> Side -> BigNumber -> BigNumber -> result SubOrder.t.
Variable connector_cancelSubOrder : DbSubOrder.t -> result unit.

Local Abbreviation check :=
  (onCheckSubOrder orionBlockchain symbolToAddresses nameToAddress
     web3_packed signTypedMessage BigNumber_toString).
Local Abbreviation create :=
  (onCreateSubOrder orionBlockchain symbolToAddresses nameToAddress
     web3_packed signTypedMessage BigNumber_toString connector_submitSubOrder).
Local Abbreviation cancel :=
  (onCancelSubOrder orionBlockchain symbolToAddresses nameToAddress
     web3_packed signTypedMessage BigNumber_toString connector_cancelSubOrder).

(** The world a create of a new id leaves. *)
Lemma onCreateSubOrder_world (request : CreateSubOrder.t) (w : World.t) :
  Db.getSubOrderById (CreateSubOrder.id request) (World.db w) = None ->
  let placed :=
    connector_submitSubOrder (CreateSubOrder.exchange request)
      (CreateSubOrder.id request) (CreateSubOrder.symbol request)
      (CreateSubOrder.side request) (CreateSubOrder.amount request)
      (CreateSubOrder.price request) in
  let prepared :=
    DbSubOrder.mk (CreateSubOrder.id request) (CreateSubOrder.symbol request)
      (CreateSubOrder.side request) (CreateSubOrder.price request)
      (CreateSubOrder.amount request) (CreateSubOrder.exchange request)
      None (World.now w) PREPARE (BN.ofZ 0) false in
  let final :=
    match placed with
    | Ok subOrder =>
        DbSubOrder.set_status
          (DbSubOrder.set_exchangeOrderId prepared
             (Some (SubOrder.exchangeOrderId subOrder)))
          ACCEPTED
    | Throw _ => DbSubOrder.set_status prepared REJECTED
    end in
  snd (create request w)
  = World.set_trace
      (World.set_db w
         (Db.updateSubOrder final (Db.insertSubOrder prepared (World.db w))))
      (World.trace w
       ++ [Connectors_submitSubOrder (CreateSubOrder.exchange request)
             (CreateSubOrder.id request) (CreateSubOrder.symbol request)
             (CreateSubOrder.side request) (CreateSubOrder.amount request)
             (CreateSubOrder.price request);
           WebUI_sendToFrontend final]).
Proof.
  intros Hfresh placed prepared final.
  pose proof (onCheckSubOrder_world orionBlockchain symbolToAddresses
                nameToAddress
                  web3_packed signTypedMessage BigNumber_toString) as Hworld.
  unfold onCreateSubOrder.
  set (chk := onCheckSubOrder orionBlockchain symbolToAddresses
                nameToAddress
                  web3_packed signTypedMessage BigNumber_toString) in *.
  clearbody chk.
  unfold bind, reads, writeDb, emit, modify. cbn. rewrite Hfresh. cbn.
  rewrite Hworld. unfold final, placed, prepared.
  destruct (connector_submitSubOrder _ _ _ _ _ _); cbn;
    rewrite <- app_assoc; reflexivity.
Qed.

(** X4. After a create for an id that is not stored, a sub-order of
    that id is stored with the time of the call as timestamp and not yet
    sent to the aggregator: ACCEPTED with the venue's order id when the
    adapter returns, REJECTED without one when the adapter throws. *)
Theorem onCreateSubOrder_places (request : CreateSubOrder.t) (w : World.t) :
  Db.getSubOrderById (CreateSubOrder.id request) (World.db w) = None ->
  exists s,
    Db.getSubOrderById (CreateSubOrder.id request)
      (World.db (snd (create request w))) = Some s
    /\ DbSubOrder.timestamp s = World.now w
    /\ DbSubOrder.sentToAggregator s = false
    /\ match connector_submitSubOrder (CreateSubOrder.exchange request)
               (CreateSubOrder.id request) (CreateSubOrder.symbol request)
               (CreateSubOrder.side request) (CreateSubOrder.amount request)
               (CreateSubOrder.price request) with
       | Ok subOrder =>
           DbSubOrder.status s = ACCEPTED
           /\ DbSubOrder.exchangeOrderId s = Some (SubOrder.exchangeOrderId subOrder)
       | Throw _ =>
           DbSubOrder.status s = REJECTED /\ DbSubOrder.exchangeOrderId s = None
       end.
Proof.
  intros Hfresh. rewrite (onCreateSubOrder_world request w Hfresh). cbn.
  eexists. split.
  - eapply getSubOrderById_updateSubOrder.
    + apply (getSubOrderById_insertSubOrder (World.db w)
               (DbSubOrder.mk (CreateSubOrder.id request) _ _ _ _ _ _ _ _ _ _)).
      exact Hfresh.
    + now destruct (connector_submitSubOrder _ _ _ _ _ _).
  - destruct (connector_submitSubOrder _ _ _ _ _ _); cbn; auto.
Qed.

(** X5. A create keeps the ids of the stored sub-orders distinct,
    leaves the sub-orders of every other id as they were, and does not
    touch trades, withdrawals, transactions or the balance snapshot. *)
Theorem onCreateSubOrder_frame (request : CreateSubOrder.t) (w : World.t) :
  let w' := snd (create request w) in
  (NoDup (map DbSubOrder.id (Db.subOrders (World.db w))) ->
   NoDup (map DbSubOrder.id (Db.subOrders (World.db w'))))
  /\ (forall id,
        id <> CreateSubOrder.id request ->
        Db.getSubOrderById id (World.db w') = Db.getSubOrderById id (World.db w))
  /\ Db.trades (World.db w') = Db.trades (World.db w)
  /\ Db.withdraws (World.db w') = Db.withdraws (World.db w)
  /\ Db.transactions (World.db w') = Db.transactions (World.db w)
  /\ World.lastBalances w' = World.lastBalances w.
Proof.
  intros w'. unfold w'.
  destruct (Db.getSubOrderById (CreateSubOrder.id request) (World.db w))
    as [old|] eqn:Hold.
  - assert (Hsame : snd (create request w) = w).
    { unfold onCreateSubOrder, bind, reads. cbn. rewrite Hold.
      apply onCheckSubOrder_world. }
    rewrite Hsame. repeat split. auto.
  - rewrite (onCreateSubOrder_world request w Hold).
    unfold World.set_trace, World.set_db. cbn [World.db World.lastBalances].
    split; [|split].
    + intros Hnodup. rewrite updateSubOrder_ids.
      unfold Db.insertSubOrder. cbn [DbSubOrder.id]. rewrite Hold.
      cbn [Db.subOrders]. rewrite map_app. cbn [map DbSubOrder.id].
      apply NoDup_app; [exact Hnodup | repeat constructor; intros [] |].
      intros id Hin [<- | []].
      now apply (getSubOrderById_none_ids _ _ Hold).
    + intros id Hne. rewrite updateSubOrder_other.
      * apply (insertSubOrder_other
                 (DbSubOrder.mk (CreateSubOrder.id request) _ _ _ _ _ _ _ _ _ _)).
        exact Hne.
      * now destruct (connector_submitSubOrder _ _ _ _ _ _).
    + unfold Db.insertSubOrder. cbn [DbSubOrder.id]. rewrite Hold.
      repeat split.
Qed.

(** X6. A cancel never changes the store or the snapshot. For an unknown
    id it throws and for a sub-order in PREPARE it returns null, in both
    cases with no outgoing call: the world is as it was. For an ACCEPTED
    sub-order the venue is asked to cancel it, once, and the call returns
    null when the adapter returns and throws when that throws. For any
    other status there is no outgoing call and the call returns what
    [onCheckSubOrder] returns. *)
Theorem onCancelSubOrder_outcomes (id : Z) (w : World.t) :
  (Db.getSubOrderById id (World.db w) = None ->
   exists msg, cancel id w = (Throw msg, w))
  /\ (forall s,
        Db.getSubOrderById id (World.db w) = Some s ->
        (DbSubOrder.status s = PREPARE -> cancel id w = (Ok None, w))
        /\ (DbSubOrder.status s = ACCEPTED ->
            cancel id w
            = (match connector_cancelSubOrder s with
               | Ok _ => Ok None
               | Throw msg => Throw msg
               end,
               World.set_trace w (World.trace w ++ [Connectors_cancelSubOrder s])))
        /\ (DbSubOrder.status s <> PREPARE ->
            DbSubOrder.status s <> ACCEPTED ->
            cancel id w
            = (match fst (check id w) with
               | Ok st => Ok (Some st)
               | Throw msg => Throw msg
               end,
               w))).
Proof.
  pose proof (onCheckSubOrder_world orionBlockchain symbolToAddresses
                nameToAddress
                  web3_packed signTypedMessage BigNumber_toString) as Hworld.
  unfold onCancelSubOrder.
  set (chk := onCheckSubOrder orionBlockchain symbolToAddresses
                nameToAddress
                  web3_packed signTypedMessage BigNumber_toString) in *.
  clearbody chk.
  unfold bind, reads, lift, ret, throw, emit, modify. cbn.
  destruct (Db.getSubOrderById id (World.db w)) as [s|] eqn:Hs.
  - pose proof (getSubOrderById_id _ _ _ Hs) as Hid. rewrite Hid.
    specialize (Hworld id w).
    split; [discriminate|].
    intros s0 [= <-]. split; [|split].
    + now intros ->.
    + intros ->. cbn. now destruct (connector_cancelSubOrder s).
    + intros Hp Ha.
      destruct (DbSubOrder.status s); try congruence; cbn;
        destruct (chk id w) as [[st|msg] w2]; cbn in *; now subst.
  - split; [now eexists | discriminate].
Qed.

End CreateAndCancel.


(** The theorem at scenario S1: the hub acknowledges the fill of
    sub-order 1. *)
Lemma onSubOrderStatusAccepted_acknowledges_witness :
  Db.getSubOrderById 1 (World.db Scenario.world2) = Some Scenario.subOrder1
  /\ onSubOrderStatusAccepted (SubOrderStatusAccepted.mk 1 FILLED) Scenario.world2
     = (Ok tt,
        World.set_trace
          (World.set_db Scenario.world2
             (Db.updateSubOrder
                (DbSubOrder.set_sentToAggregator Scenario.subOrder1 true)
                (World.db Scenario.world2)))
          (World.trace Scenario.world2
           ++ [WebUI_sendToFrontend
                 (DbSubOrder.set_sentToAggregator Scenario.subOrder1 true)])).
Proof.
  assert (Hs : Db.getSubOrderById 1 (World.db Scenario.world2)
               = Some Scenario.subOrder1) by (vm_compute; reflexivity).
  split; [exact Hs|].
  destruct (onSubOrderStatusAccepted_acknowledges Scenario.world2
              (SubOrderStatusAccepted.mk 1 FILLED)) as [_ H].
  destruct (H Scenario.subOrder1 Hs) as [Hack _]; [discriminate|].
  apply Hack; [reflexivity | discriminate | discriminate].
Defined.

(** The theorem at scenario S1: the filled sub-order 1 waits to be
    resent, and no longer does once the hub has acknowledged FILLED. *)
Lemma acknowledged_is_not_resent_witness :
  Db.getSubOrderById 1 (World.db Scenario.world2) = Some Scenario.subOrder1
  /\ In Scenario.subOrder1
       (DbQueries.getSubOrdersToResend (World.db Scenario.world2))
  /\ forall r,
       In r (DbQueries.getSubOrdersToResend
               (World.db (snd (onSubOrderStatusAccepted
                                 (SubOrderStatusAccepted.mk 1 FILLED)
                                 Scenario.world2)))) ->
       DbSubOrder.id r <> 1.
Proof.
  assert (Hs : Db.getSubOrderById 1 (World.db Scenario.world2)
               = Some Scenario.subOrder1) by (vm_compute; reflexivity).
  split; [exact Hs|]. split; [vm_compute; now left|].
  apply (acknowledged_is_not_resent Scenario.world2
           (SubOrderStatusAccepted.mk 1 FILLED) Scenario.subOrder1 Hs).
  right. split; [reflexivity | split; discriminate].
Defined.

(** The theorem at scenario S1: the acknowledgement of sub-order 1 leaves
    what is stored for id 2 alone. *)
Lemma onSubOrderStatusAccepted_frame_witness :
  2 <> 1
  /\ Db.getSubOrderById 2
       (World.db (snd (onSubOrderStatusAccepted
                         (SubOrderStatusAccepted.mk 1 FILLED) Scenario.world2)))
     = Db.getSubOrderById 2 (World.db Scenario.world2).
Proof.
  assert (Hne : 2 <> 1) by lia.
  split; [exact Hne|].
  destruct (onSubOrderStatusAccepted_frame Scenario.world2
              (SubOrderStatusAccepted.mk 1 FILLED)) as (_ & H & _).
  exact (H 2 Hne).
Defined.

(** The theorem at scenario S1: sub-order 1 is new and venue X takes
    it. *)
Lemma onCreateSubOrder_places_witness :
  Db.getSubOrderById 1 (World.db Scenario.world0) = None
  /\ exists s,
       Db.getSubOrderById 1 (World.db Scenario.world1) = Some s
       /\ DbSubOrder.status s = ACCEPTED
       /\ DbSubOrder.exchangeOrderId s = Some "e1".
Proof.
  assert (Hfresh : Db.getSubOrderById (CreateSubOrder.id Scenario.request1)
                     (World.db Scenario.world0) = None)
    by (vm_compute; reflexivity).
  split; [exact Hfresh|].
  destruct (onCreateSubOrder_places Scenario.orionBlockchain
              Scenario.symbolToAddresses Scenario.nameToAddress
              Scenario.web3_packed Scenario.signTypedMessage Scenario.BigNumber_toString
              Scenario.connector_submitSubOrder Scenario.request1
              Scenario.world0 Hfresh) as (s & Hs & _ & _ & Hplaced).
  exists s. split; [exact Hs | exact Hplaced].
Defined.

(** The theorem at scenario S1: the ids stay distinct and id 2 is left
    alone. *)
Lemma onCreateSubOrder_frame_witness :
  NoDup (map DbSubOrder.id (Db.subOrders (World.db Scenario.world0)))
  /\ NoDup (map DbSubOrder.id (Db.subOrders (World.db Scenario.world1)))
  /\ Db.getSubOrderById 2 (World.db Scenario.world1)
     = Db.getSubOrderById 2 (World.db Scenario.world0).
Proof.
  assert (Hnodup : NoDup (map DbSubOrder.id
                            (Db.subOrders (World.db Scenario.world0))))
    by (vm_compute; constructor).
  split; [exact Hnodup|].
  destruct (onCreateSubOrder_frame Scenario.orionBlockchain
              Scenario.symbolToAddresses Scenario.nameToAddress
              Scenario.web3_packed Scenario.signTypedMessage Scenario.BigNumber_toString
              Scenario.connector_submitSubOrder Scenario.request1
              Scenario.world0) as (Hkeeps & Hother & _).
  split; [exact (Hkeeps Hnodup)|].
  apply Hother. cbn. lia.
Defined.

(** The theorem at scenario S1: cancelling the accepted sub-order 1 asks
    the venue and returns null. *)
Lemma onCancelSubOrder_outcomes_witness :
  Db.getSubOrderById 1 (World.db Scenario.world1) = Some Scenario.subOrder1Accepted
  /\ onCancelSubOrder Scenario.orionBlockchain Scenario.symbolToAddresses
       Scenario.nameToAddress Scenario.web3_packed Scenario.signTypedMessage
       Scenario.BigNumber_toString Polls.connector_cancelSubOrder 1
       Scenario.world1
     = (Ok None,
        World.set_trace Scenario.world1
          (World.trace Scenario.world1
           ++ [Connectors_cancelSubOrder Scenario.subOrder1Accepted])).
Proof.
  assert (Hs : Db.getSubOrderById 1 (World.db Scenario.world1)
               = Some Scenario.subOrder1Accepted) by (vm_compute; reflexivity).
  split; [exact Hs|].
  destruct (onCancelSubOrder_outcomes Scenario.orionBlockchain
              Scenario.symbolToAddresses Scenario.nameToAddress
              Scenario.web3_packed Scenario.signTypedMessage Scenario.BigNumber_toString
              Polls.connector_cancelSubOrder 1 Scenario.world1) as (_ & H).
  destruct (H Scenario.subOrder1Accepted Hs) as (_ & Haccepted & _).
  exact (Haccepted eq_refl).
Defined.

(** ** Trade events *)

Lemma getSubOrder_keys (exchange exchangeOrderId : string) (db : Db.t)
    (s : DbSubOrder.t) :
  Db.getSubOrder exchange exchangeOrderId db = Some s ->
  DbSubOrder.exchange s = exchange
  /\ DbSubOrder.exchangeOrderId s = Some exchangeOrderId.
Proof.
  unfold Db.getSubOrder. intros H. apply find_some in H. destruct H as [_ H].
  apply andb_true_iff in H. destruct H as [He Hi].
  apply String.eqb_eq in He. split; [exact He|].
  unfold opt_string_eqb in Hi.
  destruct (DbSubOrder.exchangeOrderId s) as [e|]; [|discriminate].
  apply String.eqb_eq in Hi. now subst.
Qed.

Section TradeEvents.

Variable orionBlockchain : OrionBlockchain.t.
Variable symbolToAddresses : string -> string * string.
Variable nameToAddress : string -> string.
Variable web3_packed : list string -> option (list byte).
Variable signTypedMessage : string -> Z -> BlockchainOrder.t -> result string.
Variable BigNumber_toString : BigNumber -> string.

Local Abbreviation check :=
  (onCheckSubOrder orionBlockchain symbolToAddresses nameToAddress
     web3_packed signTypedMessage BigNumber_toString).
Local Abbreviation handle :=
  (onTrade orionBlockchain symbolToAddresses nameToAddress
     web3_packed signTypedMessage BigNumber_toString).
Local Abbreviation sign :=
  (OrionBlockchain.signTrade symbolToAddresses nameToAddress
     web3_packed signTypedMessage orionBlockchain).

(** The world after a trade that is dropped, for the frame below. *)
Lemma onTrade_skips (w : World.t) (trade : Trade.t) :
  Db.getSubOrder (Trade.exchange trade) (Trade.exchangeOrderId trade) (World.db w)
  = None
  \/ (Trade.status trade <> FILLED /\ Trade.status trade <> CANCELED) ->
  handle trade w = (Ok tt, w).
Proof.
  intros Hcase. unfold onTrade, try_log, bind, reads, throw. cbn.
  destruct (Db.getSubOrder (Trade.exchange trade) (Trade.exchangeOrderId trade)
              (World.db w)) as [s|] eqn:Hs.
  - destruct Hcase as [Hnone | [Hf Hc]]; [discriminate|].
    destruct (Trade.status trade); try congruence; reflexivity.
  - reflexivity.
Qed.

(** X7. A trade for a venue order that no stored sub-order has, or with
    a status other than FILLED and CANCELED, is logged and dropped: the
    handler returns and the world is as it was. *)
Theorem onTrade_refuses (w : World.t) (trade : Trade.t) :
  Db.getSubOrder (Trade.exchange trade) (Trade.exchangeOrderId trade) (World.db w)
  = None
  \/ (Trade.status trade <> FILLED /\ Trade.status trade <> CANCELED) ->
  handle trade w = (Ok tt, w).
Proof.
  intros [Hnone | [Hfilled Hcanceled]];
    unfold onTrade, try_log, bind, reads, throw; cbn.
  - now rewrite Hnone.
  - destruct (Db.getSubOrder (Trade.exchange trade) (Trade.exchangeOrderId trade)
                (World.db w)) as [s|]; [|reflexivity].
    destruct (Trade.status trade) eqn:Hstatus; try reflexivity.
    + now elim Hfilled.
    + now elim Hcanceled.
Qed.

(** X8. Whatever the trade, [onTrade] adds and removes no sub-order,
    leaves every sub-order but the one of the trade as it was, stores at
    most the trade itself, and does not touch withdrawals, transactions
    or the balance snapshot. *)
Theorem onTrade_frame (w : World.t) (trade : Trade.t) :
  let w' := snd (handle trade w) in
  map DbSubOrder.id (Db.subOrders (World.db w'))
  = map DbSubOrder.id (Db.subOrders (World.db w))
  /\ (forall s id,
        Db.getSubOrder (Trade.exchange trade) (Trade.exchangeOrderId trade)
          (World.db w) = Some s ->
        id <> DbSubOrder.id s ->
        Db.getSubOrderById id (World.db w') = Db.getSubOrderById id (World.db w))
  /\ (Db.trades (World.db w') = Db.trades (World.db w)
      \/ Db.trades (World.db w') = Db.trades (World.db w) ++ [trade])
  /\ Db.withdraws (World.db w') = Db.withdraws (World.db w)
  /\ Db.transactions (World.db w') = Db.transactions (World.db w)
  /\ World.lastBalances w' = World.lastBalances w.
Proof.
  intros w'. unfold w'. clear w'.
  assert (Hcases :
    snd (handle trade w) = w
    \/ exists s,
         Db.getSubOrder (Trade.exchange trade) (Trade.exchangeOrderId trade)
           (World.db w) = Some s
         /\ World.lastBalances (snd (handle trade w)) = World.lastBalances w
         /\ World.db (snd (handle trade w))
            = Db.updateSubOrder
                (DbSubOrder.set_status
                   (DbSubOrder.set_filledAmount s (Trade.amount trade))
                   (Trade.status trade))
                (if BN.gt (Trade.amount trade) (BN.ofZ 0)
                 then Db.insertTrade trade (World.db w)
                 else World.db w)).
  { destruct (Db.getSubOrder (Trade.exchange trade) (Trade.exchangeOrderId trade)
                (World.db w)) as [s|] eqn:Hs.
    - destruct (Trade.status trade) eqn:Hst;
        try (left; rewrite onTrade_skips; [reflexivity|];
             right; rewrite Hst; split; discriminate).
      + destruct (BN.eq (DbSubOrder.amount s) (Trade.amount trade)) eqn:Heq.
        * right. exists s. split; [reflexivity|]. split.
          -- pose proof (onCheckSubOrder_world orionBlockchain symbolToAddresses
                           nameToAddress
                             web3_packed signTypedMessage BigNumber_toString)
               as Hworld.
             unfold onTrade.
             set (chk := onCheckSubOrder orionBlockchain symbolToAddresses
                           nameToAddress
                             web3_packed signTypedMessage BigNumber_toString) in *.
             clearbody chk.
             unfold try_log, bind, reads, writeDb, emit, modify, ret.
             cbn -[BN.gt]. rewrite Hs, Hst, Heq. cbn -[BN.gt].
             destruct (BN.gt (Trade.amount trade) (BN.ofZ 0)); cbn -[BN.gt];
               match goal with
               | |- context [chk ?i ?w1] =>
                   specialize (Hworld i w1);
                   destruct (chk i w1) as [[st|msg] w2]; cbn in Hworld; subst w2;
                   reflexivity
               end.
          -- rewrite <- Hst. apply onTrade_store; [exact Hs|].
             left. now split.
        * left.
          unfold onTrade, try_log, bind, reads, throw. cbn.
          now rewrite Hs, Hst, Heq.
      + right. exists s. split; [reflexivity|]. split.
        -- pose proof (onCheckSubOrder_world orionBlockchain symbolToAddresses
                         nameToAddress
                           web3_packed signTypedMessage BigNumber_toString)
             as Hworld.
           unfold onTrade.
           set (chk := onCheckSubOrder orionBlockchain symbolToAddresses
                         nameToAddress
                           web3_packed signTypedMessage BigNumber_toString) in *.
           clearbody chk.
           unfold try_log, bind, reads, writeDb, emit, modify, ret.
           cbn -[BN.gt]. rewrite Hs, Hst. cbn -[BN.gt].
           destruct (BN.gt (Trade.amount trade) (BN.ofZ 0)); cbn -[BN.gt];
             match goal with
             | |- context [chk ?i ?w1] =>
                 specialize (Hworld i w1);
                 destruct (chk i w1) as [[st|msg] w2]; cbn in Hworld; subst w2;
                 reflexivity
             end.
        -- rewrite <- Hst. apply onTrade_store; [exact Hs|]. now right.
    - left. rewrite onTrade_skips; [reflexivity | now left]. }
  destruct Hcases as [-> | (s & Hs & Hlb & Hdb)].
  - repeat split; auto.
  - rewrite Hdb, Hlb. split; [|split; [|split]].
    + rewrite updateSubOrder_ids.
      now destruct (BN.gt (Trade.amount trade) (BN.ofZ 0)).
    + intros s0 id Hs0 Hne. rewrite Hs0 in Hs. injection Hs as <-.
      rewrite updateSubOrder_other by exact Hne.
      now destruct (BN.gt (Trade.amount trade) (BN.ofZ 0)).
    + destruct (BN.gt (Trade.amount trade) (BN.ofZ 0)); [now right | now left].
    + destruct (BN.gt (Trade.amount trade) (BN.ofZ 0)); repeat split.
Qed.


End TradeEvents.


(** The theorem before scenario S1: no sub-order is stored and the trade
    is dropped. *)
Lemma onTrade_refuses_witness :
  Db.getSubOrder "X" "e1" (World.db Scenario.world0) = None
  /\ Scenario.onTrade Scenario.trade1 Scenario.world0 = (Ok tt, Scenario.world0).
Proof.
  assert (Hnone : Db.getSubOrder (Trade.exchange Scenario.trade1)
                    (Trade.exchangeOrderId Scenario.trade1)
                    (World.db Scenario.world0) = None)
    by (vm_compute; reflexivity).
  split; [exact Hnone|].
  exact (onTrade_refuses Scenario.orionBlockchain Scenario.symbolToAddresses
           Scenario.nameToAddress Scenario.web3_packed Scenario.signTypedMessage
           Scenario.BigNumber_toString Scenario.world0 Scenario.trade1
           (or_introl Hnone)).
Defined.

(** The theorem at scenario S1: the fill of sub-order 1 leaves what is
    stored for id 2 alone. *)
Lemma onTrade_frame_witness :
  Db.getSubOrder "X" "e1" (World.db Scenario.world1) = Some Scenario.subOrder1Accepted
  /\ Db.getSubOrderById 2 (World.db Scenario.world2)
     = Db.getSubOrderById 2 (World.db Scenario.world1).
Proof.
  assert (Hs : Db.getSubOrder (Trade.exchange Scenario.trade1)
                 (Trade.exchangeOrderId Scenario.trade1)
                 (World.db Scenario.world1) = Some Scenario.subOrder1Accepted)
    by (vm_compute; reflexivity).
  split; [exact Hs|].
  destruct (onTrade_frame Scenario.orionBlockchain Scenario.symbolToAddresses
              Scenario.nameToAddress
                Scenario.web3_packed Scenario.signTypedMessage
              Scenario.BigNumber_toString Scenario.world1 Scenario.trade1)
    as (_ & H & _).
  apply (H Scenario.subOrder1Accepted 2 Hs). cbn. lia.
Defined.


(** ** Balance updates *)

Lemma get_mapValues {A B} (f : A -> B) (o : Dictionary A) (k : string) :
  Dict.get (mapValues f o) k = option_map f (Dict.get o k).
Proof.
  induction o as [|[k' v] rest IH]; [reflexivity|]. cbn.
  destruct (String.eqb k' k); [reflexivity | exact IH].
Qed.

Lemma set_mapValues {A B} (f : A -> B) (o : Dictionary A) (k : string) (v : A) :
  Dict.set (mapValues f o) k (f v) = mapValues f (Dict.set o k v).
Proof.
  unfold mapValues.
  induction o as [|[k' v'] rest IH]; [reflexivity|].
  cbn [map Dict.set fst snd].
  destruct (String.eqb k' k); [reflexivity|].
  cbn [map fst snd]. now rewrite IH.
Qed.

Lemma set2_printed (toString : BigNumber -> string)
    (o : Dictionary (Dictionary BigNumber)) (k1 k2 : string) (v : BigNumber) :
  set2 (printed toString o) k1 k2 (toString v) = printed toString (set2 o k1 k2 v).
Proof.
  unfold set2, printed. rewrite get_mapValues.
  destruct (Dict.get o k1) as [inner|]; [|reflexivity]. cbn.
  rewrite set_mapValues. apply set_mapValues.
Qed.

Section BalanceUpdates.

Variable BigNumber_toString : BigNumber -> string.
Variable JSON_stringify : Dictionary (Dictionary string) -> string.
Variable brokerHub_sendBalances :
  nat -> Dictionary (Dictionary string) -> result unit.

Local Abbreviation send :=
  (sendUpdateBalance BigNumber_toString JSON_stringify brokerHub_sendBalances).

Lemma copyCurrency_printed (exchange : string) (result : Dictionary BigNumber)
    (cs : list string) :
  forall acc,
    fst acc = printed BigNumber_toString (snd acc) ->
    fst (fold_left (copyCurrency BigNumber_toString exchange result) cs acc)
    = printed BigNumber_toString
        (snd (fold_left (copyCurrency BigNumber_toString exchange result) cs acc)).
Proof.
  induction cs as [|c rest IH]; intros acc Hacc; [exact Hacc|].
  cbn [fold_left]. apply IH. unfold copyCurrency.
  destruct (Dict.get result c) as [v|]; [|exact Hacc].
  cbn [fst snd]. rewrite Hacc. apply set2_printed.
Qed.

Lemma copyExchange_printed
    (balances : Dictionary (ExchangeResolve.t (Dictionary BigNumber)))
    (exchanges : list string) :
  forall acc,
    fst acc = printed BigNumber_toString (snd acc) ->
    fst (fold_left (copyExchange BigNumber_toString balances) exchanges acc)
    = printed BigNumber_toString
        (snd (fold_left (copyExchange BigNumber_toString balances) exchanges acc)).
Proof.
  induction exchanges as [|e rest IH]; intros acc Hacc; [exact Hacc|].
  cbn [fold_left]. apply IH. unfold copyExchange.
  destruct (Dict.get balances e) as [polled|]; [|exact Hacc].
  destruct (str_truthy (ExchangeResolve.error polled)); [exact Hacc|].
  assert (Hset : Dict.set (fst acc) e []
                 = printed BigNumber_toString (Dict.set (snd acc) e [])).
  { rewrite Hacc. unfold printed.
    exact (set_mapValues (mapValues BigNumber_toString) (snd acc) e []). }
  destruct (ExchangeResolve.result polled) as [result|]; [|exact Hset].
  apply copyCurrency_printed. exact Hset.
Qed.

(** What [sendUpdateBalance] changes, by the snapshot it leaves. *)
Lemma sendUpdateBalance_world
    (balances : Dictionary (ExchangeResolve.t (Dictionary BigNumber)))
    (w : World.t) :
  let snapshot :=
    snd (fold_left (copyExchange BigNumber_toString balances)
           (Dict.keys balances) ([], [])) in
  let payload := printed BigNumber_toString snapshot in
  let json := JSON_stringify payload in
  let sent :=
    World.mk (World.db w) snapshot (World.now w) (World.requests w) json
      (World.hub_lastBalancesJson w)
      (World.trace w ++ [BrokerHub_sendBalances payload]) in
  send balances w
  = if String.eqb (World.hub_lastBalancesJson w) json
    then (Ok tt, World.set_lastBalances w snapshot)
    else
      match brokerHub_sendBalances (List.length (World.trace w)) payload with
      | Ok _ => (Ok tt, World.set_hub_lastBalancesJson sent json)
      | Throw msg => (Throw msg, sent)
      end.
Proof.
  intros snapshot payload json sent. unfold sent, json, payload, snapshot.
  rewrite <- (copyExchange_printed balances (Dict.keys balances) ([], []) eq_refl).
  unfold sendUpdateBalance, sendBalances, bind, modify, reads, ret, emit, lift.
  cbn.
  destruct (String.eqb (World.hub_lastBalancesJson w) _); [reflexivity|].
  now destruct (brokerHub_sendBalances _ _).
Qed.

(** X10. [sendUpdateBalance] leaves the store alone. What it would send
    is the new snapshot with every balance printed, venues and
    currencies in the same order. When the hub's last JSON is that of
    this payload nothing is sent, the call returns and both JSON copies
    stay. Otherwise the web UI's copy becomes the payload's JSON, the
    payload is sent once, and the call ends as the send does: when the
    hub takes the payload the call returns and the hub's last JSON
    becomes the payload's; when the send fails the call throws and the
    hub's last JSON stays as it was. *)
Theorem sendUpdateBalance_sends_printed_snapshot
    (balances : Dictionary (ExchangeResolve.t (Dictionary BigNumber)))
    (w : World.t) :
  let w' := snd (send balances w) in
  let payload := printed BigNumber_toString (World.lastBalances w') in
  let sending := brokerHub_sendBalances (List.length (World.trace w)) payload in
  World.db w' = World.db w
  /\ (World.hub_lastBalancesJson w = JSON_stringify payload ->
      fst (send balances w) = Ok tt
      /\ World.trace w' = World.trace w
      /\ World.hub_lastBalancesJson w' = World.hub_lastBalancesJson w
      /\ World.webUI_lastBalancesJson w' = World.webUI_lastBalancesJson w)
  /\ (World.hub_lastBalancesJson w <> JSON_stringify payload ->
      World.trace w' = World.trace w ++ [BrokerHub_sendBalances payload]
      /\ World.webUI_lastBalancesJson w' = JSON_stringify payload
      /\ fst (send balances w) = sending
      /\ World.hub_lastBalancesJson w'
         = match sending with
           | Ok _ => JSON_stringify payload
           | Throw _ => World.hub_lastBalancesJson w
           end).
Proof.
  intros w' payload sending. unfold sending, payload, w'. clear w' payload sending.
  rewrite sendUpdateBalance_world. cbn zeta.
  destruct (String.eqb (World.hub_lastBalancesJson w) _) eqn:E.
  - apply String.eqb_eq in E. cbn.
    split; [reflexivity|].
    split; [now intros _ | intros Hne; now elim Hne].
  - apply String.eqb_neq in E.
    destruct (brokerHub_sendBalances _ _) as [[]|msg] eqn:Hsend;
      cbn -[printed]; rewrite Hsend;
      (split; [reflexivity|]);
      (split; [intros He; now elim E | now intros _]).
Qed.

(** X11. After a [sendUpdateBalance] that returned, a second one with
    the same balances sends nothing, returns and leaves the world as the
    first one left it. After one that threw, because the send failed,
    the second one sends the same payload again. *)
Theorem sendUpdateBalance_twice
    (balances : Dictionary (ExchangeResolve.t (Dictionary BigNumber)))
    (w : World.t) :
  let w1 := snd (send balances w) in
  let payload := printed BigNumber_toString (World.lastBalances w1) in
  (fst (send balances w) = Ok tt -> send balances w1 = (Ok tt, w1))
  /\ (forall msg,
        fst (send balances w) = Throw msg ->
        World.trace (snd (send balances w1))
        = World.trace w
          ++ [BrokerHub_sendBalances payload; BrokerHub_sendBalances payload]).
Proof.
  intros w1 payload. unfold payload, w1. clear w1 payload.
  rewrite (sendUpdateBalance_world balances w). cbn zeta.
  destruct (String.eqb (World.hub_lastBalancesJson w) _) eqn:E.
  - split; [intros _ | discriminate].
    rewrite sendUpdateBalance_world. cbn. now rewrite E.
  - destruct (brokerHub_sendBalances _ _) as [[]|msg] eqn:Hsend; cbn [fst snd].
    + split; [intros _ | discriminate].
      rewrite sendUpdateBalance_world. cbn. now rewrite String.eqb_refl.
    + split; [discriminate | intros msg' _].
      rewrite sendUpdateBalance_world. cbn -[printed]. rewrite E. clear Hsend.
      destruct (brokerHub_sendBalances _ _); cbn -[printed];
        now rewrite <- app_assoc.
Qed.

End BalanceUpdates.

(** The theorem at a poll in which venue X answered and venue Y failed,
    while the hub had an empty snapshot: one payload is sent, and the
    hub takes it. *)
Lemma sendUpdateBalance_sends_printed_snapshot_witness :
  World.hub_lastBalancesJson Scenario.world0
  <> Scenario.JSON_stringify
       (printed Scenario.BigNumber_toString
          (World.lastBalances
             (snd (Scenario.sendUpdateBalance Scenario.balances1 Scenario.world0))))
  /\ World.trace (snd (Scenario.sendUpdateBalance Scenario.balances1 Scenario.world0))
     = [BrokerHub_sendBalances [("X", [("USDT", "200"); ("BTC", "1")])]]
  /\ fst (Scenario.sendUpdateBalance Scenario.balances1 Scenario.world0) = Ok tt.
Proof.
  assert (Hnew : World.hub_lastBalancesJson Scenario.world0
                 <> Scenario.JSON_stringify
                      (printed Scenario.BigNumber_toString
                         (World.lastBalances
                            (snd (Scenario.sendUpdateBalance Scenario.balances1
                                    Scenario.world0)))))
    by (vm_compute; discriminate).
  split; [exact Hnew|].
  destruct (sendUpdateBalance_sends_printed_snapshot Scenario.BigNumber_toString
              Scenario.JSON_stringify Scenario.brokerHub_sendBalances
              Scenario.balances1 Scenario.world0)
    as (_ & _ & H).
  destruct (H Hnew) as (Htrace & _ & Hfst & _).
  unfold Scenario.sendUpdateBalance. rewrite Htrace, Hfst.
  split; vm_compute; reflexivity.
Defined.

(** The theorem at the same poll, once with a hub that takes the payload
    and once with a hub whose first send fails: the second call sends
    nothing in the first run and the payload again in the second. *)
Lemma sendUpdateBalance_twice_witness :
  (let w1 := snd (Scenario.sendUpdateBalance Scenario.balances1 Scenario.world0) in
   Scenario.sendUpdateBalance Scenario.balances1 w1 = (Ok tt, w1))
  /\ (let send :=
        sendUpdateBalance Scenario.BigNumber_toString Scenario.JSON_stringify
          Polls.brokerHub_down Scenario.balances1 in
      fst (send Scenario.world0) = Throw "hub down"
      /\ World.trace (snd (send (snd (send Scenario.world0))))
         = [BrokerHub_sendBalances [("X", [("USDT", "200"); ("BTC", "1")])];
            BrokerHub_sendBalances [("X", [("USDT", "200"); ("BTC", "1")])]]).
Proof.
  split.
  - apply (sendUpdateBalance_twice Scenario.BigNumber_toString
             Scenario.JSON_stringify Scenario.brokerHub_sendBalances
             Scenario.balances1 Scenario.world0).
    vm_compute. reflexivity.
  - cbn zeta. split; [vm_compute; reflexivity|].
    destruct (sendUpdateBalance_twice Scenario.BigNumber_toString
                Scenario.JSON_stringify Polls.brokerHub_down
                Scenario.balances1 Scenario.world0) as [_ H].
    rewrite (H "hub down"%string) by (vm_compute; reflexivity).
    vm_compute. reflexivity.
Defined.

(** ** Deposits, withdrawals and liability ticks *)

Section Funding.

Variable duePeriodSeconds : Z.
Variable orionBlockchain : OrionBlockchain.t.
Variable connector_getConnector : string -> result Connector.t.
Variable connector_hasWithdraw : string -> result bool.
Variable connector_withdraw :
  string -> string -> BigNumber -> string -> result (option string).
Variable gateway_getWalletBalance : nat -> result (Dictionary BigNumber).
Variable gateway_getAllowance : nat -> string -> result BigNumber.
Variable gateway_depositETH : nat -> BigNumber -> result string.
Variable gateway_depositERC20 : nat -> BigNumber -> string -> result string.

Local Abbreviation depositOf :=
  (deposit gateway_getWalletBalance gateway_getAllowance gateway_depositETH
     gateway_depositERC20).
Local Abbreviation withdrawOf :=
  (exchangeWithdraw orionBlockchain connector_hasWithdraw connector_withdraw).
Local Abbreviation manage :=
  (manageLiability duePeriodSeconds orionBlockchain connector_getConnector
     connector_hasWithdraw connector_withdraw gateway_getWalletBalance
     gateway_getAllowance gateway_depositETH gateway_depositERC20).

Ltac split_cases :=
  repeat match goal with
         | |- context [match ?x with _ => _ end] =>
             lazymatch x with
             | context [match _ with _ => _ end] => fail
             | _ => destruct x eqn:?; cbn
             end
         end.

Lemma app_one_neq {A} (l : list A) (x : A) : l ++ [x] <> l.
Proof.
  intros H. apply (f_equal (@List.length A)) in H.
  rewrite length_app in H. cbn in H. lia.
Qed.

(** X12. [exchangeWithdraw] changes the store exactly when the venue
    supports withdrawals and the adapter returns a non-empty id; it then
    adds one pending withdrawal with that id, the venue, the asset and
    the amount. The adapter is asked at most once, and not at all (the
    world stays as it was) when the venue does not support
    withdrawals. *)
Theorem exchangeWithdraw_records (exchange : string) (amount : BigNumber)
    (assetName : string) (w : World.t) :
  let w' := snd (withdrawOf exchange amount assetName w) in
  let address := OrionBlockchain.address orionBlockchain in
  (World.db w' <> World.db w
   <-> exists id,
         connector_hasWithdraw exchange = Ok true
         /\ connector_withdraw exchange assetName amount address = Ok (Some id)
         /\ id <> EmptyString)
  /\ (forall id,
        connector_hasWithdraw exchange = Ok true ->
        connector_withdraw exchange assetName amount address = Ok (Some id) ->
        id <> EmptyString ->
        World.db w'
        = Db.insertWithdraw
            {| Withdraw.exchangeWithdrawId := id;
               Withdraw.exchange := exchange;
               Withdraw.currency := assetName;
               Withdraw.amount := amount;
               Withdraw.status := Withdraw.pending |} (World.db w))
  /\ (World.trace w' = World.trace w
      \/ World.trace w'
         = World.trace w ++ [Connectors_withdraw exchange assetName amount address])
  /\ (connector_hasWithdraw exchange <> Ok true -> w' = w).
Proof.
  intros w' address. unfold w', address. clear w' address.
  unfold exchangeWithdraw, bind, lift, ret, emit, writeDb, modify.
  destruct (connector_hasWithdraw exchange) as [[|]|msg] eqn:Hhas; cbn.
  - destruct (connector_withdraw exchange assetName amount
                (OrionBlockchain.address orionBlockchain)) as [[id|]|msg] eqn:Hw;
      cbn.
    + destruct id as [|c rest]; cbn.
      * split; [|split; [|split]].
        -- split; [intros H; now elim H|].
           intros (id & _ & Hid & Hne). congruence.
        -- intros id _ Hid Hne. congruence.
        -- now right.
        -- intros H. now elim H.
      * split; [|split; [|split]].
        -- split.
           ++ intros _. exists (String c rest). repeat split. discriminate.
           ++ intros _ H. unfold Db.insertWithdraw in H.
              apply (f_equal Db.withdraws) in H. cbn in H.
              exact (app_one_neq _ _ H).
        -- intros id _ Hid _. now injection Hid as <-.
        -- now right.
        -- intros H. now elim H.
    + split; [|split; [|split]].
      * split; [intros H; now elim H|].
        intros (id & _ & Hid & Hne). discriminate.
      * intros id _ Hid. discriminate.
      * now right.
      * intros H. now elim H.
    + split; [|split; [|split]].
      * split; [intros H; now elim H|].
        intros (id & _ & Hid & Hne). discriminate.
      * intros id _ Hid. discriminate.
      * now right.
      * intros H. now elim H.
  - split; [|split; [|split]].
    + split; [intros H; now elim H|].
      intros (id & Hid & _). discriminate.
    + intros id Hid. discriminate.
    + now left.
    + reflexivity.
  - split; [|split; [|split]].
    + split; [intros H; now elim H|].
      intros (id & Hid & _). discriminate.
    + intros id Hid. discriminate.
    + now left.
    + reflexivity.
Qed.

(** X13. [deposit] changes the store only when the wallet's balance of
    the asset is not below the amount and, for an asset other than ETH,
    the allowance is at least the amount, and the gateway took the
    deposit: then one deposit call went out and the transaction stored
    is PENDING, for that asset and amount, created at the time of the
    call. *)
Theorem deposit_posts_only_when_covered (amount : BigNumber) (assetName : string)
    (w : World.t) :
  let w' := snd (depositOf amount assetName w) in
  let n := World.requests w in
  World.db w' <> World.db w ->
  exists balance assetBalance hash,
    gateway_getWalletBalance n = Ok balance
    /\ Dict.get balance assetName = Some assetBalance
    /\ BN.lt assetBalance amount = false
    /\ (assetName = "ETH"%string
        /\ gateway_depositETH (S n) amount = Ok hash
        /\ World.trace w' = World.trace w ++ [OrionBlockchain_depositETH amount]
        \/ assetName <> "ETH"%string
           /\ (exists allowance,
                 gateway_getAllowance (S n) assetName = Ok allowance
                 /\ BN.gte allowance amount = true)
           /\ gateway_depositERC20 (S (S n)) amount assetName = Ok hash
           /\ World.trace w'
              = World.trace w ++ [OrionBlockchain_depositERC20 amount assetName])
    /\ World.db w'
       = Db.insetTransaction
           {| Transaction.transactionHash := hash;
              Transaction.method :=
                if String.eqb assetName "ETH" then "deposit" else "depositAsset";
              Transaction.asset := assetName;
              Transaction.amount := amount;
              Transaction.createTime := World.now w;
              Transaction.status := Transaction.PENDING |} (World.db w).
Proof.
  intros w' n. unfold w', n. clear w' n.
  unfold deposit, getWalletBalance, getAllowance, depositETH, depositERC20,
    request, bind, reads, ret, throw, emit, writeDb, modify.
  cbn -[BN.lt BN.gte].
  destruct (gateway_getWalletBalance (World.requests w)) as [balance|msg]
    eqn:Hbalance; cbn -[BN.lt BN.gte]; [|intros H; now elim H].
  destruct (Dict.get balance assetName) as [assetBalance|] eqn:Hasset;
    cbn -[BN.lt BN.gte]; [|intros H; now elim H].
  destruct (BN.lt assetBalance amount) eqn:Hlt;
    cbn -[BN.lt BN.gte]; [intros H; now elim H|].
  destruct (String.eqb assetName "ETH") eqn:Heth; cbn -[BN.lt BN.gte].
  - apply String.eqb_eq in Heth.
    destruct (gateway_depositETH (S (World.requests w)) amount) as [hash|msg]
      eqn:Hpost; cbn -[BN.lt BN.gte]; [|intros H; now elim H].
    intros _. exists balance, assetBalance, hash.
    split; [first [reflexivity | exact Hbalance]|].
    split; [exact Hasset|]. split; [first [reflexivity | exact Hlt]|]. split.
    + left. subst assetName. now repeat split.
    + now subst assetName.
  - apply String.eqb_neq in Heth.
    destruct (gateway_getAllowance (S (World.requests w)) assetName)
      as [allowance|msg] eqn:Hallow; cbn -[BN.lt BN.gte]; [|intros H; now elim H].
    destruct (BN.gte allowance amount) eqn:Hgte; cbn -[BN.lt BN.gte];
      [|intros H; now elim H].
    destruct (gateway_depositERC20 (S (S (World.requests w))) amount assetName)
      as [hash|msg] eqn:Hpost; cbn -[BN.lt BN.gte]; [|intros H; now elim H].
    intros _. exists balance, assetBalance, hash.
    split; [first [reflexivity | exact Hbalance]|].
    split; [exact Hasset|]. split; [first [reflexivity | exact Hlt]|]. split.
    + right. split; [exact Heth|]. split; [now exists allowance|]. now split.
    + reflexivity.
Qed.

(** X14. With at most 0.045 ETH in the wallet a liability tick stores
    nothing and makes no outgoing call, whatever the liability. *)
Theorem manageLiability_needs_gas (liability : Liability.t) (w : World.t)
    (balance : Dictionary BigNumber) (ethBalance : Q) :
  gateway_getWalletBalance (World.requests w) = Ok balance ->
  Dict.get balance "ETH" = Some (BFin ethBalance) ->
  (ethBalance <= 45 # 1000)%Q ->
  World.db (snd (manage liability w)) = World.db w
  /\ World.trace (snd (manage liability w)) = World.trace w.
Proof.
  intros Hbalance Heth Hle.
  assert (Hgt : BN.gt (BFin ethBalance) (BFin (45 # 1000)) = false).
  { unfold BN.gt, BN.lt. apply negb_false_iff. now apply Qle_bool_iff. }
  unfold manageLiability.
  set (dep := deposit gateway_getWalletBalance gateway_getAllowance
                gateway_depositETH gateway_depositERC20).
  set (wd := exchangeWithdraw orionBlockchain connector_hasWithdraw
               connector_withdraw).
  clearbody dep wd.
  unfold getExchangeForWithdraw, getWalletBalance, request, bind, reads,
    ret, throw.
  cbn -[BN.gt Qlt_bool BN.gte BN.minus fromWei8 Nat.ltb].
  destruct (BN.gt (Liability.outstandingAmount liability) (BN.ofZ 0)
            && Qlt_bool _ _); [|now split].
  cbn -[BN.gt Qlt_bool BN.gte BN.minus fromWei8 Nat.ltb].
  destruct (0 <? List.length (Db.getPendingTransactions (World.db w)))%nat;
    [now split|].
  destruct (0 <? List.length (Db.getWithdrawsToCheck (World.db w)))%nat;
    [now split|].
  rewrite Hbalance, Heth.
  cbn -[BN.gt Qlt_bool BN.gte BN.minus fromWei8 Nat.ltb].
  destruct (Dict.get balance (Liability.assetName liability)) as [assetBalance|];
    [|now split].
  destruct (BN.isNaN assetBalance); [now split|].
  cbn -[BN.gt Qlt_bool BN.gte BN.minus fromWei8 Nat.ltb].
  rewrite Hgt. now split.
Qed.

Lemma manageLiability_frame (liability : Liability.t) (w : World.t) :
  liabilityFrame w (snd (manage liability w)).
Proof.
  pose proof (deposit_frame gateway_getWalletBalance gateway_getAllowance
                gateway_depositETH gateway_depositERC20) as Hdep.
  pose proof (exchangeWithdraw_frame orionBlockchain connector_hasWithdraw
                connector_withdraw) as Hwd.
  unfold manageLiability.
  set (dep := deposit gateway_getWalletBalance gateway_getAllowance
                gateway_depositETH gateway_depositERC20) in *.
  set (wd := exchangeWithdraw orionBlockchain connector_hasWithdraw
               connector_withdraw) in *.
  clearbody dep wd.
  unfold getExchangeForWithdraw, getWalletBalance, request, bind, reads,
    ret, throw.
  cbn -[BN.gt Qlt_bool BN.gte BN.minus fromWei8].
  split_cases;
    first
      [ apply liabilityFrame_refl
      | eapply liabilityFrame_quiet; [| | apply liabilityFrame_refl]; reflexivity
      | eapply liabilityFrame_quiet; [| | apply Hdep]; reflexivity
      | eapply liabilityFrame_quiet; [| | apply Hwd]; reflexivity ].
Qed.

Lemma manageLiability_waits (liability : Liability.t) (w : World.t) :
  (0 <? List.length (Db.getPendingTransactions (World.db w)))%nat = true
  \/ (0 <? List.length (Db.getWithdrawsToCheck (World.db w)))%nat = true ->
  manage liability w = (Ok tt, w).
Proof.
  intros Hopen.
  unfold manageLiability, bind, reads, ret. cbn -[BN.gt Qlt_bool Nat.ltb].
  destruct (BN.gt (Liability.outstandingAmount liability) (BN.ofZ 0)
            && Qlt_bool _ _); [|reflexivity].
  cbn -[Nat.ltb].
  destruct (0 <? List.length (Db.getPendingTransactions (World.db w)))%nat;
    [reflexivity|].
  destruct Hopen as [Hopen | Hopen]; [discriminate|]. now rewrite Hopen.
Qed.

(** X15. A liability tick that changed the store blocks the next one:
    straight after it, a tick for any liability returns at the guard and
    changes nothing. *)
Theorem manageLiability_one_at_a_time (liability next : Liability.t) (w : World.t) :
  let w' := snd (manage liability w) in
  World.db w' <> World.db w ->
  manage next w' = (Ok tt, w').
Proof.
  intros w' Hchanged. apply manageLiability_waits.
  destruct (manageLiability_frame liability w) as (Hs & Ht & _ & Hstore).
  fold w' in Hs, Ht, Hstore.
  destruct Hstore as [[Htx Hwd] | [[(tx & Htx & Hst) Hwd] | [Htx (wd & Hwd & Hst)]]].
  - elim Hchanged.
    destruct (World.db w'), (World.db w). cbn in *. congruence.
  - left. apply (pending_transaction_found _ tx); [|exact Hst].
    rewrite Htx. apply in_or_app. right. now left.
  - right. apply (pending_withdraw_found _ wd); [|exact Hst].
    rewrite Hwd. apply in_or_app. right. now left.
Qed.

End Funding.


(** The theorem at scenario S6: venue X returns the withdrawal id
    [w1]. *)
Lemma exchangeWithdraw_records_witness :
  Scenario.connector_withdraw "X" "USDT" (BN.ofZ 101)
    (OrionBlockchain.address Scenario.orionBlockchain) = Ok (Some "w1")
  /\ World.db (snd (exchangeWithdraw Scenario.orionBlockchain
                      Scenario.connector_hasWithdraw Scenario.connector_withdraw
                      "X" (BN.ofZ 101) "USDT" Scenario.worldS6))
     = Db.insertWithdraw
         {| Withdraw.exchangeWithdrawId := "w1";
            Withdraw.exchange := "X";
            Withdraw.currency := "USDT";
            Withdraw.amount := BN.ofZ 101;
            Withdraw.status := Withdraw.pending |} (World.db Scenario.worldS6).
Proof.
  split; [reflexivity|].
  destruct (exchangeWithdraw_records Scenario.orionBlockchain
              Scenario.connector_hasWithdraw Scenario.connector_withdraw
              "X" (BN.ofZ 101) "USDT" Scenario.worldS6) as (_ & H & _).
  apply (H "w1"); [reflexivity | reflexivity | discriminate].
Defined.

(** The theorem at scenario S5: the wallet holds 200 USDT and 100 USDT
    are deposited. *)
Lemma deposit_posts_only_when_covered_witness :
  World.db (snd (deposit (Scenario.gateway_getWalletBalance 200)
                   Scenario.gateway_getAllowance Scenario.gateway_depositETH
                   Scenario.gateway_depositERC20 (BN.ofZ 100) "USDT"
                   Scenario.world0))
  <> World.db Scenario.world0
  /\ exists hash,
       World.db (snd (deposit (Scenario.gateway_getWalletBalance 200)
                        Scenario.gateway_getAllowance Scenario.gateway_depositETH
                        Scenario.gateway_depositERC20 (BN.ofZ 100) "USDT"
                        Scenario.world0))
       = Db.insetTransaction
           {| Transaction.transactionHash := hash;
              Transaction.method := "depositAsset";
              Transaction.asset := "USDT";
              Transaction.amount := BN.ofZ 100;
              Transaction.createTime := World.now Scenario.world0;
              Transaction.status := Transaction.PENDING |}
           (World.db Scenario.world0).
Proof.
  assert (Hchanged :
    World.db (snd (deposit (Scenario.gateway_getWalletBalance 200)
                     Scenario.gateway_getAllowance Scenario.gateway_depositETH
                     Scenario.gateway_depositERC20 (BN.ofZ 100) "USDT"
                     Scenario.world0))
    <> World.db Scenario.world0) by (vm_compute; discriminate).
  split; [exact Hchanged|].
  destruct (deposit_posts_only_when_covered (Scenario.gateway_getWalletBalance 200)
              Scenario.gateway_getAllowance Scenario.gateway_depositETH
              Scenario.gateway_depositERC20 (BN.ofZ 100) "USDT" Scenario.world0
              Hchanged) as (_ & _ & hash & _ & _ & _ & _ & Hdb).
  exists hash. exact Hdb.
Defined.

(** The theorem for a wallet with 0.01 ETH: the liability of scenario S5
    is overdue and the wallet has the USDT, and still nothing is done. *)
Lemma manageLiability_needs_gas_witness :
  (1 # 100 <= 45 # 1000)%Q
  /\ World.db (snd (manageLiability Scenario.duePeriodSeconds
                      Scenario.orionBlockchain Scenario.connector_getConnector
                      Scenario.connector_hasWithdraw Scenario.connector_withdraw
                      Polls.gateway_lowGas Scenario.gateway_getAllowance
                      Scenario.gateway_depositETH Scenario.gateway_depositERC20
                      Scenario.liability1 Scenario.worldS6))
     = World.db Scenario.worldS6
  /\ World.trace (snd (manageLiability Scenario.duePeriodSeconds
                         Scenario.orionBlockchain Scenario.connector_getConnector
                         Scenario.connector_hasWithdraw Scenario.connector_withdraw
                         Polls.gateway_lowGas Scenario.gateway_getAllowance
                         Scenario.gateway_depositETH Scenario.gateway_depositERC20
                         Scenario.liability1 Scenario.worldS6))
     = World.trace Scenario.worldS6.
Proof.
  assert (Hlow : (1 # 100 <= 45 # 1000)%Q) by (unfold Qle; simpl; lia).
  split; [exact Hlow|].
  exact (manageLiability_needs_gas Scenario.duePeriodSeconds
           Scenario.orionBlockchain Scenario.connector_getConnector
           Scenario.connector_hasWithdraw Scenario.connector_withdraw
           Polls.gateway_lowGas Scenario.gateway_getAllowance
           Scenario.gateway_depositETH Scenario.gateway_depositERC20
           Scenario.liability1 Scenario.worldS6
           [("USDT", BN.ofZ 1000); ("ETH", BFin (1 # 100))] (1 # 100)
           eq_refl eq_refl Hlow).
Defined.

(** The theorem at scenario S5: the tick deposits, and the same
    liability straight after it does nothing. *)
Lemma manageLiability_one_at_a_time_witness :
  World.db (snd (Scenario.manageLiability 200 Scenario.liability1 Scenario.worldS6))
  <> World.db Scenario.worldS6
  /\ Scenario.manageLiability 200 Scenario.liability1
       (snd (Scenario.manageLiability 200 Scenario.liability1 Scenario.worldS6))
     = (Ok tt,
        snd (Scenario.manageLiability 200 Scenario.liability1 Scenario.worldS6)).
Proof.
  assert (Hchanged :
    World.db (snd (Scenario.manageLiability 200 Scenario.liability1
                     Scenario.worldS6))
    <> World.db Scenario.worldS6) by (vm_compute; discriminate).
  split; [exact Hchanged|].
  exact (manageLiability_one_at_a_time Scenario.duePeriodSeconds
           Scenario.orionBlockchain Scenario.connector_getConnector
           Scenario.connector_hasWithdraw Scenario.connector_withdraw
           (Scenario.gateway_getWalletBalance 200) Scenario.gateway_getAllowance
           Scenario.gateway_depositETH Scenario.gateway_depositERC20
           Scenario.liability1 Scenario.liability1 Scenario.worldS6 Hchanged).
Defined.

(** ** Hashes and signatures out of range *)

Lemma toBytesBE_negative (v : Z) :
  - 2 ^ 63 < v < 0 ->
  map Hex.byte_of_Z (Long.toBytesBE (Long.fromNumber (Num v)))
  = bigEndian 8 (v + 2 ^ 64).
Proof.
  intros Hv. unfold Long.fromNumber.
  destruct (v <=? - Long.TWO_PWR_63_DBL) eqn:E1.
  { apply Z.leb_le in E1. unfold Long.TWO_PWR_63_DBL in E1. lia. }
  destruct (Long.TWO_PWR_63_DBL <=? v + 1) eqn:E2.
  { apply Z.leb_le in E2. unfold Long.TWO_PWR_63_DBL in E2. lia. }
  destruct (v <? 0) eqn:E3; [|apply Z.ltb_ge in E3; lia].
  unfold Long.neg, Long.bits, Long.fromNonNegative, Long.toBytesBE,
    Long.TWO_PWR_32_DBL.
  cbn [Long.low Long.high map bigEndian app].
  rewrite !Z.shiftr_div_pow2 by lia.
  change 0xff with (Z.ones 8). rewrite !Z.land_ones by lia.
  unfold Long.toUint32, Long.toInt32.
  repeat (f_equal; [apply byte_of_Z_mod; Z.div_mod_to_equations; lia|]).
  f_equal. apply byte_of_Z_mod. Z.div_mod_to_equations. lia.
Qed.

Lemma longToHex_clamp64 (n : number) : longToHex n = longToHex (Num (clamp64 n)).
Proof.
  destruct n as [|[|]|v]; [reflexivity..|]. unfold clamp64.
  destruct (Z_le_gt_dec v (- 2 ^ 63)) as [Hlow|Hlow].
  - replace (Z.max (- 2 ^ 63) (Z.min v (2 ^ 63 - 1))) with (- 2 ^ 63) by lia.
    unfold longToHex, Long.fromNumber.
    destruct (v <=? - Long.TWO_PWR_63_DBL) eqn:E1; [reflexivity|].
    apply Z.leb_gt in E1. unfold Long.TWO_PWR_63_DBL in E1. lia.
  - destruct (Z_le_gt_dec (2 ^ 63 - 1) v) as [Hhigh|Hhigh].
    + replace (Z.max (- 2 ^ 63) (Z.min v (2 ^ 63 - 1))) with (2 ^ 63 - 1) by lia.
      unfold longToHex, Long.fromNumber.
      destruct (v <=? - Long.TWO_PWR_63_DBL) eqn:E1.
      { apply Z.leb_le in E1. unfold Long.TWO_PWR_63_DBL in E1. lia. }
      destruct (Long.TWO_PWR_63_DBL <=? v + 1) eqn:E2; [reflexivity|].
      apply Z.leb_gt in E2. unfold Long.TWO_PWR_63_DBL in E2. lia.
    + now replace (Z.max (- 2 ^ 63) (Z.min v (2 ^ 63 - 1))) with v by lia.
Qed.

(** X16. [longToHex] of any number is [0x] and sixteen digits: the
    eight big-endian bytes of the two's complement of the number clamped
    to [-2^63, 2^63 - 1], with NaN as 0 (and an infinity as the end of
    the range on its side). *)
Theorem longToHex_twos_complement (n : number) :
  - 2 ^ 63 <= clamp64 n <= 2 ^ 63 - 1
  /\ Hex.hexToBytes (longToHex n) = Some (bigEndian 8 (clamp64 n mod 2 ^ 64))
  /\ String.length (longToHex n) = 18%nat.
Proof.
  split; [destruct n as [|[|]|v]; unfold clamp64; lia|]. split.
  - rewrite longToHex_clamp64.
    assert (Hr : - 2 ^ 63 <= clamp64 n <= 2 ^ 63 - 1)
      by (destruct n as [|[|]|v']; unfold clamp64; lia).
    set (v := clamp64 n) in *. clearbody v.
    destruct (Z.eq_dec v (- 2 ^ 63)) as [-> | Hmin]; [vm_compute; reflexivity|].
    destruct (Z_lt_ge_dec v 0) as [Hneg | Hpos].
    + rewrite hexToBytes_longToHex, toBytesBE_negative by lia.
      f_equal. f_equal. symmetry.
      rewrite <- (Z.mod_add v 1 (2 ^ 64)) by lia.
      rewrite Z.mul_1_l. apply Z.mod_small. lia.
    + rewrite hexToBytes_longToHex_inRange by lia.
      now rewrite Z.mod_small by lia.
  - reflexivity.
Qed.

(** X17. [hashOrder] does not tell an order from the order with its
    five integers clamped to 64 bits: amounts at or above [2^63 - 1]
    hash alike, and NaN hashes as 0. *)
Theorem hashOrder_clamps
    (web3_packed : list string -> option (list byte))
    (o : BlockchainOrder.t) :
  hashOrder web3_packed o = hashOrder web3_packed (clampOrder o).
Proof.
  unfold hashOrder, hashArgs, clampOrder. cbn [BlockchainOrder.senderAddress
    BlockchainOrder.matcherAddress BlockchainOrder.baseAsset
    BlockchainOrder.quoteAsset BlockchainOrder.matcherFeeAsset
    BlockchainOrder.amount BlockchainOrder.price BlockchainOrder.matcherFee
    BlockchainOrder.nonce BlockchainOrder.expiration BlockchainOrder.buySide].
  now rewrite <- !longToHex_clamp64.
Qed.

(** ** The shape of a hash *)

Lemma bytesOfLane_length (n : nat) (l : Z) :
  List.length (Keccak.bytesOfLane n l) = n.
Proof.
  revert l. induction n as [|n IH]; intros l; [reflexivity|].
  cbn [Keccak.bytesOfLane List.length]. now rewrite IH.
Qed.

Lemma round_length (st : list Z) (rc : Z) :
  List.length (Keccak.round st rc) = 25%nat.
Proof. reflexivity. Qed.

Lemma permute_length (st : list Z) :
  List.length st = 25%nat -> List.length (Keccak.permute st) = 25%nat.
Proof.
  unfold Keccak.permute. generalize Keccak.roundConstants. intros rcs.
  revert st. induction rcs as [|rc rcs IH]; intros st Hst; [exact Hst|].
  cbn [fold_left]. apply IH, round_length.
Qed.

Lemma absorb_length (blocks : list (list byte)) :
  forall st,
    List.length st = 25%nat ->
    List.length (fold_left Keccak.absorb blocks st) = 25%nat.
Proof.
  induction blocks as [|b blocks IH]; intros st Hst; [exact Hst|].
  cbn [fold_left]. apply IH. unfold Keccak.absorb. apply permute_length.
  reflexivity.
Qed.

Lemma keccak256_length (msg : list byte) :
  List.length (Keccak.keccak256 msg) = 32%nat.
Proof.
  unfold Keccak.keccak256.
  pose proof (absorb_length
                (Keccak.chunks (List.length (Keccak.pad msg)) Keccak.rateBytes
                   (Keccak.pad msg))
                (repeat 0 25) eq_refl) as Hst.
  destruct (fold_left Keccak.absorb _ _) as [|a [|b [|c [|d rest]]]];
    try discriminate.
  cbn [firstn flat_map]. rewrite !length_app, !bytesOfLane_length. reflexivity.
Qed.

Lemma hexDigits_length (bytes : list Z) :
  String.length (Hex.hexDigits bytes) = (2 * List.length bytes)%nat.
Proof.
  induction bytes as [|b rest IH]; [reflexivity|].
  cbn [Hex.hexDigits String.length List.length]. rewrite IH. lia.
Qed.

Lemma byte_of_Z_of_byte (b : byte) : Hex.byte_of_Z (Hex.Z_of_byte b) = b.
Proof. destruct b; reflexivity. Qed.

Lemma Z_of_byte_range (bytes : list byte) :
  Forall (fun b => 0 <= b < 256) (map Hex.Z_of_byte bytes).
Proof.
  induction bytes as [|b rest IH]; constructor; [|exact IH].
  rewrite <- (byte_of_Z_of_byte b), Z_of_byte_of_Z.
  apply Z.mod_pos_bound. lia.
Qed.

(** X18. A hash that [hashOrder] returns is [0x] and 64 digits: it has
    66 characters and reads back as 32 bytes. *)
Theorem hashOrder_digest
    (web3_packed : list string -> option (list byte))
    (o : BlockchainOrder.t) (h : string) :
  hashOrder web3_packed o = Some h ->
  String.length h = 66%nat
  /\ exists digest,
       Hex.hexToBytes h = Some digest /\ List.length digest = 32%nat.
Proof.
  unfold hashOrder, soliditySha3.
  destruct (match packArgs (hashArgs o) with
            | Some bytes => Some bytes
            | None => web3_packed (hashArgs o)
            end) as [bytes|]; [|discriminate].
  intros H. injection H as <-. split.
  - unfold Hex.bytesToHex. cbn [String.length].
    now rewrite hexDigits_length, length_map, keccak256_length.
  - exists (Keccak.keccak256 bytes). split; [|apply keccak256_length].
    rewrite hexToBytes_bytesToHex by apply Z_of_byte_range.
    rewrite map_map. f_equal.
    rewrite <- (map_id (Keccak.keccak256 bytes)) at 2.
    apply map_ext. exact byte_of_Z_of_byte.
Qed.

Section SignedOrders.

Variable symbolToAddresses : string -> string * string.
Variable nameToAddress : string -> string.
Variable web3_packed : list string -> option (list byte).
Variable signTypedMessage : string -> Z -> BlockchainOrder.t -> result string.
Variable self : OrionBlockchain.t.

(** X19. The order [signTrade] returns carries its own hash as [id], the
    signature of the order as it was before the signature was set, the
    broker as sender, the matcher of the settings, and the timestamp of
    the sub-order as nonce. *)
Theorem signTrade_id_is_hash (subOrder : DbSubOrder.t) (trade : Trade.t)
    (bo : BlockchainOrder.t) :
  OrionBlockchain.signTrade symbolToAddresses nameToAddress web3_packed
    signTypedMessage self subOrder trade = Ok bo ->
  hashOrder web3_packed bo = Some (BlockchainOrder.id bo)
  /\ signTypedMessage (OrionBlockchain.bufferKey self)
       (OrionBlockchain.chainId self)
       (BlockchainOrder.set_signature bo EmptyString)
     = Ok (BlockchainOrder.signature bo)
  /\ BlockchainOrder.senderAddress bo = OrionBlockchain.address self
  /\ BlockchainOrder.matcherAddress bo = OrionBlockchain.matcherAddress self
  /\ BlockchainOrder.nonce bo = Num (DbSubOrder.timestamp subOrder).
Proof.
  unfold OrionBlockchain.signTrade, OrionBlockchain.signOrder.
  destruct (hashOrder web3_packed
              (OrionBlockchain.createBlockchainOrder symbolToAddresses
                 nameToAddress self subOrder trade)) as [h|] eqn:Hh;
    [|discriminate].
  destruct (signTypedMessage _ _ _) as [signature|msg] eqn:Hsigned;
    [|discriminate].
  intros H. injection H as <-. split; [exact Hh|].
  split; [exact Hsigned|]. now repeat split.
Qed.

End SignedOrders.

(** ** The gas price *)

(** X20. A gas price that [getGasPrice] returns is at most 300 gwei and
    a whole number of gwei. *)
Theorem getGasPrice_capped (fast : BigNumber) (wei : Z) :
  getGasPrice fast = Ok wei ->
  wei <= 300 * 10 ^ 9 /\ wei mod 10 ^ 9 = 0.
Proof.
  unfold getGasPrice.
  destruct (BN.gt (BN.dividedBy fast (BN.ofZ 10)) (BN.ofZ 300)) eqn:Hgt;
    [discriminate|].
  destruct (BN.dividedBy fast (BN.ofZ 10)) as [|gwei]; [discriminate|].
  intros H. injection H as <-. split; [|apply Z.mod_mul; lia].
  unfold BN.gt, BN.lt, BN.ofZ in Hgt. apply negb_false_iff in Hgt.
  apply Qle_bool_iff in Hgt.
  assert (Hle : roundUp gwei <= 300).
  { unfold roundUp. destruct (Qle_bool 0 gwei).
    - change 300 with (Qceiling (inject_Z 300)).
      now apply Qceiling_resp_le.
    - apply Z.le_trans with (Qceiling gwei).
      { rewrite Zle_Qle. eapply Qle_trans; [apply Qfloor_le | apply Qle_ceiling]. }
      change 300 with (Qceiling (inject_Z 300)).
      now apply Qceiling_resp_le. }
  lia.
Qed.

(** X21. For a whole [fast] value [n] of the gas feed between 0 and
    3000, [getGasPrice] returns [n / 10] gwei rounded up. *)
Theorem getGasPrice_rounds_up (n : Z) :
  0 <= n <= 3000 ->
  getGasPrice (BN.ofZ n) = Ok ((n + 9) / 10 * 10 ^ 9).
Proof.
  intros Hn. unfold getGasPrice, BN.dividedBy, BN.ofZ.
  change (Qeq_bool (inject_Z 10) 0) with false. cbv iota.
  assert (Hgt : BN.gt (BFin (inject_Z n / inject_Z 10)) (BFin (inject_Z 300))
                = false).
  { unfold BN.gt, BN.lt. apply negb_false_iff. apply Qle_bool_iff.
    unfold Qle, Qdiv, Qmult, Qinv, inject_Z. simpl. lia. }
  rewrite Hgt. f_equal. f_equal. unfold roundUp.
  assert (Hpos : Qle_bool 0 (inject_Z n / inject_Z 10) = true).
  { apply Qle_bool_iff. unfold Qle, Qdiv, Qmult, Qinv, inject_Z. simpl. lia. }
  rewrite Hpos. unfold Qceiling, Qfloor, Qopp, Qdiv, Qmult, Qinv, inject_Z. simpl.
  Z.div_mod_to_equations. lia.
Qed.


(** The theorem at an order with an amount of [2^70] and a NaN price: it
    is not the clamped order and hashes like it. *)
Lemma hashOrder_clamps_witness :
  Polls.orderBeyond <> clampOrder Polls.orderBeyond
  /\ hashOrder Scenario.web3_packed Polls.orderBeyond
     = hashOrder Scenario.web3_packed (clampOrder Polls.orderBeyond).
Proof.
  split; [vm_compute; discriminate|].
  exact (hashOrder_clamps Scenario.web3_packed Polls.orderBeyond).
Defined.

(** The theorem at the order of scenario S1. *)
Lemma hashOrder_digest_witness :
  hashOrder Scenario.web3_packed Scenario.order1
  = Some "0xc16c8375614024318bc2c5c1cd86e91e8f37811384a8f503a74b237000ba74cc"
  /\ String.length
       "0xc16c8375614024318bc2c5c1cd86e91e8f37811384a8f503a74b237000ba74cc"
     = 66%nat.
Proof.
  assert (H : hashOrder Scenario.web3_packed Scenario.order1
              = Some "0xc16c8375614024318bc2c5c1cd86e91e8f37811384a8f503a74b237000ba74cc")
    by (vm_compute; reflexivity).
  split; [exact H|].
  exact (proj1 (hashOrder_digest Scenario.web3_packed Scenario.order1 _ H)).
Defined.

(** The theorem at the trade of scenario S1. *)
Lemma signTrade_id_is_hash_witness :
  exists bo,
    OrionBlockchain.signTrade Scenario.symbolToAddresses Scenario.nameToAddress
      Scenario.web3_packed Scenario.signTypedMessage Scenario.orionBlockchain Scenario.subOrder1
      Scenario.trade1 = Ok bo
    /\ hashOrder Scenario.web3_packed bo = Some (BlockchainOrder.id bo).
Proof.
  destruct (OrionBlockchain.signTrade Scenario.symbolToAddresses
              Scenario.nameToAddress
                Scenario.web3_packed Scenario.signTypedMessage
              Scenario.orionBlockchain Scenario.subOrder1 Scenario.trade1)
    as [bo|msg] eqn:Hsign; [|vm_compute in Hsign; discriminate].
  exists bo. split; [reflexivity|].
  exact (proj1 (signTrade_id_is_hash Scenario.symbolToAddresses
                  Scenario.nameToAddress
                    Scenario.web3_packed Scenario.signTypedMessage
                  Scenario.orionBlockchain Scenario.subOrder1 Scenario.trade1
                  bo Hsign)).
Defined.

(** The theorem at a feed value of 915: 92 gwei. *)
Lemma getGasPrice_capped_witness :
  getGasPrice (BN.ofZ 915) = Ok 92000000000
  /\ 92000000000 <= 300 * 10 ^ 9
  /\ 92000000000 mod 10 ^ 9 = 0.
Proof.
  assert (H : getGasPrice (BN.ofZ 915) = Ok 92000000000)
    by (vm_compute; reflexivity).
  split; [exact H|]. exact (getGasPrice_capped (BN.ofZ 915) 92000000000 H).
Defined.

(** The theorem at the same feed value. *)
Lemma getGasPrice_rounds_up_witness :
  0 <= 915 <= 3000
  /\ getGasPrice (BN.ofZ 915) = Ok ((915 + 9) / 10 * 10 ^ 9).
Proof.
  assert (H : 0 <= 915 <= 3000) by lia.
  split; [exact H|]. exact (getGasPrice_rounds_up 915 H).
Defined.

(** ** The CCXT connector *)

(** X22. On a symbol without a slash, [fromSymbol] undoes [toSymbol],
    and the venue symbol [toSymbol] gives has no dash. *)
Theorem fromSymbol_toSymbol (symbol : string) :
  occurs "/" symbol = false ->
  CCXT.fromSymbol (CCXT.toSymbol symbol) = symbol
  /\ occurs "-" (CCXT.toSymbol symbol) = false.
Proof.
  unfold CCXT.fromSymbol, CCXT.toSymbol.
  induction symbol as [|c rest IH]; [now split|].
  cbn [occurs CCXT.replaceAll]. intros H.
  apply orb_false_iff in H. destruct H as [Hc Hrest].
  destruct (IH Hrest) as [IH1 IH2]. rewrite IH1, IH2.
  destruct (Ascii.eqb c "-") eqn:Hdash.
  - apply Ascii.eqb_eq in Hdash. subst c. now split.
  - rewrite Hc, Hdash. now split.
Qed.

Section Polling.

Variable exchangeId : string.
Variable fetchOrder : string -> string -> result CCXT.Order.t.
Variable fetchWithdrawals : result (list CCXT.Transaction.t).

Lemma checkSubOrder_trade (subOrder : DbSubOrder.t) (exchangeOrderId : string)
    (trade : Trade.t) :
  CCXT.checkSubOrder fetchOrder subOrder exchangeOrderId = Ok (Some trade) ->
  Trade.exchange trade = DbSubOrder.exchange subOrder
  /\ Trade.exchangeOrderId trade = exchangeOrderId
  /\ Trade.price trade = DbSubOrder.price subOrder
  /\ (Trade.status trade = FILLED
      /\ Trade.amount trade = DbSubOrder.amount subOrder
      \/ Trade.status trade = CANCELED
         /\ BN.isNaN (Trade.amount trade) = false).
Proof.
  unfold CCXT.checkSubOrder.
  destruct (fetchOrder exchangeOrderId _) as [ccxtOrder|msg]; [|discriminate].
  destruct (CCXT.fromStatus (CCXT.Order.status ccxtOrder)) as [newStatus|msg];
    [|discriminate].
  destruct newStatus; cbn; try discriminate; intros H; injection H as <-; cbn.
  - repeat split. now left.
  - repeat split. right. split; [reflexivity|].
    unfold CCXT.parseFilledAmount.
    destruct (BN.isNaN (CCXT.Order.filled ccxtOrder)) eqn:E; [reflexivity | exact E].
Qed.


Lemma checkWithdraw_status (transactions : list CCXT.Transaction.t)
    (withdraw : Withdraw.t) (st : ExchangeWithdrawStatus.t) :
  In st (CCXT.checkWithdraw exchangeId transactions withdraw) ->
  ExchangeWithdrawStatus.status st <> Withdraw.pending
  /\ ExchangeWithdrawStatus.exchangeWithdrawId st
     = Withdraw.exchangeWithdrawId withdraw
  /\ exists tx,
       In tx transactions
       /\ CCXT.Transaction.id tx = Withdraw.exchangeWithdrawId withdraw
       /\ (exchangeId = "kucoin" ->
           CCXT.Transaction.info tx <> Some "PROCESSING")
       /\ CCXT.Transaction.status tx
          = match ExchangeWithdrawStatus.status st with
            | Withdraw.ok => "ok"
            | Withdraw.failed => "failed"
            | Withdraw.canceled => "canceled"
            | Withdraw.pending => "pending"
            end.
Proof.
  unfold CCXT.checkWithdraw.
  destruct (find _ transactions) as [tx|] eqn:Hfind; [|intros []].
  apply find_some in Hfind. destruct Hfind as [Hin Hid].
  apply String.eqb_eq in Hid.
  set (processing := String.eqb exchangeId "kucoin"
                     && match CCXT.Transaction.info tx with
                        | Some infoStatus => String.eqb infoStatus "PROCESSING"
                        | None => false
                        end).
  destruct processing eqn:Hp; [cbn; intros []|].
  assert (Hnot : exchangeId = "kucoin" ->
                 CCXT.Transaction.info tx <> Some "PROCESSING").
  { intros -> Hinfo. unfold processing in Hp. now rewrite Hinfo in Hp. }
  destruct (String.eqb (CCXT.Transaction.status tx) "ok") eqn:E1.
  { apply String.eqb_eq in E1. intros [<- | []]. cbn.
    split; [discriminate|]. split; [reflexivity|]. now exists tx. }
  destruct (String.eqb (CCXT.Transaction.status tx) "failed") eqn:E2.
  { apply String.eqb_eq in E2. intros [<- | []]. cbn.
    split; [discriminate|]. split; [reflexivity|]. now exists tx. }
  destruct (String.eqb (CCXT.Transaction.status tx) "canceled") eqn:E3.
  { apply String.eqb_eq in E3. intros [<- | []]. cbn.
    split; [discriminate|]. split; [reflexivity|]. now exists tx. }
  intros [].
Qed.

Lemma checkWithdraw_length (transactions : list CCXT.Transaction.t)
    (withdraw : Withdraw.t) :
  (List.length (CCXT.checkWithdraw exchangeId transactions withdraw) <= 1)%nat.
Proof.
  unfold CCXT.checkWithdraw.
  destruct (find _ transactions); [|cbn; lia].
  repeat match goal with
         | |- context [if ?b then _ else _] => destruct b
         end; cbn; lia.
Qed.


End Polling.


(** The theorem at the symbol of scenario S1. *)
Lemma fromSymbol_toSymbol_witness :
  occurs "/" "BTC-USDT" = false
  /\ CCXT.fromSymbol (CCXT.toSymbol "BTC-USDT") = "BTC-USDT"
  /\ CCXT.toSymbol "BTC-USDT" = "BTC/USDT".
Proof.
  assert (H : occurs "/" "BTC-USDT" = false) by reflexivity.
  split; [exact H|].
  split; [exact (proj1 (fromSymbol_toSymbol "BTC-USDT" H)) | reflexivity].
Defined.


(** ** The periodic checks *)

Lemma no_member_nil {A} (l : list A) : (forall x, ~ In x l) -> l = [].
Proof. destruct l as [|x l]; [reflexivity|]. intros H. elim (H x). now left. Qed.

Section Checks.

Variable connector_checkWithdraws :
  list Withdraw.t -> result (list ExchangeWithdrawStatus.t).
Variable gateway_getTransactionStatus : nat -> string -> result TransactionAnswer.

Local Abbreviation checkOne := (checkTransaction gateway_getTransactionStatus).
Local Abbreviation tickTransactions := (checkTransactions gateway_getTransactionStatus).
Local Abbreviation tickWithdraws := (checkWithdraws connector_checkWithdraws).

(** What one round of the loop over pending transactions does. *)
Lemma checkTransaction_step (tx : Transaction.t) (w : World.t) :
  let w' := snd (checkOne tx w) in
  World.now w' = World.now w
  /\ World.trace w' = World.trace w
  /\ World.lastBalances w' = World.lastBalances w
  /\ World.requests w' = S (World.requests w)
  /\ (World.db w' = World.db w
      \/ exists status,
           (status = Transaction.OK \/ status = Transaction.FAIL)
           /\ World.db w'
              = DbQueries.updateTransactionStatus
                  (Transaction.transactionHash tx) status (World.db w)).
Proof.
  unfold checkTransaction, request, bind, reads, ret, writeDb, modify.
  cbn -[Z.ltb Z.mul].
  destruct (gateway_getTransactionStatus (World.requests w)
              (Transaction.transactionHash tx)) as [answer|msg];
    cbn -[Z.ltb Z.mul]; [|repeat split; now left].
  destruct answer; cbn -[Z.ltb Z.mul];
    try destruct (10 * 60 * 1000 <? World.now w - Transaction.createTime tx);
    destruct (Transaction.status tx); cbn;
    repeat split;
    first [ now left
          | right; exists Transaction.OK; split; [now left | reflexivity]
          | right; exists Transaction.FAIL; split; [now right | reflexivity] ].
Qed.

Lemma rechecked_refl (hashes : list string) (rows : list Transaction.t) :
  Forall2 (rechecked hashes) rows rows.
Proof.
  induction rows; constructor; [|assumption].
  unfold rechecked. repeat split. now left.
Qed.

Lemma rechecked_update (hashes : list string) (hash : string)
    (status : Transaction.Status) (rows0 rows : list Transaction.t) :
  status = Transaction.OK \/ status = Transaction.FAIL ->
  In hash hashes ->
  Forall2 (rechecked hashes) rows0 rows ->
  Forall2 (rechecked hashes) rows0
    (map (fun tx =>
            if String.eqb (Transaction.transactionHash tx) hash
            then Transaction.mk (Transaction.transactionHash tx)
                   (Transaction.method tx) (Transaction.asset tx)
                   (Transaction.amount tx) (Transaction.createTime tx) status
            else tx) rows).
Proof.
  intros Hstatus Hin. induction 1 as [|old new rows0 rows Hrow _ IH];
    cbn [map]; constructor; [|exact IH].
  destruct (String.eqb (Transaction.transactionHash new) hash) eqn:E; [|exact Hrow].
  apply String.eqb_eq in E.
  destruct Hrow as (H1 & H2 & H3 & H4 & H5 & _).
  unfold rechecked. cbn. repeat (split; [assumption|]).
  right. split; [|exact Hstatus]. now rewrite <- H1, E.
Qed.

Lemma forEach_checkTransaction (hashes : list string) (txs : list Transaction.t) :
  forall (w0 w : World.t),
    (forall tx, In tx txs -> In (Transaction.transactionHash tx) hashes) ->
    Forall2 (rechecked hashes) (Db.transactions (World.db w0))
      (Db.transactions (World.db w)) ->
    let w' := snd (forEach checkOne txs w) in
    World.trace w' = World.trace w
    /\ World.lastBalances w' = World.lastBalances w
    /\ World.now w' = World.now w
    /\ Db.subOrders (World.db w') = Db.subOrders (World.db w)
    /\ Db.trades (World.db w') = Db.trades (World.db w)
    /\ Db.withdraws (World.db w') = Db.withdraws (World.db w)
    /\ Forall2 (rechecked hashes) (Db.transactions (World.db w0))
         (Db.transactions (World.db w')).
Proof.
  induction txs as [|tx rest IH]; intros w0 w Hhashes Hrows; cbn [forEach].
  - cbn. now repeat split.
  - unfold bind.
    destruct (checkTransaction_step tx w) as (Hnow & Htrace & Hlast & _ & Hdb).
    destruct (checkOne tx w) as [[[]|msg] w1] eqn:Hone; cbn [snd] in *.
    + assert (Hrows1 : Forall2 (rechecked hashes) (Db.transactions (World.db w0))
                         (Db.transactions (World.db w1))).
      { destruct Hdb as [-> | (status & Hstatus & ->)]; [exact Hrows|].
        apply rechecked_update; [exact Hstatus| |exact Hrows].
        apply Hhashes. now left. }
      destruct (IH w0 w1 (fun t Ht => Hhashes t (or_intror Ht)) Hrows1)
        as (I1 & I2 & I3 & I4 & I5 & I6 & I7).
      rewrite I1, I2, I3, I4, I5, I6.
      destruct Hdb as [-> | (status & _ & ->)]; now repeat split.
    + destruct Hdb as [-> | (status & Hstatus & ->)]; repeat split;
        try assumption.
      apply rechecked_update; [exact Hstatus| |exact Hrows].
      apply Hhashes. now left.
Qed.

(** X25. A tick of the transaction check never throws and touches
    nothing but the status of stored transactions: a status changes only
    for the hash of a transaction that was pending, and only to OK or
    FAIL. *)
Theorem checkTransactions_frame (w : World.t) :
  let w' := snd (tickTransactions w) in
  let hashes :=
    map Transaction.transactionHash (Db.getPendingTransactions (World.db w)) in
  fst (tickTransactions w) = Ok tt
  /\ World.trace w' = World.trace w
  /\ World.lastBalances w' = World.lastBalances w
  /\ Db.subOrders (World.db w') = Db.subOrders (World.db w)
  /\ Db.trades (World.db w') = Db.trades (World.db w)
  /\ Db.withdraws (World.db w') = Db.withdraws (World.db w)
  /\ Forall2 (rechecked hashes) (Db.transactions (World.db w))
       (Db.transactions (World.db w')).
Proof.
  intros w' hashes. unfold w'. clear w'.
  unfold checkTransactions, try_log, bind, reads.
  destruct (forEach_checkTransaction hashes
              (Db.getPendingTransactions (World.db w)) w w
              (fun tx Htx => in_map Transaction.transactionHash _ _ Htx)
              (rechecked_refl hashes _))
    as (I1 & I2 & I3 & I4 & I5 & I6 & I7).
  destruct (forEach checkOne (Db.getPendingTransactions (World.db w)) w)
    as [[[]|msg] w1]; cbn [fst snd] in *; now repeat split.
Qed.

Lemma checkTransaction_settled (tx : Transaction.t) (w : World.t) :
  Transaction.status tx = Transaction.PENDING ->
  settled (gateway_getTransactionStatus (World.requests w)
             (Transaction.transactionHash tx)) (World.now w) tx ->
  exists status,
    (status = Transaction.OK \/ status = Transaction.FAIL)
    /\ checkOne tx w
       = (Ok tt,
          World.set_db (World.set_requests w (S (World.requests w)))
            (DbQueries.updateTransactionStatus
               (Transaction.transactionHash tx) status (World.db w))).
Proof.
  intros Hpending Hsettled.
  unfold checkTransaction, request, bind, reads, ret, writeDb, modify.
  cbn -[Z.ltb Z.mul]. rewrite Hpending.
  destruct Hsettled as [-> | [-> | [-> Hold]]]; cbn -[Z.ltb Z.mul].
  - exists Transaction.OK. split; [now left | reflexivity].
  - exists Transaction.FAIL. split; [now right | reflexivity].
  - apply Z.ltb_lt in Hold. rewrite Hold. cbn.
    exists Transaction.FAIL. split; [now right | reflexivity].
Qed.

Lemma forEach_settled (txs : list Transaction.t) :
  forall w : World.t,
    (forall tx n,
        In tx txs ->
        Transaction.status tx = Transaction.PENDING
        /\ settled (gateway_getTransactionStatus n (Transaction.transactionHash tx))
             (World.now w) tx) ->
    forall row,
      In row (Db.transactions (World.db (snd (forEach checkOne txs w)))) ->
      Transaction.status row <> Transaction.PENDING
      \/ In row (Db.transactions (World.db w))
         /\ ~ In (Transaction.transactionHash row)
              (map Transaction.transactionHash txs).
Proof.
  induction txs as [|tx rest IH]; intros w Hall row; cbn [forEach].
  - cbn. intros Hin. right. split; [exact Hin | intros []].
  - unfold bind.
    destruct (Hall tx (World.requests w) (or_introl eq_refl)) as [Hpending Hsettled].
    destruct (checkTransaction_settled tx w Hpending Hsettled)
      as (status & Hstatus & ->).
    intros Hin. apply IH in Hin.
    + destruct Hin as [Hdone | [Hin Hfresh]]; [now left|].
      cbn in Hin. apply in_map_iff in Hin. destruct Hin as (old & Hrow & Hold).
      destruct (String.eqb (Transaction.transactionHash old)
                  (Transaction.transactionHash tx)) eqn:E.
      * left. subst row. cbn. destruct Hstatus as [-> | ->]; discriminate.
      * right. subst row. split; [exact Hold|].
        apply String.eqb_neq in E. cbn [map]. intros [Heq | Hrest].
        -- now elim E.
        -- now elim Hfresh.
    + intros tx' n Hin'. cbn. apply Hall. now right.
Qed.

(** X26. When the gateway's answer for every pending transaction is OK,
    FAIL, or NONE more than ten minutes after its creation, no
    transaction is pending after the tick. *)
Theorem checkTransactions_settles (w : World.t) :
  (forall tx n,
      In tx (Db.getPendingTransactions (World.db w)) ->
      settled (gateway_getTransactionStatus n (Transaction.transactionHash tx))
        (World.now w) tx) ->
  Db.getPendingTransactions (World.db (snd (tickTransactions w))) = [].
Proof.
  intros Hall. apply no_member_nil. intros row Hrow.
  unfold Db.getPendingTransactions in Hrow at 1.
  apply filter_In in Hrow. destruct Hrow as [Hin Hpending].
  assert (Hloop :
    snd (tickTransactions w)
    = snd (forEach checkOne (Db.getPendingTransactions (World.db w)) w)).
  { unfold checkTransactions, try_log, bind, reads.
    now destruct (forEach checkOne _ w) as [[[]|msg] w1]. }
  rewrite Hloop in Hin.
  apply forEach_settled in Hin.
  - destruct Hin as [Hdone | [Hin Hfresh]].
    + destruct (Transaction.status row); [now elim Hdone | discriminate..].
    + apply Hfresh. apply in_map. unfold Db.getPendingTransactions.
      apply filter_In. now split.
  - intros tx n Htx. split; [|now apply Hall].
    unfold Db.getPendingTransactions in Htx. apply filter_In in Htx.
    destruct Htx as [_ Hst]. now destruct (Transaction.status tx).
Qed.

Lemma forEach_waiting (txs : list Transaction.t) :
  forall w : World.t,
    (forall tx n,
        In tx txs ->
        Transaction.status tx = Transaction.PENDING
        /\ (gateway_getTransactionStatus n (Transaction.transactionHash tx)
            = Ok Answer_PENDING
            \/ gateway_getTransactionStatus n (Transaction.transactionHash tx)
               = Ok Answer_NONE
               /\ World.now w - Transaction.createTime tx <= 10 * 60 * 1000)) ->
    World.db (snd (forEach checkOne txs w)) = World.db w.
Proof.
  induction txs as [|tx rest IH]; intros w Hall; cbn [forEach]; [reflexivity|].
  unfold bind.
  destruct (Hall tx (World.requests w) (or_introl eq_refl)) as [Hpending Hwait].
  assert (Hone : checkOne tx w
                 = (Ok tt, World.set_requests w (S (World.requests w)))).
  { unfold checkTransaction, request, bind, reads, ret, writeDb, modify.
    cbn -[Z.ltb Z.mul]. rewrite Hpending.
    destruct Hwait as [-> | [-> Hyoung]]; cbn -[Z.ltb Z.mul]; [reflexivity|].
    apply Z.ltb_ge in Hyoung. now rewrite Hyoung. }
  rewrite Hone. rewrite IH; [reflexivity|].
  intros tx' n Hin'. cbn. apply Hall. now right.
Qed.

(** X27. While the gateway answers PENDING, or NONE within ten minutes
    of the creation, for every pending transaction, the tick leaves the
    store as it was. *)
Theorem checkTransactions_waits (w : World.t) :
  (forall tx n,
      In tx (Db.getPendingTransactions (World.db w)) ->
      gateway_getTransactionStatus n (Transaction.transactionHash tx)
      = Ok Answer_PENDING
      \/ gateway_getTransactionStatus n (Transaction.transactionHash tx)
         = Ok Answer_NONE
         /\ World.now w - Transaction.createTime tx <= 10 * 60 * 1000) ->
  World.db (snd (tickTransactions w)) = World.db w.
Proof.
  intros Hall.
  assert (Hloop :
    snd (tickTransactions w)
    = snd (forEach checkOne (Db.getPendingTransactions (World.db w)) w)).
  { unfold checkTransactions, try_log, bind, reads.
    now destruct (forEach checkOne _ w) as [[[]|msg] w1]. }
  rewrite Hloop. apply forEach_waiting.
  intros tx n Htx. split; [|now apply Hall].
  unfold Db.getPendingTransactions in Htx. apply filter_In in Htx.
  destruct Htx as [_ Hst]. now destruct (Transaction.status tx).
Qed.

Lemma reported_refl (ids : list string) (rows : list Withdraw.t) :
  Forall2 (reported ids) rows rows.
Proof.
  induction rows; constructor; [|assumption].
  unfold reported. repeat split. now left.
Qed.

Lemma reported_update (ids : list string) (id : string)
    (status : Withdraw.Status) (rows0 rows : list Withdraw.t) :
  In id ids ->
  Forall2 (reported ids) rows0 rows ->
  Forall2 (reported ids) rows0
    (Db.withdraws
       (DbQueries.updateWithdrawStatus id status
          (Db.mk [] [] rows []))).
Proof.
  intros Hin. cbn. induction 1 as [|old new rows0 rows Hrow _ IH];
    cbn [map]; constructor; [|exact IH].
  destruct (String.eqb (Withdraw.exchangeWithdrawId new) id) eqn:E; [|exact Hrow].
  apply String.eqb_eq in E.
  destruct Hrow as (H1 & H2 & H3 & H4 & _).
  unfold reported. cbn. repeat (split; [assumption|]).
  right. now rewrite <- H1, E.
Qed.

Lemma forEach_withdrawStatus (openWithdraws : list Withdraw.t)
    (statuses : list ExchangeWithdrawStatus.t) :
  let ids := map Withdraw.exchangeWithdrawId openWithdraws in
  let body := fun status : ExchangeWithdrawStatus.t =>
    match find (fun w => String.eqb (Withdraw.exchangeWithdrawId w)
                           (ExchangeWithdrawStatus.exchangeWithdrawId status))
            openWithdraws with
    | None => throw "TypeError"
    | Some _ =>
        writeDb (DbQueries.updateWithdrawStatus
                   (ExchangeWithdrawStatus.exchangeWithdrawId status)
                   (ExchangeWithdrawStatus.status status))
    end in
  forall (w0 w : World.t),
    Forall2 (reported ids) (Db.withdraws (World.db w0)) (Db.withdraws (World.db w)) ->
    let w' := snd (forEach body statuses w) in
    World.trace w' = World.trace w
    /\ World.lastBalances w' = World.lastBalances w
    /\ World.requests w' = World.requests w
    /\ Db.subOrders (World.db w') = Db.subOrders (World.db w)
    /\ Db.trades (World.db w') = Db.trades (World.db w)
    /\ Db.transactions (World.db w') = Db.transactions (World.db w)
    /\ Forall2 (reported ids) (Db.withdraws (World.db w0))
         (Db.withdraws (World.db w')).
Proof.
  intros ids body.
  induction statuses as [|st rest IH]; intros w0 w Hrows; cbn [forEach].
  - cbn. now repeat split.
  - destruct (find (fun w => String.eqb (Withdraw.exchangeWithdrawId w)
                               (ExchangeWithdrawStatus.exchangeWithdrawId st))
                openWithdraws) as [found|] eqn:Hfind.
    + assert (Hbody :
        body st w
        = (Ok tt,
           World.set_db w
             (DbQueries.updateWithdrawStatus
                (ExchangeWithdrawStatus.exchangeWithdrawId st)
                (ExchangeWithdrawStatus.status st) (World.db w)))).
      { unfold body. now rewrite Hfind. }
      apply find_some in Hfind. destruct Hfind as [Hin Hid].
      apply String.eqb_eq in Hid.
      unfold bind. rewrite Hbody.
      match goal with
      | |- context [forEach body rest ?w1] =>
          destruct (IH w0 w1) as (I1 & I2 & I3 & I4 & I5 & I6 & I7)
      end.
      * cbn [World.db World.set_db].
        apply (reported_update ids _ _ _ (Db.withdraws (World.db w)));
          [|exact Hrows].
        rewrite <- Hid. now apply in_map.
      * cbv zeta. rewrite I1, I2, I3, I4, I5, I6. cbn. now repeat split.
    + assert (Hbody : body st w = (Throw "TypeError", w)).
      { unfold body. now rewrite Hfind. }
      unfold bind. rewrite Hbody. cbn. now repeat split.
Qed.

(** X28. A tick of the withdrawal check never throws and touches
    nothing but the status of stored withdrawals with the id of an open
    one; when the venues' check throws, the world is as it was. *)
Theorem checkWithdraws_frame (w : World.t) :
  let w' := snd (tickWithdraws w) in
  let ids := map Withdraw.exchangeWithdrawId (Db.getWithdrawsToCheck (World.db w)) in
  fst (tickWithdraws w) = Ok tt
  /\ World.trace w' = World.trace w
  /\ World.lastBalances w' = World.lastBalances w
  /\ Db.subOrders (World.db w') = Db.subOrders (World.db w)
  /\ Db.trades (World.db w') = Db.trades (World.db w)
  /\ Db.transactions (World.db w') = Db.transactions (World.db w)
  /\ Forall2 (reported ids) (Db.withdraws (World.db w)) (Db.withdraws (World.db w'))
  /\ (forall msg,
        connector_checkWithdraws (Db.getWithdrawsToCheck (World.db w)) = Throw msg ->
        w' = w).
Proof.
  intros w' ids. unfold w', ids. clear w' ids.
  unfold checkWithdraws, try_log, bind, reads, lift.
  destruct (0 <? List.length (Db.getWithdrawsToCheck (World.db w)))%nat.
  - destruct (connector_checkWithdraws (Db.getWithdrawsToCheck (World.db w)))
      as [statuses|msg].
    + destruct (forEach_withdrawStatus (Db.getWithdrawsToCheck (World.db w))
                  statuses w w (reported_refl _ _))
        as (I1 & I2 & I3 & I4 & I5 & I6 & I7).
      match goal with
      | |- context [forEach ?body statuses w] =>
          destruct (forEach body statuses w) as [[[]|msg] w1]
      end; cbn [fst snd] in *; repeat split; try assumption; discriminate.
    + cbn. repeat split; apply reported_refl.
  - cbn. repeat split; try apply reported_refl.
Qed.

End Checks.


(** The theorem at the world with the transaction in flight, a quarter
    of an hour later, and a gateway that does not know it: it is marked
    failed. *)
Lemma checkTransactions_settles_witness :
  Db.getPendingTransactions
    (World.db (World.set_now Scenario.worldPending 1600000900000))
  = [Scenario.pendingTransaction]
  /\ Db.getPendingTransactions
       (World.db (snd (checkTransactions Polls.gateway_unknown
                         (World.set_now Scenario.worldPending 1600000900000))))
     = [].
Proof.
  split; [vm_compute; reflexivity|].
  apply (checkTransactions_settles Polls.gateway_unknown
           (World.set_now Scenario.worldPending 1600000900000)).
  intros tx n Hin. right. right. split; [reflexivity|].
  vm_compute in Hin. destruct Hin as [<- | []]. vm_compute. reflexivity.
Defined.

(** The theorem at the same world and a gateway that sees the
    transaction pending. *)
Lemma checkTransactions_waits_witness :
  Db.getPendingTransactions (World.db Scenario.worldPending)
  = [Scenario.pendingTransaction]
  /\ World.db (snd (checkTransactions Polls.gateway_pending Scenario.worldPending))
     = World.db Scenario.worldPending.
Proof.
  split; [vm_compute; reflexivity|].
  apply (checkTransactions_waits Polls.gateway_pending Scenario.worldPending).
  intros tx n Hin. left. reflexivity.
Defined.

(** The theorem at a world with an open withdrawal and venues that do
    not answer. *)
Lemma checkWithdraws_frame_witness :
  Polls.connector_checkWithdraws
    (Db.getWithdrawsToCheck (World.db Polls.worldWithdraw)) = Throw "timeout"
  /\ checkWithdraws Polls.connector_checkWithdraws Polls.worldWithdraw
     = (Ok tt, Polls.worldWithdraw).
Proof.
  split; [reflexivity|].
  destruct (checkWithdraws_frame Polls.connector_checkWithdraws
              Polls.worldWithdraw) as (Hok & _ & _ & _ & _ & _ & _ & Hdown).
  cbv zeta in Hdown. specialize (Hdown "timeout" eq_refl).
  destruct (checkWithdraws Polls.connector_checkWithdraws Polls.worldWithdraw)
    as [r w']. cbn [fst snd] in *. now subst.
Defined.

(** ** Resending and polling *)

Section Resend.

Variable orionBlockchain : OrionBlockchain.t.
Variable symbolToAddresses : string -> string * string.
Variable nameToAddress : string -> string.
Variable web3_packed : list string -> option (list byte).
Variable signTypedMessage : string -> Z -> BlockchainOrder.t -> result string.
Variable BigNumber_toString : BigNumber -> string.
Variable fetchOrder : string -> string -> result CCXT.Order.t.

Local Abbreviation check :=
  (onCheckSubOrder orionBlockchain symbolToAddresses nameToAddress
     web3_packed signTypedMessage BigNumber_toString).
Local Abbreviation handle :=
  (onTrade orionBlockchain symbolToAddresses nameToAddress
     web3_packed signTypedMessage BigNumber_toString).
Local Abbreviation resend :=
  (resendSubOrders orionBlockchain symbolToAddresses nameToAddress
     web3_packed signTypedMessage BigNumber_toString).

Lemma forEach_resend (subOrders : list DbSubOrder.t) :
  let body := fun subOrder : DbSubOrder.t =>
    st <- check (DbSubOrder.id subOrder) ;;
    emit (BrokerHub_sendSubOrderStatus st) in
  forall (w0 w : World.t),
    World.db w = World.db w0 ->
    exists sent,
      snd (forEach body subOrders w)
      = World.set_trace w (World.trace w ++ map BrokerHub_sendSubOrderStatus sent)
      /\ Forall2 (fun subOrder st => fst (check (DbSubOrder.id subOrder) w0) = Ok st)
           (firstn (List.length sent) subOrders) sent
      /\ (fst (forEach body subOrders w) = Ok tt ->
          List.length sent = List.length subOrders)
      /\ ((List.length sent < List.length subOrders)%nat ->
          exists subOrder msg,
            nth_error subOrders (List.length sent) = Some subOrder
            /\ fst (check (DbSubOrder.id subOrder) w0) = Throw msg).
Proof.
  intros body.
  induction subOrders as [|s rest IH]; intros w0 w Hdb; cbn [forEach].
  - exists []. cbn. rewrite app_nil_r. destruct w. cbn. repeat split.
    + constructor.
    + lia.
  - assert (Hbody :
      body s w
      = match fst (check (DbSubOrder.id s) w0) with
        | Ok st =>
            (Ok tt,
             World.set_trace w (World.trace w ++ [BrokerHub_sendSubOrderStatus st]))
        | Throw msg => (Throw msg, w)
        end).
    { pose proof (onCheckSubOrder_world orionBlockchain symbolToAddresses
                    nameToAddress
                      web3_packed signTypedMessage BigNumber_toString
                    (DbSubOrder.id s) w) as Hworld.
      rewrite <- (onCheckSubOrder_store orionBlockchain symbolToAddresses
                    nameToAddress
                      web3_packed signTypedMessage BigNumber_toString
                    (DbSubOrder.id s) w w0 Hdb).
      unfold body, bind, emit, modify.
      destruct (check (DbSubOrder.id s) w) as [[st|msg] w1]; cbn [fst snd] in *;
        subst w1; reflexivity. }
    unfold bind. rewrite Hbody.
    destruct (fst (check (DbSubOrder.id s) w0)) as [st|msg] eqn:Hcheck.
    + destruct (IH w0 (World.set_trace w
                         (World.trace w ++ [BrokerHub_sendSubOrderStatus st])) Hdb)
        as (sent & Hsnd & Hsent & Hall & Hstop).
      exists (st :: sent). cbn [map List.length firstn]. split; [|split; [|split]].
      * rewrite Hsnd. cbn. now rewrite <- app_assoc.
      * constructor; [exact Hcheck | exact Hsent].
      * intros Hok. f_equal. now apply Hall.
      * intros Hlt. apply Hstop. lia.
    + exists []. cbn. rewrite app_nil_r. destruct w. cbn. split; [reflexivity|].
      split; [constructor|]. split; [discriminate|].
      intros _. exists s, msg. split; [reflexivity | exact Hcheck].
Qed.


(** X30. From the venue to the hub: when the poll of a stored sub-order
    that was not yet sent, with an amount that is a number, yields a
    trade, [onTrade] accepts it; the sub-order is then stored FILLED
    with its whole amount as filled amount, or CANCELED with a filled
    amount that is a number, and is among the sub-orders to resend. *)
Theorem polled_trade_is_kept_for_the_hub (w : World.t) (s : DbSubOrder.t)
    (exchangeOrderId : string) (trade : Trade.t) :
  Db.getSubOrder (DbSubOrder.exchange s) exchangeOrderId (World.db w) = Some s ->
  CCXT.checkSubOrder fetchOrder s exchangeOrderId = Ok (Some trade) ->
  BN.isNaN (DbSubOrder.amount s) = false ->
  DbSubOrder.sentToAggregator s = false ->
  let w' := snd (handle trade w) in
  let s' := DbSubOrder.set_status
              (DbSubOrder.set_filledAmount s (Trade.amount trade))
              (Trade.status trade) in
  Db.getSubOrderById (DbSubOrder.id s) (World.db w') = Some s'
  /\ (DbSubOrder.status s' = FILLED
      /\ DbSubOrder.filledAmount s' = DbSubOrder.amount s
      \/ DbSubOrder.status s' = CANCELED
         /\ BN.isNaN (DbSubOrder.filledAmount s') = false)
  /\ In s' (DbQueries.getSubOrdersToResend (World.db w')).
Proof.
  intros Hs Hpoll Hamount Hsent w' s'.
  destruct (checkSubOrder_trade fetchOrder s exchangeOrderId trade Hpoll)
    as (Hexchange & Hid & _ & Hstatus).
  assert (Hfound : Db.getSubOrder (Trade.exchange trade)
                     (Trade.exchangeOrderId trade) (World.db w) = Some s)
    by now rewrite Hexchange, Hid.
  assert (Hok : Trade.status trade = FILLED
                /\ BN.eq (DbSubOrder.amount s) (Trade.amount trade) = true
                \/ Trade.status trade = CANCELED).
  { destruct Hstatus as [[Hf Ha] | [Hc _]]; [left | now right].
    split; [exact Hf|]. rewrite Ha.
    destruct (DbSubOrder.amount s) as [|q]; [discriminate|].
    cbn. apply Qeq_bool_iff. reflexivity. }
  assert (Hrow : Db.getSubOrderById (DbSubOrder.id s) (World.db w') = Some s').
  { unfold w'.
    rewrite (onTrade_store orionBlockchain symbolToAddresses nameToAddress
               web3_packed signTypedMessage BigNumber_toString w trade s Hfound Hok).
    destruct (find_by_id_In (Db.subOrders (World.db w)) s
                (getSubOrder_In _ _ _ _ Hs)) as [r Hr].
    unfold Db.getSubOrderById, Db.updateSubOrder. cbn [Db.subOrders].
    apply find_updated with (s := r); [|reflexivity].
    destruct (BN.gt (Trade.amount trade) (BN.ofZ 0)); exact Hr. }
  split; [exact Hrow|]. split.
  - unfold s'. cbn. exact Hstatus.
  - unfold DbQueries.getSubOrdersToResend. apply filter_In. split.
    + unfold Db.getSubOrderById in Hrow. now apply find_some in Hrow.
    + unfold s'. cbn. rewrite Hsent.
      destruct Hstatus as [[-> _] | [-> _]]; reflexivity.
Qed.

End Resend.



(** The theorem at scenario S1: venue X reports order [e1] closed, and
    the filled sub-order 1 waits for the hub. *)
Lemma polled_trade_is_kept_for_the_hub_witness :
  Db.getSubOrder "X" "e1" (World.db Scenario.world1) = Some Scenario.subOrder1Accepted
  /\ CCXT.checkSubOrder Polls.fetchOrder Scenario.subOrder1Accepted "e1"
     = Ok (Some Scenario.trade1)
  /\ In Scenario.subOrder1
       (DbQueries.getSubOrdersToResend (World.db Scenario.world2)).
Proof.
  assert (Hs : Db.getSubOrder (DbSubOrder.exchange Scenario.subOrder1Accepted)
                 "e1" (World.db Scenario.world1) = Some Scenario.subOrder1Accepted)
    by (vm_compute; reflexivity).
  assert (Hpoll : CCXT.checkSubOrder Polls.fetchOrder Scenario.subOrder1Accepted
                    "e1" = Ok (Some Scenario.trade1))
    by (vm_compute; reflexivity).
  split; [exact Hs|]. split; [exact Hpoll|].
  exact (proj2 (proj2 (polled_trade_is_kept_for_the_hub Scenario.orionBlockchain
                         Scenario.symbolToAddresses Scenario.nameToAddress
                         Scenario.web3_packed Scenario.signTypedMessage Scenario.BigNumber_toString
                         Polls.fetchOrder Scenario.world1
                         Scenario.subOrder1Accepted "e1" Scenario.trade1
                         Hs Hpoll eq_refl eq_refl))).
Defined.
